(** * Financial Zen: the record store, the service layer, the extraction
      gateway and the intake handlers, embedded from the TypeScript sources.

    Modelling conventions, used throughout:
    - a JavaScript [number] holding an amount is an exact rational ([Q])
      and numeric equality is [==] on [Q]; the rounding of IEEE doubles is
      not modelled; a quotient or a difference that need not be finite is
      a [JsNumber], with [NaN] and the infinities;
    - an instant is the millisecond count of [Date.prototype.getTime],
      [option Z] with [None] for the [NaN] of an invalid date;
    - a [Promise] is the outcome it settles with; an [async] method of the
      store is a function from the world before the call to its result and
      the world after it;
    - the JSON text kept in [localStorage] under a key is represented by the
      collection it serialises;
    - an object created as [{}] is its list of own properties in creation
      order, read and written through the names it inherits from
      [Object.prototype];
    - a [string] is its sequence of code units, each below 256. *)

From Stdlib Require Import List String Ascii Bool Arith ZArith QArith Lia Lqa.
From Stdlib Require Import Permutation Sorted.
Import ListNotations.

Open Scope string_scope.
Open Scope Q_scope.

(* ================================================================== *)
(** * JavaScript primitives used by the sources *)
(* ================================================================== *)

(** [s || d] on an optional string: [undefined] and [""] are falsy. *)
Definition or_string (o : option string) (d : string) : string :=
  match o with
  | Some s => if (s =? "")%string then d else s
  | None => d
  end.

(** [n || d] on an optional number: [undefined] and [0] are falsy. *)
Definition or_number (o : option Q) (d : Q) : Q :=
  match o with
  | Some q => if Qeq_bool q 0 then d else q
  | None => d
  end.

(** [b || d] on an optional boolean. *)
Definition or_bool (o : option bool) (d : bool) : bool :=
  match o with
  | Some true => true
  | _ => d
  end.

(** [a || d] on an optional array: every array is truthy. *)
Definition or_array {A : Type} (o : option (list A)) (d : list A) : list A :=
  match o with
  | Some l => l
  | None => d
  end.

(** The outcome of a promise: the value it resolves with, or the error it
    rejects with (the exception an [await] rethrows). *)
Inductive JsError : Type :=
| Error (message : string).

Inductive Promise (A : Type) : Type :=
| Resolved (a : A)
| Rejected (e : JsError).
Arguments Resolved {A} a.
Arguments Rejected {A} e.

(** The sign [Array.prototype.sort] reads off the number its comparator
    returns: negative, zero (also for [NaN]) or positive. *)
Definition sign_of_Z (z : Z) : comparison := Z.compare z 0.
Definition sign_of_Q (q : Q) : comparison := Qcompare q 0.

(** [Array.prototype.sort(compareFn)]. ECMAScript requires the sort to be
    stable, which fixes the result for every consistent comparator; the
    insertion sort below computes it. [compareFn a b = Gt] moves [a] behind
    [b]. For an inconsistent comparator the standard leaves the order to the
    implementation. *)
Fixpoint sort_insert {A : Type} (compareFn : A -> A -> comparison)
         (x : A) (l : list A) : list A :=
  match l with
  | [] => [x]
  | y :: l' =>
      match compareFn x y with
      | Gt => y :: sort_insert compareFn x l'
      | _ => x :: l
      end
  end.

Definition Array_sort {A : Type} (compareFn : A -> A -> comparison)
           (l : list A) : list A :=
  fold_right (sort_insert compareFn) [] l.

(** [a > b] on numbers. *)
Definition Qgt_bool (a b : Q) : bool := negb (Qle_bool a b).

(** [Array.prototype.reduce((sum, x) => sum + f x, 0)]. *)
Definition reduce_sum {A : Type} (f : A -> Q) (l : list A) : Q :=
  fold_left (fun sum x => sum + f x) l 0.

(** [Array.prototype.findIndex]. *)
Fixpoint findIndex {A : Type} (p : A -> bool) (l : list A) : option nat :=
  match l with
  | [] => None
  | x :: l' => if p x then Some 0%nat else option_map S (findIndex p l')
  end.

(** [arr[i] = x] for an index inside the array. *)
Fixpoint set_at {A : Type} (i : nat) (x : A) (l : list A) : list A :=
  match l, i with
  | [], _ => []
  | _ :: l', O => x :: l'
  | y :: l', S i' => y :: set_at i' x l'
  end.

(** The environment's date parser: [new Date(s).getTime()]. *)
Class JsDate : Type := Date_parse : string -> option Z.

(* ================================================================== *)
(** * Data model (lib/types.ts) *)
(* ================================================================== *)

Inductive Theme : Type := dark | light.
Inductive Period : Type := monthly | weekly.

Record Preferences : Type := {
  pref_currency : string;
  pref_theme : Theme
}.

Module User.
Record t : Type := {
  id : string;
  email : string;
  name : string;
  preferences : Preferences;
  createdAt : string
}.
End User.

Record AiMetadata : Type := {
  confidence : Q;
  originalPrompt : string;
  modelUsed : string
}.

Module Transaction.
Record t : Type := {
  id : string;
  userId : string;
  amount : Q;
  currency : string;
  date : string;
  category : string;
  merchant : string;
  description : string;
  tags : list string;
  isRecurring : bool;
  aiMetadata : option AiMetadata
}.
End Transaction.

(** [Partial<Transaction>]: every field may be absent. *)
Module Partial.
Record t : Type := {
  id : option string;
  userId : option string;
  amount : option Q;
  currency : option string;
  date : option string;
  category : option string;
  merchant : option string;
  description : option string;
  tags : option (list string);
  isRecurring : option bool;
  aiMetadata : option AiMetadata
}.
End Partial.

Module Budget.
Record t : Type := {
  id : string;
  userId : string;
  category : string;
  limitAmount : Q;
  period : Period;
  spent : Q
}.
End Budget.

(** The closed enumeration of categories of the specification. *)
Definition category_enumeration : list string :=
  ["Food"; "Transport"; "Utilities"; "Entertainment"; "Health"; "Shopping";
   "Other"; "Uncategorized"].

Definition in_enumeration (c : string) : bool :=
  existsb (String.eqb c) category_enumeration.

(* ================================================================== *)
(** * The record store (lib/store.ts) *)
(* ================================================================== *)

(** The three private fields of [MockDatabase]. *)
Record MockDatabase : Type := {
  users : list User.t;
  transactions : list Transaction.t;
  budgets : list Budget.t
}.

(** [localStorage] under the keys [zen_users], [zen_transactions] and
    [zen_budgets]. *)
Record LocalStorage : Type := {
  zen_users : list User.t;
  zen_transactions : list Transaction.t;
  zen_budgets : list Budget.t
}.

Record World : Type := {
  db : MockDatabase;
  localStorage : LocalStorage
}.

(** [commit()] on a storage that takes every write: each collection is
    written back to [localStorage]. A storage that refuses a write is
    [commit_writing] below. *)
Definition commit (d : MockDatabase) : World :=
  {| db := d;
     localStorage := {| zen_users := users d;
                        zen_transactions := transactions d;
                        zen_budgets := budgets d |} |}.

(** [localStorage] holds what the last [commit] wrote. *)
Definition mirrored (w : World) : Prop := w = commit (db w).

Definition getUser (id : string) (w : World) : option User.t :=
  find (fun u => (User.id u =? id)%string) (users (db w)).

Definition createUser (user : User.t) (w : World) : User.t * World :=
  (user,
   commit {| users := users (db w) ++ [user];
             transactions := transactions (db w);
             budgets := budgets (db w) |}).

Definition guest_user (createdAt : string) : User.t :=
  {| User.id := "guest_user";
     User.email := "guest@zen.finance";
     User.name := "Zen Traveler";
     User.preferences := {| pref_currency := "USD"; pref_theme := dark |};
     User.createdAt := createdAt |}.

(** [new MockDatabase()]: the stored collections are loaded, and the guest
    user is created when no user is stored. [now] is the text of
    [new Date().toISOString()]. *)
Definition MockDatabase_new (stored : LocalStorage) (now : string) : World :=
  let hydrated :=
    {| db := {| users := zen_users stored;
                transactions := zen_transactions stored;
                budgets := zen_budgets stored |};
       localStorage := stored |} in
  match users (db hydrated) with
  | [] => snd (createUser (guest_user now) hydrated)
  | _ :: _ => hydrated
  end.

Module Filters.
Record t : Type := {
  category : option string;
  startDate : option string
}.
End Filters.

(** [new Date(a) >= new Date(b)]: false as soon as one side is invalid. *)
Definition date_ge (a b : option Z) : bool :=
  match a, b with
  | Some x, Some y => (y <=? x)%Z
  | _, _ => false
  end.

(** The comparator [(a, b) => new Date(b.date).getTime() -
    new Date(a.date).getTime()]. *)
Definition by_date_desc `{JsDate} (a b : Transaction.t) : comparison :=
  match Date_parse (Transaction.date b), Date_parse (Transaction.date a) with
  | Some tb, Some ta => sign_of_Z (tb - ta)
  | _, _ => Eq
  end.

Definition owned_by (userId : string) (t : Transaction.t) : bool :=
  (Transaction.userId t =? userId)%string.

(** [filters?.category] and [filters?.startDate]. *)
Definition filters_category (filters : option Filters.t) : option string :=
  match filters with
  | Some f => Filters.category f
  | None => None
  end.

Definition filters_startDate (filters : option Filters.t) : option string :=
  match filters with
  | Some f => Filters.startDate f
  | None => None
  end.

(** The [if (filters?.category)] step: skipped when the filter is absent or
    the empty string. *)
Definition filter_category (filters : option Filters.t)
           (data : list Transaction.t) : list Transaction.t :=
  match filters_category filters with
  | Some category =>
      if negb (category =? "")%string
      then filter (fun t => (Transaction.category t =? category)%string) data
      else data
  | None => data
  end.

(** The [if (filters?.startDate)] step. *)
Definition filter_startDate `{JsDate} (filters : option Filters.t)
           (data : list Transaction.t) : list Transaction.t :=
  match filters_startDate filters with
  | Some startDate =>
      if negb (startDate =? "")%string
      then filter (fun t => date_ge (Date_parse (Transaction.date t))
                                    (Date_parse startDate))
                  data
      else data
  | None => data
  end.

Definition getTransactions `{JsDate} (userId : string)
           (filters : option Filters.t) (w : World) : list Transaction.t :=
  let data := filter (owned_by userId) (transactions (db w)) in
  let data := filter_category filters data in
  let data := filter_startDate filters data in
  Array_sort by_date_desc data.

Definition createTransaction (tx : Transaction.t) (w : World)
  : Promise Transaction.t * World :=
  (Resolved tx,
   commit {| users := users (db w);
             transactions := transactions (db w) ++ [tx];
             budgets := budgets (db w) |}).

(** [localStorage.setItem] throws when the storage refuses the text: the
    quota is used up, or storage is switched off. [commit()] makes three
    calls in a row, and the first that throws ends it: the texts before it
    are written, the others stay as they were. [WritesAll] is the storage
    [commit] above assumes. *)
Inductive Writes : Type :=
| WritesAll
| ThrowsAtUsers
| ThrowsAtTransactions
| ThrowsAtBudgets.

Definition accepts (storage : Writes) : bool :=
  match storage with
  | WritesAll => true
  | _ => false
  end.

Definition storage_refused : JsError := Error "QuotaExceededError".

(** What [commit()] leaves in [localStorage]. *)
Definition commit_writing (storage : Writes) (d : MockDatabase)
           (stored : LocalStorage) : LocalStorage :=
  match storage with
  | WritesAll =>
      {| zen_users := users d;
         zen_transactions := transactions d;
         zen_budgets := budgets d |}
  | ThrowsAtUsers => stored
  | ThrowsAtTransactions =>
      {| zen_users := users d;
         zen_transactions := zen_transactions stored;
         zen_budgets := zen_budgets stored |}
  | ThrowsAtBudgets =>
      {| zen_users := users d;
         zen_transactions := transactions d;
         zen_budgets := zen_budgets stored |}
  end.

(** [createTransaction] against such a storage: the record is pushed before
    [commit()] runs, and what [commit()] throws rejects the promise. *)
Definition createTransaction_writing (storage : Writes) (tx : Transaction.t)
           (w : World) : Promise Transaction.t * World :=
  let pushed := {| users := users (db w);
                   transactions := transactions (db w) ++ [tx];
                   budgets := budgets (db w) |} in
  (if accepts storage then Resolved tx else Rejected storage_refused,
   {| db := pushed;
      localStorage := commit_writing storage pushed (localStorage w) |}).

Definition delete_target (id userId : string) (t : Transaction.t) : bool :=
  (Transaction.id t =? id)%string && (Transaction.userId t =? userId)%string.

Definition deleteTransaction (id userId : string) (w : World) : World :=
  commit {| users := users (db w);
            transactions :=
              filter (fun t => negb (delete_target id userId t))
                     (transactions (db w));
            budgets := budgets (db w) |}.

(** [{ ...b, spent }]. *)
Definition with_spent (b : Budget.t) (spent : Q) : Budget.t :=
  {| Budget.id := Budget.id b;
     Budget.userId := Budget.userId b;
     Budget.category := Budget.category b;
     Budget.limitAmount := Budget.limitAmount b;
     Budget.period := Budget.period b;
     Budget.spent := spent |}.

Definition in_category (c : string) (t : Transaction.t) : bool :=
  (Transaction.category t =? c)%string.

Definition getBudgets `{JsDate} (userId : string) (w : World) : list Budget.t :=
  let userBudgets :=
    filter (fun b => (Budget.userId b =? userId)%string) (budgets (db w)) in
  let txs := getTransactions userId None w in
  map (fun b =>
         let spent :=
           reduce_sum Transaction.amount
                      (filter (in_category (Budget.category b)) txs) in
         with_spent b spent)
      userBudgets.

Definition upsertBudget (budget : Budget.t) (w : World) : Budget.t * World :=
  let bs := budgets (db w) in
  let bs' :=
    match findIndex (fun b => (Budget.id b =? Budget.id budget)%string) bs with
    | Some idx => set_at idx budget bs
    | None => (bs ++ [budget])%list
    end in
  (budget,
   commit {| users := users (db w);
             transactions := transactions (db w);
             budgets := bs' |}).

(* ================================================================== *)
(** * The extraction gateway (lib/ai.ts) *)
(* ================================================================== *)

(** A value produced by [JSON.parse]. At run time a [Partial<Transaction>]
    returned by the gateway is whatever value the model's text parses to. *)
#[warnings="-register-all"]
Inductive JsValue : Type :=
| JNull
| JBool (b : bool)
| JNumber (q : Q)
| JString (s : string)
| JArray (items : list JsValue)
| JObject (fields : list (string * JsValue)).

(** The empty object literal [{}]: a partial record with every field absent. *)
Definition empty_partial : JsValue := JObject [].

(** Truthiness, as tested by [if (res.data)]. *)
Definition truthy (v : JsValue) : bool :=
  match v with
  | JNull => false
  | JBool b => b
  | JNumber q => negb (Qeq_bool q 0)
  | JString s => negb (s =? "")%string
  | JArray _ => true
  | JObject _ => true
  end.

(** [JSON.parse]: [None] when it throws a [SyntaxError]. *)
Class JsJSON : Type := JSON_parse : string -> option JsValue.

Inductive SchemaType : Type := OBJECT | NUMBER | STRING | BOOLEAN | ARRAY.

(** A [responseSchema]. *)
#[warnings="-register-all"]
Inductive Schema : Type :=
| Primitive (type : SchemaType)
| ArrayOf (items : Schema)
| ObjectOf (properties : list (string * Schema)) (required : list string).

Definition properties_of (s : Schema) : list string :=
  match s with
  | ObjectOf properties _ => map fst properties
  | _ => []
  end.

Definition required_of (s : Schema) : list string :=
  match s with
  | ObjectOf _ required => required
  | _ => []
  end.

(** The three system instructions; their wording plays no part below. *)
Inductive SystemInstruction : Type :=
| TransactionParserRules
| ReceiptExtractionRules
| ZenOraclePersona.

Inductive Part : Type :=
| InlineData (data mimeType : string)
| TextPart (text : string).

(** The [contents] of a request. [CoachPrompt context query] stands for the
    template literal
    [`Transaction History: ${JSON.stringify(context)}\n\nUser Inquiry: ${query}`]. *)
Inductive Contents : Type :=
| ContentText (text : string)
| ContentParts (parts : list Part)
| CoachPrompt (context : list Transaction.t) (query : string).

Record Config : Type := {
  systemInstruction : SystemInstruction;
  responseMimeType : option string;
  responseSchema : option Schema;
  thinkingBudget : option Z
}.

Record Request : Type := {
  model : string;
  contents : Contents;
  config : Config
}.

Record Response : Type := { text : option string }.

(** The remote model behind [ai.models.generateContent]: the call either
    resolves with a response or rejects (transport or provider failure). *)
Record GoogleGenAI : Type := {
  generateContent : Request -> Promise Response
}.

Definition MODEL_FAST : string := "gemini-3-flash-preview".
Definition MODEL_PRO : string := "gemini-3-pro-preview".

Definition parseTransactionSchema : Schema :=
  ObjectOf
    [("amount", Primitive NUMBER);
     ("currency", Primitive STRING);
     ("merchant", Primitive STRING);
     ("category", Primitive STRING);
     ("date", Primitive STRING);
     ("description", Primitive STRING);
     ("isRecurring", Primitive BOOLEAN);
     ("tags", ArrayOf (Primitive STRING))]
    ["amount"; "currency"; "category"; "date"].

Definition parseTransactionRequest (input : string) : Request :=
  {| model := MODEL_FAST;
     contents := ContentText input;
     config := {| systemInstruction := TransactionParserRules;
                  responseMimeType := Some "application/json";
                  responseSchema := Some parseTransactionSchema;
                  thinkingBudget := None |} |}.

Record ParseResult : Type := {
  transaction : JsValue;
  rawResponse : string
}.

Definition parseTransactionWithAI `{JsJSON} (ai : GoogleGenAI) (input : string)
  : Promise ParseResult :=
  match generateContent ai (parseTransactionRequest input) with
  | Rejected e => Rejected e
  | Resolved response =>
      let text := or_string (text response) "{}" in
      let data :=
        match JSON_parse text with
        | Some v => v
        | None => empty_partial
        end in
      Resolved {| transaction := data; rawResponse := text |}
  end.

Definition scanReceiptSchema : Schema :=
  ObjectOf
    [("amount", Primitive NUMBER);
     ("currency", Primitive STRING);
     ("merchant", Primitive STRING);
     ("category", Primitive STRING);
     ("date", Primitive STRING)]
    ["amount"; "currency"; "merchant"; "date"].

Definition scanReceiptRequest (base64Image mimeType : string) : Request :=
  {| model := MODEL_FAST;
     contents := ContentParts [InlineData base64Image mimeType;
                               TextPart "Extract receipt JSON."];
     config := {| systemInstruction := ReceiptExtractionRules;
                  responseMimeType := Some "application/json";
                  responseSchema := Some scanReceiptSchema;
                  thinkingBudget := None |} |}.

Definition scanReceiptWithAI `{JsJSON} (ai : GoogleGenAI)
           (base64Image mimeType : string) : Promise JsValue :=
  match generateContent ai (scanReceiptRequest base64Image mimeType) with
  | Rejected e => Rejected e
  | Resolved response =>
      match JSON_parse (or_string (text response) "{}") with
      | Some v => Resolved v
      | None => Resolved empty_partial
      end
  end.

Definition coach_fallback : string :=
  "Synchronicity lost. Please repeat the query.".

Definition askFinancialCoachRequest (history : list Transaction.t)
           (query : string) : Request :=
  let context := firstn 50 history in
  {| model := MODEL_PRO;
     contents := CoachPrompt context query;
     config := {| systemInstruction := ZenOraclePersona;
                  responseMimeType := None;
                  responseSchema := None;
                  thinkingBudget := Some 16384%Z |} |}.

Definition askFinancialCoach (ai : GoogleGenAI)
           (history : list Transaction.t) (query : string) : Promise string :=
  match generateContent ai (askFinancialCoachRequest history query) with
  | Rejected e => Rejected e
  | Resolved response => Resolved (or_string (text response) coach_fallback)
  end.

(* ================================================================== *)
(** * The service layer (lib/api.ts) *)
(* ================================================================== *)

Record ApiResponse (T : Type) : Type := {
  data : option T;
  error : option string;
  status : Z
}.
Arguments data {T} _.
Arguments error {T} _.
Arguments status {T} _.

(** [{ data: d, status: 200 }]. *)
Definition ok_response (d : JsValue) : ApiResponse JsValue :=
  {| data := Some d; error := None; status := 200 |}.

Module AuthService.
Definition currentUserId : string := "guest_user".

Definition getSession (w : World) : Promise User.t :=
  match getUser currentUserId w with
  | Some user => Resolved user
  | None => Rejected (Error "Session invalid")
  end.
End AuthService.

Module TransactionService.
Definition getAll `{JsDate} (w : World) : ApiResponse (list Transaction.t) :=
  {| data := Some (getTransactions AuthService.currentUserId None w);
     error := None;
     status := 200 |}.

(** The record [create] builds from the payload, the session user, the
    identifier drawn from [Math.random] and the text of
    [new Date().toISOString()]. *)
Definition newTx (randomId now : string) (user : User.t)
           (payload : Partial.t) : Transaction.t :=
  {| Transaction.id := randomId;
     Transaction.userId := User.id user;
     Transaction.amount := or_number (Partial.amount payload) 0;
     Transaction.currency :=
       or_string (Partial.currency payload)
                 (pref_currency (User.preferences user));
     Transaction.date := or_string (Partial.date payload) now;
     Transaction.category :=
       or_string (Partial.category payload) "Uncategorized";
     Transaction.merchant := or_string (Partial.merchant payload) "Unknown";
     Transaction.description := or_string (Partial.description payload) "";
     Transaction.tags := or_array (Partial.tags payload) [];
     Transaction.isRecurring := or_bool (Partial.isRecurring payload) false;
     Transaction.aiMetadata := Partial.aiMetadata payload |}.

Definition create (randomId now : string) (payload : Partial.t) (w : World)
  : ApiResponse Transaction.t * World :=
  match AuthService.getSession w with
  | Rejected _ =>
      ({| data := None; error := Some "Creation failed"; status := 500 |}, w)
  | Resolved user =>
      match createTransaction (newTx randomId now user payload) w with
      | (Resolved saved, w') =>
          ({| data := Some saved; error := None; status := 201 |}, w')
      | (Rejected _, w') =>
          ({| data := None; error := Some "Creation failed"; status := 500 |},
           w')
      end
  end.

(** [create] against a storage that may refuse a write: the [catch] block
    answers for a missing session user and for a refused write alike. *)
Definition create_writing (storage : Writes) (randomId now : string)
           (payload : Partial.t) (w : World)
  : ApiResponse Transaction.t * World :=
  match AuthService.getSession w with
  | Rejected _ =>
      ({| data := None; error := Some "Creation failed"; status := 500 |}, w)
  | Resolved user =>
      match createTransaction_writing storage
                                      (newTx randomId now user payload) w with
      | (Resolved saved, w') =>
          ({| data := Some saved; error := None; status := 201 |}, w')
      | (Rejected _, w') =>
          ({| data := None; error := Some "Creation failed"; status := 500 |},
           w')
      end
  end.

Definition delete (id : string) (w : World) : ApiResponse unit * World :=
  ({| data := None; error := None; status := 200 |},
   deleteTransaction id AuthService.currentUserId w).

Definition parseNaturalLanguage `{JsJSON} (ai : GoogleGenAI) (input : string)
  : Promise (ApiResponse JsValue) :=
  match parseTransactionWithAI ai input with
  | Rejected e => Rejected e
  | Resolved result =>
      Resolved {| data := Some (transaction result);
                  error := None;
                  status := 200 |}
  end.

Definition uploadReceipt `{JsJSON} (ai : GoogleGenAI)
           (fileBase64 mimeType : string) : Promise (ApiResponse JsValue) :=
  match scanReceiptWithAI ai fileBase64 mimeType with
  | Rejected e => Rejected e
  | Resolved result =>
      Resolved {| data := Some result; error := None; status := 200 |}
  end.
End TransactionService.

(** ** Numbers that need not be finite *)

(** The value of a quotient or of a difference: a finite number, [NaN], or
    an infinity with its sign. The sign of a zero is not kept. *)
Inductive JsNumber : Type :=
| Finite (q : Q)
| NaN
| Infinity (positive : bool).

(** [x / y]. *)
Definition js_div (x y : JsNumber) : JsNumber :=
  match x, y with
  | NaN, _ | _, NaN => NaN
  | Finite a, Finite b =>
      if Qeq_bool b 0
      then (if Qeq_bool a 0 then NaN else Infinity (Qgt_bool a 0))
      else Finite (a / b)
  | Finite _, Infinity _ => Finite 0
  | Infinity p, Finite b => Infinity (Bool.eqb p (Qle_bool 0 b))
  | Infinity _, Infinity _ => NaN
  end.

(** [x * y]. *)
Definition js_mul (x y : JsNumber) : JsNumber :=
  match x, y with
  | NaN, _ | _, NaN => NaN
  | Finite a, Finite b => Finite (a * b)
  | Finite a, Infinity p | Infinity p, Finite a =>
      if Qeq_bool a 0 then NaN else Infinity (Bool.eqb p (Qgt_bool a 0))
  | Infinity p, Infinity p' => Infinity (Bool.eqb p p')
  end.

(** [x - y]. *)
Definition js_sub (x y : JsNumber) : JsNumber :=
  match x, y with
  | NaN, _ | _, NaN => NaN
  | Finite a, Finite b => Finite (a - b)
  | Finite _, Infinity p => Infinity (negb p)
  | Infinity p, Finite _ => Infinity p
  | Infinity p, Infinity p' => if Bool.eqb p p' then NaN else Infinity p
  end.

(** The sign [Array.prototype.sort] reads off such a number. *)
Definition sign_of_number (x : JsNumber) : comparison :=
  match x with
  | Finite q => sign_of_Q q
  | NaN => Eq
  | Infinity true => Gt
  | Infinity false => Lt
  end.

(** ** An object created as [{}] and used as a [Record<string, number>] *)

(** What is kept under a name of [catMap] or [trendMap]. The declared type
    is [number]; but a name that [Object.prototype] also has reads as a
    function or an object before it is first written, and [+] then glues
    text to it. [Glued] is such a text: it begins with the text of the
    inherited member, so it is not empty and reads as [NaN]. *)
Inductive Tally : Type :=
| Sum (q : Q)
| Glued.

(** [ToNumber]. *)
Definition to_number (v : Tally) : JsNumber :=
  match v with
  | Sum q => Finite q
  | Glued => NaN
  end.

Module CategorySpending.
Record t : Type := {
  category : string;
  amount : Tally;
  percentage : JsNumber
}.
End CategorySpending.

Module MonthlyTrend.
Record t : Type := {
  date : string;
  amount : Tally
}.
End MonthlyTrend.

Record AnalyticsSummary : Type := {
  totalSpent : Q;
  burnRate : Q;
  topCategories : list CategorySpending.t;
  trend : list MonthlyTrend.t
}.

(** The own properties of the object, in creation order. *)
Definition TallyRecord : Type := list (string * Tally).

(** The property names every object inherits from [Object.prototype]. *)
Definition Object_prototype_names : list string :=
  ["constructor"; "__defineGetter__"; "__defineSetter__"; "hasOwnProperty";
   "__lookupGetter__"; "__lookupSetter__"; "isPrototypeOf";
   "propertyIsEnumerable"; "toString"; "valueOf"; "__proto__";
   "toLocaleString"].

Definition inherited (k : string) : bool :=
  existsb (String.eqb k) Object_prototype_names.

(** The own property of the name, if there is one. *)
Fixpoint record_get (m : TallyRecord) (k : string) : option Tally :=
  match m with
  | [] => None
  | (k', v) :: m' => if (k' =? k)%string then Some v else record_get m' k
  end.

(** An existing own property keeps its place, a new one is created last. *)
Fixpoint record_set (m : TallyRecord) (k : string) (v : Tally) : TallyRecord :=
  match m with
  | [] => [(k, v)]
  | (k', v') :: m' =>
      if (k' =? k)%string then (k', v) :: m' else (k', v') :: record_set m' k v
  end.

(** [m[k]]: the own property, else the member inherited under that name,
    else [undefined]. *)
Inductive Read : Type :=
| Own (v : Tally)
| Member
| Undefined.

Definition record_read (m : TallyRecord) (k : string) : Read :=
  match record_get m k with
  | Some v => Own v
  | None => if inherited k then Member else Undefined
  end.

(** [(r || 0) + x]: a number is added to; a text, a function and an object
    are truthy and are glued to the text of [x]. *)
Definition or_zero_plus (r : Read) (x : Q) : Tally :=
  match r with
  | Own (Sum q) => Sum (or_number (Some q) 0 + x)
  | Own Glued => Glued
  | Member => Glued
  | Undefined => Sum (or_number None 0 + x)
  end.

(** [m[k] = v] for a number or a text [v]: an own property is updated; the
    setter that [__proto__] names ignores such a value; under any other name
    an own property is created. *)
Definition record_write (m : TallyRecord) (k : string) (v : Tally)
  : TallyRecord :=
  match record_get m k with
  | Some _ => record_set m k v
  | None => if (k =? "__proto__")%string then m else record_set m k v
  end.

(** [m[k] = (m[k] || 0) + x]. *)
Definition record_add (m : TallyRecord) (k : string) (x : Q) : TallyRecord :=
  record_write m k (or_zero_plus (record_read m k) x).

Definition digit_of (c : ascii) : option N :=
  let n := N_of_ascii c in
  if ((48 <=? n) && (n <=? 57))%N then Some (n - 48)%N else None.

Fixpoint digits_value (s : string) (acc : N) : option N :=
  match s with
  | EmptyString => Some acc
  | String c s' =>
      match digit_of c with
      | Some d => digits_value s' (10 * acc + d)%N
      | None => None
      end
  end.

(** A property name that is an array index: the canonical decimal text of an
    integer below [2^32 - 1]. *)
Definition array_index (k : string) : option N :=
  match k with
  | EmptyString => None
  | String c rest =>
      if (c =? "0")%char && negb (rest =? "")%string then None
      else match digits_value k 0 with
           | Some n => if (n <? 4294967295)%N then Some n else None
           | None => None
           end
  end.

Definition is_array_index (kv : string * Tally) : bool :=
  match array_index (fst kv) with Some _ => true | None => false end.

Definition by_index_asc (a b : string * Tally) : comparison :=
  match array_index (fst a), array_index (fst b) with
  | Some i, Some j => N.compare i j
  | _, _ => Eq
  end.

(** [Object.entries]: the own properties, array-index names first, in
    ascending numeric order, then the other names in creation order. *)
Definition Object_entries (m : TallyRecord) : list (string * Tally) :=
  (Array_sort by_index_asc (filter is_array_index m)
   ++ filter (fun kv => negb (is_array_index kv)) m)%list.

(** [t.date.split('T')[0]]. *)
Fixpoint before_T (s : string) : string :=
  match s with
  | EmptyString => EmptyString
  | String c s' => if (c =? "T")%char then EmptyString else String c (before_T s')
  end.

(** [(a, b) => b.amount - a.amount]. *)
Definition by_amount_desc (a b : CategorySpending.t) : comparison :=
  sign_of_number (js_sub (to_number (CategorySpending.amount b))
                         (to_number (CategorySpending.amount a))).

Definition by_trend_date_asc `{JsDate} (a b : MonthlyTrend.t) : comparison :=
  match Date_parse (MonthlyTrend.date a), Date_parse (MonthlyTrend.date b) with
  | Some ta, Some tb => sign_of_Z (ta - tb)
  | _, _ => Eq
  end.

Module AnalyticsService.
Definition catMap_of (txs : list Transaction.t) : TallyRecord :=
  fold_left (fun catMap t =>
               record_add catMap (Transaction.category t) (Transaction.amount t))
            txs [].

(** [totalSpent > 0 ? (amount / totalSpent) * 100 : 0]. *)
Definition percentage_of (totalSpent : Q) (amount : Tally) : JsNumber :=
  if Qgt_bool totalSpent 0
  then js_mul (js_div (to_number amount) (Finite totalSpent)) (Finite 100)
  else Finite 0.

Definition topCategories_of (txs : list Transaction.t) : list CategorySpending.t :=
  let totalSpent := reduce_sum Transaction.amount txs in
  Array_sort by_amount_desc
    (map (fun entry =>
            {| CategorySpending.category := fst entry;
               CategorySpending.amount := snd entry;
               CategorySpending.percentage :=
                 percentage_of totalSpent (snd entry) |})
         (Object_entries (catMap_of txs))).

Definition trendMap_of (txs : list Transaction.t) : TallyRecord :=
  fold_left (fun trendMap t =>
               record_add trendMap (before_T (Transaction.date t))
                          (Transaction.amount t))
            txs [].

Definition trend_of `{JsDate} (txs : list Transaction.t) : list MonthlyTrend.t :=
  Array_sort by_trend_date_asc
    (map (fun entry => {| MonthlyTrend.date := fst entry;
                          MonthlyTrend.amount := snd entry |})
         (Object_entries (trendMap_of txs))).

Definition getDashboardSummary `{JsDate} (w : World)
  : ApiResponse AnalyticsSummary :=
  let txs := getTransactions AuthService.currentUserId None w in
  {| data := Some {| totalSpent := reduce_sum Transaction.amount txs;
                     burnRate := 0;
                     topCategories := topCategories_of txs;
                     trend := trend_of txs |};
     error := None;
     status := 200 |}.
End AnalyticsService.

Module BudgetService.
Definition default_budget (id category : string) (limitAmount : Q) : Budget.t :=
  {| Budget.id := id;
     Budget.userId := AuthService.currentUserId;
     Budget.category := category;
     Budget.limitAmount := limitAmount;
     Budget.period := monthly;
     Budget.spent := 0 |}.

Definition defaults : list Budget.t :=
  [default_budget "b1" "Food" 500;
   default_budget "b2" "Transport" 200;
   default_budget "b3" "Entertainment" 300].

Definition getAll `{JsDate} (w : World) : ApiResponse (list Budget.t) :=
  let budgets := getBudgets AuthService.currentUserId w in
  match budgets with
  | [] => {| data := Some defaults; error := None; status := 200 |}
  | _ => {| data := Some budgets; error := None; status := 200 |}
  end.
End BudgetService.

(* ================================================================== *)
(** * The intake handlers of the [App] component *)
(* ================================================================== *)

Inductive Role : Type := role_user | role_ai.

Record ChatMessage : Type := {
  role : Role;
  message : string
}.

(** The pieces of component state the handlers below touch, together with
    the part of the event loop they depend on: the timeouts still pending,
    each with the [magicInput] its callback closed over, and the parse calls
    issued and not yet settled, each with the input it was issued for. *)
Module App.
Record t : Type := {
  transactions : list Transaction.t;
  magicInput : string;
  isProcessing : bool;
  coachQuery : string;
  chatHistory : list ChatMessage;
  aiPreview : option JsValue;
  previewImage : option string;
  timerRef : option nat;
  nextTimeoutId : nat;
  timeouts : list (nat * string);
  inflight : list string
}.

(** The state of a freshly mounted component. Timer identifiers handed out
    by [window.setTimeout] are positive. *)
Definition mounted : t :=
  {| transactions := [];
     magicInput := "";
     isProcessing := false;
     coachQuery := "";
     chatHistory := [];
     aiPreview := None;
     previewImage := None;
     timerRef := None;
     nextTimeoutId := 1;
     timeouts := [];
     inflight := [] |}.
End App.

(** [!aiPreview]. *)
Definition no_preview (p : option JsValue) : bool :=
  match p with
  | Some v => negb (truthy v)
  | None => true
  end.

(** [clearTimeout(id)]. *)
Definition clearTimeout (id : nat) (timeouts : list (nat * string))
  : list (nat * string) :=
  filter (fun entry => negb (fst entry =? id)%nat) timeouts.

Fixpoint remove_first (x : string) (l : list string) : list string :=
  match l with
  | [] => []
  | y :: l' => if (y =? x)%string then l' else y :: remove_first x l'
  end.

(** The effect that depends on [magicInput]: with more than eight characters
    typed and no preview shown, the previous timeout is cleared and a new one
    is scheduled whose callback closes over the current input. *)
Definition parsing_effect (s : App.t) : App.t :=
  if (8 <? String.length (App.magicInput s))%nat
     && no_preview (App.aiPreview s)
  then
    let pending :=
      match App.timerRef s with
      | Some id => clearTimeout id (App.timeouts s)
      | None => App.timeouts s
      end in
    {| App.transactions := App.transactions s;
       App.magicInput := App.magicInput s;
       App.isProcessing := App.isProcessing s;
       App.coachQuery := App.coachQuery s;
       App.chatHistory := App.chatHistory s;
       App.aiPreview := App.aiPreview s;
       App.previewImage := App.previewImage s;
       App.timerRef := Some (App.nextTimeoutId s);
       App.nextTimeoutId := S (App.nextTimeoutId s);
       App.timeouts :=
         (pending ++ [(App.nextTimeoutId s, App.magicInput s)])%list;
       App.inflight := App.inflight s |}
  else s.

(** [onChange]: [setMagicInput(e.target.value)], then the effect when the
    value changed. *)
Definition onChange (value : string) (s : App.t) : App.t :=
  if (App.magicInput s =? value)%string then s
  else
    parsing_effect
      {| App.transactions := App.transactions s;
         App.magicInput := value;
         App.isProcessing := App.isProcessing s;
         App.coachQuery := App.coachQuery s;
         App.chatHistory := App.chatHistory s;
         App.aiPreview := App.aiPreview s;
         App.previewImage := App.previewImage s;
         App.timerRef := App.timerRef s;
         App.nextTimeoutId := App.nextTimeoutId s;
         App.timeouts := App.timeouts s;
         App.inflight := App.inflight s |}.

(** A pending timeout elapses: [setIsProcessing(true)] and
    [TransactionService.parseNaturalLanguage] is called with the input the
    callback closed over. *)
Definition timeoutElapsed (id : nat) (s : App.t) : App.t :=
  match find (fun entry => (fst entry =? id)%nat) (App.timeouts s) with
  | None => s
  | Some (_, input) =>
      {| App.transactions := App.transactions s;
         App.magicInput := App.magicInput s;
         App.isProcessing := true;
         App.coachQuery := App.coachQuery s;
         App.chatHistory := App.chatHistory s;
         App.aiPreview := App.aiPreview s;
         App.previewImage := App.previewImage s;
         App.timerRef := App.timerRef s;
         App.nextTimeoutId := App.nextTimeoutId s;
         App.timeouts := clearTimeout id (App.timeouts s);
         App.inflight := (App.inflight s ++ [input])%list |}
  end.

(** The preview after the call settles:
    [if (res.data) setAiPreview(res.data)], nothing in the [catch]. *)
Definition preview_after (outcome : Promise (ApiResponse JsValue))
           (current : option JsValue) : option JsValue :=
  match outcome with
  | Resolved res =>
      match data res with
      | Some d => if truthy d then Some d else current
      | None => current
      end
  | Rejected _ => current
  end.

(** The call issued for [input] settles: the rest of the timeout callback
    runs, ending with [setIsProcessing(false)]. *)
Definition parseSettled (input : string)
           (outcome : Promise (ApiResponse JsValue)) (s : App.t) : App.t :=
  if existsb (String.eqb input) (App.inflight s) then
    {| App.transactions := App.transactions s;
       App.magicInput := App.magicInput s;
       App.isProcessing := false;
       App.coachQuery := App.coachQuery s;
       App.chatHistory := App.chatHistory s;
       App.aiPreview := preview_after outcome (App.aiPreview s);
       App.previewImage := App.previewImage s;
       App.timerRef := App.timerRef s;
       App.nextTimeoutId := App.nextTimeoutId s;
       App.timeouts := App.timeouts s;
       App.inflight := remove_first input (App.inflight s) |}
  else s.

(** The dismiss button: [setAiPreview(null); setPreviewImage(null)]. *)
Definition dismiss (s : App.t) : App.t :=
  {| App.transactions := App.transactions s;
     App.magicInput := App.magicInput s;
     App.isProcessing := App.isProcessing s;
     App.coachQuery := App.coachQuery s;
     App.chatHistory := App.chatHistory s;
     App.aiPreview := None;
     App.previewImage := None;
     App.timerRef := App.timerRef s;
     App.nextTimeoutId := App.nextTimeoutId s;
     App.timeouts := App.timeouts s;
     App.inflight := App.inflight s |}.

Inductive Event : Type :=
| Typed (value : string)
| TimeoutElapsed (id : nat)
| ParseSettled (input : string) (outcome : Promise (ApiResponse JsValue))
| Dismissed.

Definition step (s : App.t) (e : Event) : App.t :=
  match e with
  | Typed value => onChange value s
  | TimeoutElapsed id => timeoutElapsed id s
  | ParseSettled input outcome => parseSettled input outcome s
  | Dismissed => dismiss s
  end.

Definition run (events : list Event) (s : App.t) : App.t :=
  fold_left step events s.

(** ASCII white space, as removed by [String.prototype.trim]. *)
Definition is_space (c : ascii) : bool :=
  let n := nat_of_ascii c in
  ((9 <=? n) && (n <=? 13) || (n =? 32))%nat.

(** [!coachQuery.trim()]. *)
Fixpoint blank (s : string) : bool :=
  match s with
  | EmptyString => true
  | String c s' => is_space c && blank s'
  end.

Definition coach_broken : string := "Spectral link broken.".

(** [askCoach], from the submit to the end of its [finally] block. *)
Definition askCoach (ai : GoogleGenAI) (s : App.t) : App.t :=
  if blank (App.coachQuery s) then s
  else
    let userMsg := App.coachQuery s in
    let reply :=
      match askFinancialCoach ai (App.transactions s) userMsg with
      | Resolved res => res
      | Rejected _ => coach_broken
      end in
    {| App.transactions := App.transactions s;
       App.magicInput := App.magicInput s;
       App.isProcessing := false;
       App.coachQuery := "";
       App.chatHistory :=
         (App.chatHistory s
          ++ [{| role := role_user; message := userMsg |}]
          ++ [{| role := role_ai; message := reply |}])%list;
       App.aiPreview := App.aiPreview s;
       App.previewImage := App.previewImage s;
       App.timerRef := App.timerRef s;
       App.nextTimeoutId := App.nextTimeoutId s;
       App.timeouts := App.timeouts s;
       App.inflight := App.inflight s |}.

(* ================================================================== *)
(** * A concrete environment for running the definitions *)
(* ================================================================== *)

(** ** ISO 8601 dates

    [Date.parse] on the two forms the application produces: the date-only
    form [YYYY-MM-DD] and the form [YYYY-MM-DDTHH:MM:SS.sssZ] of
    [toISOString]. Every other text is an invalid date here. *)

Definition decimal (s : string) : option Z :=
  match s with
  | EmptyString => None
  | _ => option_map Z.of_N (digits_value s 0)
  end.

Definition is_leap (y : Z) : bool :=
  ((y mod 4 =? 0) && negb (y mod 100 =? 0) || (y mod 400 =? 0))%Z.

Definition days_in_month (y m : Z) : Z :=
  (if m =? 2 then (if is_leap y then 29 else 28)
   else if (m =? 4) || (m =? 6) || (m =? 9) || (m =? 11) then 30
   else 31)%Z.

(** Days between 1970-01-01 and the given civil date. *)
Definition days_from_civil (y m d : Z) : Z :=
  (let y' := if m <=? 2 then y - 1 else y in
   let era := y' / 400 in
   let yoe := y' - era * 400 in
   let mp := (m + 9) mod 12 in
   let doy := (153 * mp + 2) / 5 + d - 1 in
   let doe := yoe * 365 + yoe / 4 - yoe / 100 + doy in
   era * 146097 + doe - 719468)%Z.

Definition iso_day (s : string) : option Z :=
  if (substring 4 1 s =? "-")%string && (substring 7 1 s =? "-")%string then
    match decimal (substring 0 4 s), decimal (substring 5 2 s),
          decimal (substring 8 2 s) with
    | Some y, Some m, Some d =>
        if ((1 <=? m) && (m <=? 12) && (1 <=? d) && (d <=? days_in_month y m))%Z
        then Some (days_from_civil y m d * 86400000)%Z
        else None
    | _, _, _ => None
    end
  else None.

Definition iso_time (s : string) : option Z :=
  if (substring 0 1 s =? "T")%string && (substring 3 1 s =? ":")%string
     && (substring 6 1 s =? ":")%string && (substring 9 1 s =? ".")%string
     && (substring 13 1 s =? "Z")%string
  then
    match decimal (substring 1 2 s), decimal (substring 4 2 s),
          decimal (substring 7 2 s), decimal (substring 10 3 s) with
    | Some h, Some mi, Some sec, Some ms =>
        if ((h <=? 23) && (mi <=? 59) && (sec <=? 59))%Z
        then Some (((h * 60 + mi) * 60 + sec) * 1000 + ms)%Z
        else None
    | _, _, _, _ => None
    end
  else None.

Definition iso_parse (s : string) : option Z :=
  if (String.length s =? 10)%nat then iso_day s
  else if (String.length s =? 24)%nat then
    match iso_day (substring 0 10 s), iso_time (substring 10 14 s) with
    | Some day, Some time => Some (day + time)%Z
    | _, _ => None
    end
  else None.

Definition IsoDate : JsDate := iso_parse.

(** ** A parser for JSON without string escapes and without exponents *)

Definition dquote : ascii := ascii_of_nat 34.

Definition json_space (c : ascii) : bool :=
  let n := nat_of_ascii c in
  ((n =? 32) || (n =? 9) || (n =? 10) || (n =? 13))%nat.

Fixpoint skip_ws (cs : list ascii) : list ascii :=
  match cs with
  | c :: cs' => if json_space c then skip_ws cs' else cs
  | [] => []
  end.

Fixpoint expect (word : list ascii) (cs : list ascii) : option (list ascii) :=
  match word, cs with
  | [], _ => Some cs
  | a :: word', c :: cs' => if (a =? c)%char then expect word' cs' else None
  | _ :: _, [] => None
  end.

(** The characters of a string literal, after its opening quote. *)
Fixpoint string_body (cs : list ascii) : option (string * list ascii) :=
  match cs with
  | [] => None
  | c :: cs' =>
      if (c =? dquote)%char then Some (EmptyString, cs')
      else if (c =? "\")%char || (nat_of_ascii c <? 32)%nat then None
      else match string_body cs' with
           | Some (s, rest) => Some (String c s, rest)
           | None => None
           end
  end.

Fixpoint take_digits (cs : list ascii) : list N * list ascii :=
  match cs with
  | c :: cs' =>
      match digit_of c with
      | Some d => let (ds, rest) := take_digits cs' in (d :: ds, rest)
      | None => ([], cs)
      end
  | [] => ([], [])
  end.

Definition digits_to_Z (ds : list N) : Z :=
  Z.of_N (fold_left (fun acc d => 10 * acc + d)%N ds 0%N).

(** [-? int frac?] *)
Definition number_literal (cs : list ascii) : option (Q * list ascii) :=
  let (negative, cs1) :=
    match cs with
    | c :: cs' => if (c =? "-")%char then (true, cs') else (false, cs)
    | [] => (false, cs)
    end in
  let signed (q : Q) := if negative then - q else q in
  let (int_digits, cs2) := take_digits cs1 in
  match int_digits with
  | [] => None
  | d :: more =>
      if (d =? 0)%N && negb (List.length more =? 0)%nat then None
      else
        match cs2 with
        | c :: cs3 =>
            if (c =? ".")%char then
              let (frac_digits, cs4) := take_digits cs3 in
              match frac_digits with
              | [] => None
              | _ =>
                  Some (signed
                          (inject_Z (digits_to_Z (int_digits ++ frac_digits))
                           / inject_Z (10 ^ Z.of_nat (List.length frac_digits))),
                        cs4)
              end
            else Some (signed (inject_Z (digits_to_Z int_digits)), cs2)
        | [] => Some (signed (inject_Z (digits_to_Z int_digits)), cs2)
        end
  end.

(** Values, array elements and object members, by recursion on a bound on
    the nesting depth and the number of elements still to read. *)
Fixpoint json_value (fuel : nat) (cs : list ascii)
  : option (JsValue * list ascii) :=
  match fuel with
  | O => None
  | S fuel' =>
      match skip_ws cs with
      | [] => None
      | c :: cs' =>
          if (c =? "n")%char then
            option_map (pair JNull) (expect (list_ascii_of_string "ull") cs')
          else if (c =? "t")%char then
            option_map (pair (JBool true))
                       (expect (list_ascii_of_string "rue") cs')
          else if (c =? "f")%char then
            option_map (pair (JBool false))
                       (expect (list_ascii_of_string "alse") cs')
          else if (c =? dquote)%char then
            match string_body cs' with
            | Some (s, rest) => Some (JString s, rest)
            | None => None
            end
          else if (c =? "[")%char then
            match skip_ws cs' with
            | d :: rest =>
                if (d =? "]")%char then Some (JArray [], rest)
                else match json_elements fuel' cs' with
                     | Some (items, rest') => Some (JArray items, rest')
                     | None => None
                     end
            | [] => None
            end
          else if (c =? "{")%char then
            match skip_ws cs' with
            | d :: rest =>
                if (d =? "}")%char then Some (JObject [], rest)
                else match json_members fuel' cs' with
                     | Some (fields, rest') => Some (JObject fields, rest')
                     | None => None
                     end
            | [] => None
            end
          else
            match number_literal (c :: cs') with
            | Some (q, rest) => Some (JNumber q, rest)
            | None => None
            end
      end
  end

with json_elements (fuel : nat) (cs : list ascii)
  : option (list JsValue * list ascii) :=
  match fuel with
  | O => None
  | S fuel' =>
      match json_value fuel' cs with
      | Some (v, rest) =>
          match skip_ws rest with
          | d :: rest' =>
              if (d =? "]")%char then Some ([v], rest')
              else if (d =? ",")%char then
                match json_elements fuel' rest' with
                | Some (vs, rest'') => Some (v :: vs, rest'')
                | None => None
                end
              else None
          | [] => None
          end
      | None => None
      end
  end

with json_members (fuel : nat) (cs : list ascii)
  : option (list (string * JsValue) * list ascii) :=
  match fuel with
  | O => None
  | S fuel' =>
      match skip_ws cs with
      | q :: cs1 =>
          if (q =? dquote)%char then
            match string_body cs1 with
            | Some (k, cs2) =>
                match skip_ws cs2 with
                | colon :: cs3 =>
                    if (colon =? ":")%char then
                      match json_value fuel' cs3 with
                      | Some (v, rest) =>
                          match skip_ws rest with
                          | d :: rest' =>
                              if (d =? "}")%char then Some ([(k, v)], rest')
                              else if (d =? ",")%char then
                                match json_members fuel' rest' with
                                | Some (kvs, rest'') =>
                                    Some ((k, v) :: kvs, rest'')
                                | None => None
                                end
                              else None
                          | [] => None
                          end
                      | None => None
                      end
                    else None
                | [] => None
                end
            | None => None
            end
          else None
      | [] => None
      end
  end.

(** A text is accepted when one value spans it, white space apart. *)
Definition json_parse (s : string) : option JsValue :=
  let cs := list_ascii_of_string s in
  match json_value (S (List.length cs)) cs with
  | Some (v, rest) =>
      match skip_ws rest with
      | [] => Some v
      | _ :: _ => None
      end
  | None => None
  end.

Definition FragmentJSON : JsJSON := json_parse.

(** ** Sample data *)

Definition empty_storage : LocalStorage :=
  {| zen_users := []; zen_transactions := []; zen_budgets := [] |}.

Definition first_run : World :=
  MockDatabase_new empty_storage "2024-03-01T09:00:00.000Z".

Definition guest_tx (id date category : string) (amount : Q) : Transaction.t :=
  {| Transaction.id := id;
     Transaction.userId := "guest_user";
     Transaction.amount := amount;
     Transaction.currency := "USD";
     Transaction.date := date;
     Transaction.category := category;
     Transaction.merchant := "Unknown";
     Transaction.description := "";
     Transaction.tags := [];
     Transaction.isRecurring := false;
     Transaction.aiMetadata := None |}.

Definition dinner : Transaction.t := guest_tx "t1" "2024-02-29" "Food" 40.
Definition taxi : Transaction.t := guest_tx "t2" "2024-03-01" "Transport" 15.
Definition lunch : Transaction.t := guest_tx "t3" "2024-02-29" "Food" 12.
Definition negative_tx : Transaction.t :=
  guest_tx "t4" "2024-02-29" "Food" (-5).

Definition empty_payload : Partial.t :=
  {| Partial.id := None;
     Partial.userId := None;
     Partial.amount := None;
     Partial.currency := None;
     Partial.date := None;
     Partial.category := None;
     Partial.merchant := None;
     Partial.description := None;
     Partial.tags := None;
     Partial.isRecurring := None;
     Partial.aiMetadata := None |}.

(** A payload as the model may extract it from a restaurant receipt: the
    category is not one of the enumeration and the date is a word. *)
Definition dining_payload : Partial.t :=
  {| Partial.id := None;
     Partial.userId := None;
     Partial.amount := Some 40;
     Partial.currency := None;
     Partial.date := Some "yesterday";
     Partial.category := Some "Dining";
     Partial.merchant := None;
     Partial.description := None;
     Partial.tags := None;
     Partial.isRecurring := None;
     Partial.aiMetadata := None |}.

(** The world after the three sample purchases were stored. *)
Definition three_purchases : World :=
  snd (createTransaction lunch
         (snd (createTransaction taxi
                 (snd (createTransaction dinner first_run))))).

(** A remote model that answers every request with the given text, and one
    whose calls all fail. *)
Definition answering (reply : option string) : GoogleGenAI :=
  {| generateContent := fun _ => Resolved {| text := reply |} |}.

Definition unreachable : GoogleGenAI :=
  {| generateContent := fun _ => Rejected (Error "fetch failed") |}.

(** The world after the first purchase. *)
Definition after_dinner : World := snd (createTransaction dinner first_run).

(** Filters that only ask for the category with the empty name. *)
Definition empty_category_filter : option Filters.t :=
  Some {| Filters.category := Some ""; Filters.startDate := None |}.

(** What the model extracts from [Dinner $4]. *)
Definition dinner_4_extraction : JsValue :=
  JObject [("amount", JNumber 4); ("currency", JString "USD");
           ("category", JString "Food"); ("date", JString "2024-03-01")].

(** The user types [Dinner $4], pauses until the timeout elapses, types the
    final [0], and then the answer for [Dinner $4] arrives. *)
Definition late_answer_trace : list Event :=
  [Typed "Dinner $4";
   TimeoutElapsed 1;
   Typed "Dinner $40";
   ParseSettled "Dinner $4" (Resolved (ok_response dinner_4_extraction))].

(* ================================================================== *)
(** * Predicates in which the properties are stated *)
(* ================================================================== *)

(** The comparator lets [a] stay in front of [b]. *)
Definition may_precede {A : Type} (compareFn : A -> A -> comparison)
           (a b : A) : Prop :=
  compareFn a b <> Gt.

(** A creation that is rejected and leaves the stored transactions as they
    were. *)
Definition rejected_unapplied (tx : Transaction.t) (w : World) : Prop :=
  (exists e, fst (createTransaction tx w) = Rejected e)
  /\ transactions (db (snd (createTransaction tx w))) = transactions (db w).

(** A record that breaks one of the three rules of the specification. *)
Definition malformed `{JsDate} (tx : Transaction.t) : Prop :=
  Transaction.amount tx < 0
  \/ in_enumeration (Transaction.category tx) = false
  \/ Date_parse (Transaction.date tx) = None.

(** A record with a category of the enumeration and a date that parses. *)
Definition well_categorised_and_dated `{JsDate} (tx : Transaction.t) : Prop :=
  in_enumeration (Transaction.category tx) = true
  /\ Date_parse (Transaction.date tx) <> None.

(** Every listed field is mandatory in the schema. *)
Definition all_mandatory (fields : list string) (s : Schema) : Prop :=
  forall f, In f fields -> In f (required_of s).

(** The model's text carries no usable JSON: it is absent, empty, or not
    valid JSON. *)
Definition malformed_response `{JsJSON} (response : Response) : Prop :=
  text response = None
  \/ text response = Some ""
  \/ exists s, text response = Some s /\ JSON_parse s = None.

(** The coach call never rejects. *)
Definition coach_never_raises : Prop :=
  forall (ai : GoogleGenAI) (history : list Transaction.t) (query : string),
  exists reply, askFinancialCoach ai history query = Resolved reply.

(** A result issued for an input that is no longer the current one leaves
    the preview as it is. *)
Definition discards_stale_results : Prop :=
  forall (s : App.t) (input : string)
         (outcome : Promise (ApiResponse JsValue)),
    App.magicInput s <> input ->
    App.aiPreview (parseSettled input outcome s) = App.aiPreview s.

(** The transactions a query has to return: owned by the user, in the
    category asked for, and not before the start date; a filter that is
    absent or the empty string asks for nothing. *)
Definition category_matches (filters : option Filters.t)
           (t : Transaction.t) : bool :=
  match filters_category filters with
  | Some c => (c =? "")%string || (Transaction.category t =? c)%string
  | None => true
  end.

Definition on_or_after `{JsDate} (filters : option Filters.t)
           (t : Transaction.t) : bool :=
  match filters_startDate filters with
  | Some s =>
      (s =? "")%string
      || date_ge (Date_parse (Transaction.date t)) (Date_parse s)
  | None => true
  end.

Definition kept `{JsDate} (userId : string) (filters : option Filters.t)
           (t : Transaction.t) : bool :=
  owned_by userId t && category_matches filters t && on_or_after filters t.

(** [a] is dated at or after [b]. *)
Definition not_before `{JsDate} (a b : Transaction.t) : Prop :=
  date_ge (Date_parse (Transaction.date a)) (Date_parse (Transaction.date b))
  = true.

(** The transaction is dated at the given instant. *)
Definition dated_at `{JsDate} (instant : Z) (t : Transaction.t) : bool :=
  match Date_parse (Transaction.date t) with
  | Some x => (x =? instant)%Z
  | None => false
  end.

(** The filters read literally: every category given is to be equalled,
    every start date given is an inclusive lower bound. *)
Definition meets_filters_literally `{JsDate} (filters : option Filters.t)
           (t : Transaction.t) : Prop :=
  (forall c, filters_category filters = Some c -> Transaction.category t = c)
  /\ (forall s, filters_startDate filters = Some s ->
                date_ge (Date_parse (Transaction.date t)) (Date_parse s) = true).

(** The sum of the amounts of a user's stored transactions in a category. *)
Definition category_total (userId category : string) (w : World) : Q :=
  reduce_sum Transaction.amount
             (filter (fun t => owned_by userId t && in_category category t)
                     (transactions (db w))).

(** The value of a property that may be missing, read as a number. *)
Definition value_or_zero (o : option Q) : Q :=
  match o with
  | Some q => q
  | None => 0
  end.

(** [a] spent at least as much as [b], both amounts being numbers. *)
Definition spends_no_less (a b : CategorySpending.t) : Prop :=
  match CategorySpending.amount a, CategorySpending.amount b with
  | Sum x, Sum y => y <= x
  | _, _ => False
  end.

(** A purchase booked under the category [__proto__]. *)
Definition proto_purchase : Transaction.t :=
  guest_tx "t8" "2024-03-01" "__proto__" 40.

(** The world after that purchase and a lunch were stored. *)
Definition proto_and_lunch : World :=
  snd (createTransaction lunch (snd (createTransaction proto_purchase first_run))).

(** The stored transactions of the session user. *)
Definition session_transactions (w : World) : list Transaction.t :=
  filter (owned_by AuthService.currentUserId) (transactions (db w)).

(* ================================================================== *)
(** * Further definitions: loading, progress bars, more sample data *)
(* ================================================================== *)

(** ** Loading from [localStorage] (the constructor and [hydrate])

    What [localStorage.getItem(key) || '[]'] and [JSON.parse] make of one
    key: the item is missing, or its text parses to an array, or
    [JSON.parse] throws on it. *)
Inductive StoredText (A : Type) : Type :=
| NoItem
| ArrayText (items : list A)
| CorruptText.
Arguments NoItem {A}.
Arguments ArrayText {A} items.
Arguments CorruptText {A}.

Record RawStorage : Type := {
  raw_users : StoredText User.t;
  raw_transactions : StoredText Transaction.t;
  raw_budgets : StoredText Budget.t
}.

(** [JSON.parse(localStorage.getItem(key) || '[]')]: [None] when it throws. *)
Definition parse_item {A : Type} (t : StoredText A) : option (list A) :=
  match t with
  | NoItem => Some []
  | ArrayText items => Some items
  | CorruptText => None
  end.

(** [hydrate()]: the three assignments run in order inside one [try]; the
    first exception ends the block and leaves the remaining fields at their
    initial value, the empty array. *)
Definition hydrate (raw : RawStorage) : MockDatabase :=
  match parse_item (raw_users raw) with
  | None => {| users := []; transactions := []; budgets := [] |}
  | Some us =>
      match parse_item (raw_transactions raw) with
      | None => {| users := us; transactions := []; budgets := [] |}
      | Some ts =>
          match parse_item (raw_budgets raw) with
          | None => {| users := us; transactions := ts; budgets := [] |}
          | Some bs => {| users := us; transactions := ts; budgets := bs |}
          end
      end
  end.

(** The texts [commit()] writes. *)
Definition committed (d : MockDatabase) : RawStorage :=
  {| raw_users := ArrayText (users d);
     raw_transactions := ArrayText (transactions d);
     raw_budgets := ArrayText (budgets d) |}.

(** The constructor on raw storage: [hydrate], then [createUser] of the
    guest, with its [commit], when no user was loaded. The result is the
    database and the storage the constructor leaves behind. *)
Definition construct (raw : RawStorage) (now : string)
  : MockDatabase * RawStorage :=
  let loaded := hydrate raw in
  match users loaded with
  | [] =>
      let created :=
        {| users := (users loaded ++ [guest_user now])%list;
           transactions := transactions loaded;
           budgets := budgets loaded |} in
      (created, committed created)
  | _ :: _ => (loaded, raw)
  end.

(** Storage in which every text parses. *)
Definition raw_of (stored : LocalStorage) : RawStorage :=
  {| raw_users := ArrayText (zen_users stored);
     raw_transactions := ArrayText (zen_transactions stored);
     raw_budgets := ArrayText (zen_budgets stored) |}.

(** ** More sample data *)

Definition alice : User.t :=
  {| User.id := "alice";
     User.email := "alice@example.org";
     User.name := "Alice";
     User.preferences := {| pref_currency := "EUR"; pref_theme := light |};
     User.createdAt := "2024-03-02T08:00:00.000Z" |}.

(** A second user record that reuses the guest's identifier. *)
Definition second_guest : User.t :=
  {| User.id := "guest_user";
     User.email := "other@example.org";
     User.name := "Somebody Else";
     User.preferences := {| pref_currency := "EUR"; pref_theme := light |};
     User.createdAt := "2024-03-02T08:00:00.000Z" |}.

Definition alice_tx : Transaction.t :=
  {| Transaction.id := "t1";
     Transaction.userId := "alice";
     Transaction.amount := 7;
     Transaction.currency := "EUR";
     Transaction.date := "2024-03-02";
     Transaction.category := "Food";
     Transaction.merchant := "Bakery";
     Transaction.description := "";
     Transaction.tags := [];
     Transaction.isRecurring := false;
     Transaction.aiMetadata := None |}.

(** Storage whose users text is damaged while the transactions are fine. *)
Definition damaged_users : RawStorage :=
  {| raw_users := CorruptText;
     raw_transactions := ArrayText [dinner; taxi];
     raw_budgets := NoItem |}.

(** ** Predicates of the further properties *)

(** No stored transaction has both the identifier and the owner of [tx]. *)
Definition fresh_for (tx : Transaction.t) (w : World) : Prop :=
  forall t, In t (transactions (db w)) ->
            ~ (Transaction.id t = Transaction.id tx
               /\ Transaction.userId t = Transaction.userId tx).

(** Every stored transaction of the user has a date that parses. *)
Definition dates_parse `{JsDate} (userId : string) (w : World) : Prop :=
  forall t, In t (transactions (db w)) -> Transaction.userId t = userId ->
            Date_parse (Transaction.date t) <> None.

(** The two filter tests of a query, without the ownership test. *)
Definition passes `{JsDate} (filters : option Filters.t)
           (t : Transaction.t) : bool :=
  category_matches filters t && on_or_after filters t.

Definition march_filter : option Filters.t :=
  Some {| Filters.category := None; Filters.startDate := Some "2024-03-01" |}.

(** The budgets [upsertBudget] leaves: the first budget with the same
    identifier is replaced in place, and without one the budget is added
    last. *)
Definition upserted (budget : Budget.t) (bs : list Budget.t) : list Budget.t :=
  match findIndex (fun b => (Budget.id b =? Budget.id budget)%string) bs with
  | Some idx => set_at idx budget bs
  | None => (bs ++ [budget])%list
  end.

(** [find] by identifier, as [budgets.find(b => b.id === id)]. *)
Definition budget_by_id (id : string) (bs : list Budget.t) : option Budget.t :=
  find (fun b => (Budget.id b =? id)%string) bs.

(** The transactions [getBudgets] sums for a category, in the order it sums
    them: that of the query, newest first. *)
Definition summed `{JsDate} (userId category : string) (w : World)
  : list Transaction.t :=
  filter (in_category category) (getTransactions userId None w).

(** The transaction belongs to the user and to the category of the budget. *)
Definition counts_towards (userId : string) (tx : Transaction.t)
           (b : Budget.t) : bool :=
  owned_by userId tx && in_category (Budget.category b) tx.

(** Two budgets that differ at most in [spent]. *)
Definition same_budget (a b : Budget.t) : Prop :=
  with_spent a 0 = with_spent b 0.

Definition health_budget : Budget.t :=
  {| Budget.id := "b9";
     Budget.userId := "guest_user";
     Budget.category := "Health";
     Budget.limitAmount := 80;
     Budget.period := weekly;
     Budget.spent := 1000 |}.

Definition food_budget : Budget.t :=
  {| Budget.id := "b7";
     Budget.userId := "guest_user";
     Budget.category := "Food";
     Budget.limitAmount := 100;
     Budget.period := monthly;
     Budget.spent := 0 |}.

(** ** Analytics: further predicates *)

(** The record built by [txs.forEach(t => { m[key(t)] = (m[key(t)] || 0) +
    t.amount })], starting from [m]. *)
Definition tally (key : Transaction.t -> string) (txs : list Transaction.t)
           (m : TallyRecord) : TallyRecord :=
  fold_left (fun acc t => record_add acc (key t) (Transaction.amount t)) txs m.

(** The transactions the dashboard summary is computed from, in the order
    of the query: newest first. *)
Definition session_query `{JsDate} (w : World) : list Transaction.t :=
  getTransactions AuthService.currentUserId None w.

(** None of the names the transactions are booked under is a name that
    objects inherit. *)
Definition plain_names (key : Transaction.t -> string)
           (txs : list Transaction.t) : Prop :=
  forall t, In t txs -> inherited (key t) = false.

(** The number kept under a name; nothing and a text count as 0. *)
Definition number_at (m : TallyRecord) (k : string) : Q :=
  match record_get m k with
  | Some (Sum q) => q
  | _ => 0
  end.

(** Every own property holds a number, under a name that is not inherited. *)
Definition numeric (m : TallyRecord) : Prop :=
  forall k v, In (k, v) m -> inherited k = false /\ exists q, v = Sum q.

(** The calendar day a transaction is booked under in the trend. *)
Definition day_of (t : Transaction.t) : string :=
  before_T (Transaction.date t).

Definition on_day (day : string) (t : Transaction.t) : bool :=
  (day_of t =? day)%string.

(** The point [a] is dated at or before the point [b]. *)
Definition not_after `{JsDate} (a b : MonthlyTrend.t) : Prop :=
  date_ge (Date_parse (MonthlyTrend.date b)) (Date_parse (MonthlyTrend.date a))
  = true.

(** The character [T] does not occur in the text. *)
Fixpoint no_T (s : string) : bool :=
  match s with
  | EmptyString => true
  | String c s' => negb (c =? "T")%char && no_T s'
  end.

Definition breakfast : Transaction.t :=
  guest_tx "t5" "2024-03-01T07:30:00.000Z" "Food" 6.
Definition supper : Transaction.t :=
  guest_tx "t6" "2024-03-01T19:45:00.000Z" "Food" 30.
Definition next_day : Transaction.t :=
  guest_tx "t7" "2024-03-02T12:00:00.000Z" "Transport" 9.

Definition two_days : World :=
  snd (createTransaction next_day
         (snd (createTransaction supper
                 (snd (createTransaction breakfast first_run))))).

(** ** The gateway and the intake: further predicates *)

(** An intake state in which the call for [input] is in flight. *)
Definition awaiting (input : string) (s : App.t) : Prop :=
  In input (App.inflight s).

Definition fifty_one : list Transaction.t :=
  repeat dinner 50 ++ [taxi].

(** Every pending timeout is the one [timerRef] holds, and there is at most
    one. *)
Definition single_timeout (s : App.t) : Prop :=
  (List.length (App.timeouts s) <= 1)%nat
  /\ forall id input, In (id, input) (App.timeouts s) ->
                      App.timerRef s = Some id.

(** The text is long enough for the debounced parse. *)
Definition long_enough (value : string) : Prop :=
  (8 < String.length value)%nat.

Definition is_user (m : ChatMessage) : bool :=
  match role m with role_user => true | role_ai => false end.

Definition is_ai (m : ChatMessage) : bool :=
  match role m with role_ai => true | role_user => false end.

(** [setCoachQuery(e.target.value)]. *)
Definition typeCoachQuery (value : string) (s : App.t) : App.t :=
  {| App.transactions := App.transactions s;
     App.magicInput := App.magicInput s;
     App.isProcessing := App.isProcessing s;
     App.coachQuery := value;
     App.chatHistory := App.chatHistory s;
     App.aiPreview := App.aiPreview s;
     App.previewImage := App.previewImage s;
     App.timerRef := App.timerRef s;
     App.nextTimeoutId := App.nextTimeoutId s;
     App.timeouts := App.timeouts s;
     App.inflight := App.inflight s |}.

(** ** The coach handler around its [await]

    [askCoach] runs in two parts. The first, up to the [await], shows the
    question and empties the input; the second, once the call has settled,
    shows the answer. The form stays enabled in between, so a further
    submit can run before the answer to an earlier one is shown. *)

(** White space as [String.prototype.trim] removes it, among the code units
    below 256: the ASCII ones and the no-break space. *)
Definition js_space (c : ascii) : bool :=
  is_space c || (nat_of_ascii c =? 160)%nat.

(** [!coachQuery.trim()]. *)
Fixpoint trims_to_nothing (s : string) : bool :=
  match s with
  | EmptyString => true
  | String c s' => js_space c && trims_to_nothing s'
  end.

Module CoachPanel.
(** The component, and the questions whose call has not settled yet. *)
Record t : Type := {
  app : App.t;
  asked : list string
}.

Definition opened : t := {| app := App.mounted; asked := [] |}.
End CoachPanel.

(** The three state setters of the handler, in one step. *)
Definition show (s : App.t) (query : string) (chat : list ChatMessage)
           (processing : bool) : App.t :=
  {| App.transactions := App.transactions s;
     App.magicInput := App.magicInput s;
     App.isProcessing := processing;
     App.coachQuery := query;
     App.chatHistory := chat;
     App.aiPreview := App.aiPreview s;
     App.previewImage := App.previewImage s;
     App.timerRef := App.timerRef s;
     App.nextTimeoutId := App.nextTimeoutId s;
     App.timeouts := App.timeouts s;
     App.inflight := App.inflight s |}.

(** The text shown for the assistant once [generateContent] has settled:
    what [askFinancialCoach] resolves with, or the text of the [catch]
    block. *)
Definition coach_answer (settled : Promise Response) : string :=
  match settled with
  | Resolved response => or_string (text response) coach_fallback
  | Rejected _ => coach_broken
  end.

(** The handler up to its [await]. *)
Definition submit (c : CoachPanel.t) : CoachPanel.t :=
  let s := CoachPanel.app c in
  if trims_to_nothing (App.coachQuery s) then c
  else
    let userMsg := App.coachQuery s in
    {| CoachPanel.app :=
         show s ""
              (App.chatHistory s ++ [{| role := role_user; message := userMsg |}])
              true;
       CoachPanel.asked := (CoachPanel.asked c ++ [userMsg])%list |}.

(** The handler after its [await], for the call that carried [question]. *)
Definition callSettled (question : string) (settled : Promise Response)
           (c : CoachPanel.t) : CoachPanel.t :=
  let s := CoachPanel.app c in
  if existsb (String.eqb question) (CoachPanel.asked c)
  then {| CoachPanel.app :=
            show s (App.coachQuery s)
                 (App.chatHistory s
                  ++ [{| role := role_ai; message := coach_answer settled |}])
                 false;
          CoachPanel.asked := remove_first question (CoachPanel.asked c) |}
  else c.

Inductive CoachEvent : Type :=
| QueryTyped (value : string)
| Submitted
| CallSettled (question : string) (settled : Promise Response).

Definition coach_step (c : CoachPanel.t) (e : CoachEvent) : CoachPanel.t :=
  match e with
  | QueryTyped value =>
      {| CoachPanel.app := typeCoachQuery value (CoachPanel.app c);
         CoachPanel.asked := CoachPanel.asked c |}
  | Submitted => submit c
  | CallSettled question settled => callSettled question settled c
  end.

Definition coach_run (events : list CoachEvent) (c : CoachPanel.t)
  : CoachPanel.t :=
  fold_left coach_step events c.

(** The numbers of questions and of answers in a chat. *)
Definition questions (chat : list ChatMessage) : nat :=
  List.length (filter is_user chat).

Definition answers (chat : list ChatMessage) : nat :=
  List.length (filter is_ai chat).

(** Two questions are submitted before either call settles; the first call
    then fails and the second is answered. A blank query is submitted in
    between. *)
Definition overlapping_questions : list CoachEvent :=
  [QueryTyped "Why am I broke?"; Submitted;
   QueryTyped "   "; Submitted;
   QueryTyped "Where can I save?"; Submitted;
   CallSettled "Why am I broke?" (Rejected (Error "fetch failed"));
   CallSettled "Where can I save?"
               (Resolved {| text := Some "Spend less on dinners." |})].

(** ** Budget progress bars (the [budgetProgress] memo of [App]) *)

(** [Math.min(a, b)]. *)
Definition Math_min (a b : Q) : Q := if Qle_bool a b then a else b.

Module BudgetProgress.
Record t : Type := {
  budget : Budget.t;
  percent : Q
}.
End BudgetProgress.

Definition by_percent_desc (a b : BudgetProgress.t) : comparison :=
  sign_of_Q (BudgetProgress.percent b - BudgetProgress.percent a).

(** [budgets.map(b => ({ ...b, percent: Math.min((b.spent / b.limitAmount)
    * 100, 100) })).sort((a, b) => b.percent - a.percent)]. *)
Definition budgetProgress (budgets : list Budget.t) : list BudgetProgress.t :=
  Array_sort by_percent_desc
    (map (fun b =>
            {| BudgetProgress.budget := b;
               BudgetProgress.percent :=
                 Math_min ((Budget.spent b / Budget.limitAmount b) * 100) 100 |})
         budgets).

(** [a] is at least as full as [b]. *)
Definition no_less_full (a b : BudgetProgress.t) : Prop :=
  BudgetProgress.percent b <= BudgetProgress.percent a.

Definition overspent_food : Budget.t := with_spent food_budget 250.
Definition half_used_health : Budget.t := with_spent health_budget 40.

(** ** Chart labels (the [chartData] memo of [App]) *)

(** [s.split(sep)] for a separator of one character. *)
Fixpoint split_on (sep : ascii) (s : string) : list string :=
  match s with
  | EmptyString => [EmptyString]
  | String c s' =>
      if (c =? sep)%char then EmptyString :: split_on sep s'
      else match split_on sep s' with
           | piece :: pieces => String c piece :: pieces
           | [] => [String c EmptyString]
           end
  end.

(** [pieces.join(sep)]. *)
Fixpoint join (sep : string) (pieces : list string) : string :=
  match pieces with
  | [] => EmptyString
  | piece :: rest =>
      match rest with
      | [] => piece
      | _ :: _ => piece ++ sep ++ join sep rest
      end
  end.

Module ChartPoint.
Record t : Type := {
  name : string;
  value : Tally
}.
End ChartPoint.

(** [t.date.split('-').slice(1).join('/')]. *)
Definition chart_label (date : string) : string :=
  join "/" (tl (split_on "-" date)).

(** [chartData]: empty until the analytics arrived, then one point per trend
    entry. *)
Definition chartData (analytics : option AnalyticsSummary) : list ChartPoint.t :=
  match analytics with
  | None => []
  | Some summary =>
      map (fun t => {| ChartPoint.name := chart_label (MonthlyTrend.date t);
                       ChartPoint.value := MonthlyTrend.amount t |})
          (trend summary)
  end.

(** The character [-] does not occur in the text. *)
Fixpoint no_dash (s : string) : bool :=
  match s with
  | EmptyString => true
  | String c s' => negb (c =? "-")%char && no_dash s'
  end.

(* ================================================================== *)
(** * Properties *)
(* ================================================================== *)

(** ** The store: creation *)

Lemma commit_mirrored (d : MockDatabase) : mirrored (commit d).
Proof. reflexivity. Qed.

Lemma createTransaction_mirrored (tx : Transaction.t) (w : World) :
  mirrored (snd (createTransaction tx w)).
Proof. apply commit_mirrored. Qed.

Lemma deleteTransaction_mirrored (id userId : string) (w : World) :
  mirrored (deleteTransaction id userId w).
Proof. apply commit_mirrored. Qed.

(** C1, refuted as stated: a record with a negative amount breaks the rules
    of the specification, yet it is stored like any other and the call
    resolves with it. *)
Lemma createTransaction_accepts_negative_amount :
  malformed (H := IsoDate) negative_tx
  /\ ~ rejected_unapplied negative_tx first_run
  /\ fst (createTransaction negative_tx first_run) = Resolved negative_tx
  /\ transactions (db first_run) = []
  /\ transactions (db (snd (createTransaction negative_tx first_run)))
     = [negative_tx].
Proof.
  split; [left; reflexivity |].
  split; [intros [[e He] _]; discriminate He |].
  repeat split.
Qed.

(** C1, as the code has it: [createTransaction] validates nothing and raises
    no [ValidationError]. Every record, a negative amount, an unknown
    category or an unparseable date included, is appended to the stored
    transactions, users and budgets staying as they are, and the call
    resolves with the record. The one failure is a write that
    [localStorage] refuses: the call then rejects with the error of the
    storage, and the record stays appended. *)
Theorem createTransaction_validates_nothing
        (storage : Writes) (tx : Transaction.t) (w : World) :
  transactions (db (snd (createTransaction_writing storage tx w)))
  = (transactions (db w) ++ [tx])%list
  /\ users (db (snd (createTransaction_writing storage tx w))) = users (db w)
  /\ budgets (db (snd (createTransaction_writing storage tx w)))
     = budgets (db w)
  /\ fst (createTransaction_writing storage tx w)
     = (if accepts storage then Resolved tx else Rejected storage_refused)
  /\ createTransaction_writing WritesAll tx w = createTransaction tx w.
Proof. repeat split. Qed.

(** ** The service: what [create] persists *)

Lemma or_string_nonempty (o : option string) (d : string) :
  d <> "" -> or_string o d <> "".
Proof.
  intros Hd. unfold or_string. destruct o as [s |]; [| exact Hd].
  destruct (String.eqb_spec s ""); [exact Hd | assumption].
Qed.

Lemma or_string_cases (o : option string) (d : string) :
  (exists s, o = Some s /\ s <> "" /\ or_string o d = s)
  \/ ((o = None \/ o = Some "") /\ or_string o d = d).
Proof.
  unfold or_string. destruct o as [s |].
  - destruct (String.eqb_spec s "") as [-> | Hs].
    + right. split; [right |]; reflexivity.
    + left. exists s. repeat split. assumption.
  - right. split; [left |]; reflexivity.
Qed.

(** C2, refuted as stated: the service stores the category [Dining] and the
    date [yesterday] as the payload gives them. *)
Lemma create_persists_unknown_category :
  let w' := snd (TransactionService.create "k3j9x0q2a" "2024-03-01T10:00:00.000Z"
                                           dining_payload first_run) in
  exists t,
    transactions (db w') = [t]
    /\ Transaction.category t = "Dining"
    /\ Transaction.date t = "yesterday"
    /\ ~ well_categorised_and_dated (H := IsoDate) t.
Proof.
  eexists. repeat split. intros [Hcat _]. discriminate Hcat.
Qed.

(** C2, as the code has it: when the session user exists, [create] appends
    exactly one record, whose category and date are never empty: the
    payload's value when it is present and not empty, the default
    [Uncategorized] and the current instant otherwise. Neither is checked
    against the enumeration or parsed. Without a session user nothing is
    stored. *)
Theorem create_persists_nonempty_category_and_date
        (randomId now : string) (payload : Partial.t) (w : World)
        (Hnow : now <> "") :
  match AuthService.getSession w with
  | Resolved user =>
      exists t,
        transactions (db (snd (TransactionService.create randomId now payload w)))
        = (transactions (db w) ++ [t])%list
        /\ Transaction.category t <> ""
        /\ Transaction.date t <> ""
        /\ Transaction.category t
           = or_string (Partial.category payload) "Uncategorized"
        /\ Transaction.date t = or_string (Partial.date payload) now
        /\ ((exists c, Partial.category payload = Some c /\ c <> ""
                       /\ Transaction.category t = c)
            \/ ((Partial.category payload = None
                 \/ Partial.category payload = Some "")
                /\ Transaction.category t = "Uncategorized"))
        /\ ((exists d, Partial.date payload = Some d /\ d <> ""
                       /\ Transaction.date t = d)
            \/ ((Partial.date payload = None \/ Partial.date payload = Some "")
                /\ Transaction.date t = now))
  | Rejected _ =>
      snd (TransactionService.create randomId now payload w) = w
  end.
Proof.
  unfold TransactionService.create.
  destruct (AuthService.getSession w) as [user | e]; [| reflexivity].
  exists (TransactionService.newTx randomId now user payload).
  cbn [createTransaction snd fst commit db transactions].
  repeat split.
  - apply or_string_nonempty. discriminate.
  - apply or_string_nonempty. exact Hnow.
  - apply or_string_cases.
  - apply or_string_cases.
Qed.

Lemma create_persists_nonempty_category_and_date_witness :
  exists t,
    transactions
      (db (snd (TransactionService.create "k3j9x0q2a" "2024-03-01T10:00:00.000Z"
                                          empty_payload first_run)))
    = [t]
    /\ Transaction.category t = "Uncategorized"
    /\ Transaction.date t = "2024-03-01T10:00:00.000Z".
Proof.
  pose proof (create_persists_nonempty_category_and_date
                "k3j9x0q2a" "2024-03-01T10:00:00.000Z" empty_payload first_run
                ltac:(discriminate)) as H.
  cbn in H. destruct H as [t [Ht [_ [_ [Hc [Hd _]]]]]].
  exists t. repeat split; assumption.
Defined.

(** ** The store: deletion *)

Lemma filter_all_kept {A : Type} (p : A -> bool) (l : list A) :
  (forall x, In x l -> p x = true) -> filter p l = l.
Proof.
  induction l as [| x l IH]; intros Hall; cbn; [reflexivity |].
  rewrite (Hall x (or_introl eq_refl)). f_equal.
  apply IH. intros y Hy. apply Hall. right. exact Hy.
Qed.

Lemma filter_idempotent {A : Type} (p : A -> bool) (l : list A) :
  filter p (filter p l) = filter p l.
Proof.
  apply filter_all_kept. intros x Hx. apply filter_In in Hx. apply Hx.
Qed.

Lemma delete_target_spec (id userId : string) (t : Transaction.t) :
  delete_target id userId t = true
  <-> Transaction.id t = id /\ Transaction.userId t = userId.
Proof.
  unfold delete_target. rewrite andb_true_iff, !String.eqb_eq. reflexivity.
Qed.

(** C10: [deleteTransaction] removes exactly the transactions whose id and
    userId both match and keeps the others in their order; users and budgets
    are untouched; when nothing matches the collections are unchanged, and
    so is the whole world when [localStorage] already mirrored them; no
    error can be raised, and deleting twice is deleting once. *)
Theorem deleteTransaction_removes_exactly_the_target
        (id userId : string) (w : World) :
  let w' := deleteTransaction id userId w in
  (forall t, In t (transactions (db w'))
             <-> In t (transactions (db w))
                 /\ ~ (Transaction.id t = id /\ Transaction.userId t = userId))
  /\ transactions (db w')
     = filter (fun t => negb (delete_target id userId t)) (transactions (db w))
  /\ users (db w') = users (db w)
  /\ budgets (db w') = budgets (db w)
  /\ ((forall t, In t (transactions (db w))
                 -> ~ (Transaction.id t = id /\ Transaction.userId t = userId))
      -> db w' = db w /\ (mirrored w -> w' = w))
  /\ deleteTransaction id userId w' = w'.
Proof.
  cbn zeta.
  assert (Hkeep : forall t,
             negb (delete_target id userId t) = true
             <-> ~ (Transaction.id t = id /\ Transaction.userId t = userId)).
  { intros t. rewrite negb_true_iff, <- delete_target_spec.
    destruct (delete_target id userId t); split; intros Hk;
      try reflexivity; try discriminate; try (intros Habs; discriminate Habs).
    exfalso. apply Hk. reflexivity. }
  assert (Hnone : (forall t, In t (transactions (db w))
                             -> ~ (Transaction.id t = id
                                   /\ Transaction.userId t = userId))
                  -> filter (fun t => negb (delete_target id userId t))
                            (transactions (db w))
                     = transactions (db w)).
  { intros Habsent. apply filter_all_kept. intros t Ht.
    apply Hkeep. apply Habsent. exact Ht. }
  split; [| split; [reflexivity |]].
  { intros t. cbn. rewrite filter_In, Hkeep. reflexivity. }
  split; [reflexivity |]. split; [reflexivity |]. split.
  - intros Habsent. unfold deleteTransaction. rewrite (Hnone Habsent).
    assert (Hdb : {| users := users (db w);
                     transactions := transactions (db w);
                     budgets := budgets (db w) |} = db w)
      by (destruct (db w); reflexivity).
    rewrite Hdb. split; [reflexivity |].
    intros Hmirrored. symmetry. exact Hmirrored.
  - unfold deleteTransaction. cbn. rewrite filter_idempotent. reflexivity.
Qed.

Lemma deleteTransaction_removes_exactly_the_target_witness :
  db (deleteTransaction "t9" "guest_user" three_purchases) = db three_purchases
  /\ deleteTransaction "t9" "guest_user" three_purchases = three_purchases
  /\ transactions (db (deleteTransaction "t2" "guest_user" three_purchases))
     = [dinner; lunch].
Proof.
  destruct (deleteTransaction_removes_exactly_the_target
              "t9" "guest_user" three_purchases)
    as [_ [_ [_ [_ [Hnone _]]]]].
  assert (Habsent : forall t, In t (transactions (db three_purchases))
                     -> ~ (Transaction.id t = "t9"
                           /\ Transaction.userId t = "guest_user")).
  { intros t Ht [Hid _]. cbn in Ht.
    destruct Ht as [<- | [<- | [<- | []]]]; discriminate Hid. }
  destruct (Hnone Habsent) as [Hdb Hw].
  split; [exact Hdb | split; [apply Hw; reflexivity | reflexivity]].
Defined.

(** ** The gateway: schemas *)

(** C8, refuted as stated: [category] is not among the required fields of
    the schema sent with a receipt. *)
Lemma scanReceipt_category_not_mandatory :
  responseSchema (config (scanReceiptRequest "aGVsbG8=" "image/png"))
  = Some scanReceiptSchema
  /\ ~ all_mandatory ["merchant"; "amount"; "currency"; "category"; "date"]
                     scanReceiptSchema.
Proof.
  split; [reflexivity |].
  intros Hall. specialize (Hall "category"). cbn in Hall.
  assert (Hin : "amount" = "category" \/ "currency" = "category"
                \/ "merchant" = "category" \/ "date" = "category" \/ False).
  { apply Hall. tauto. }
  destruct Hin as [H | [H | [H | [H | []]]]]; discriminate H.
Qed.

(** C8, as the code has it: for every image the schema sent declares the
    five properties amount, currency, merchant, category and date, and marks
    exactly amount, currency, merchant and date as required; category is
    declared and optional. *)
Theorem scanReceipt_schema_requires_four_fields (base64Image mimeType : string) :
  exists s,
    responseSchema (config (scanReceiptRequest base64Image mimeType)) = Some s
    /\ properties_of s = ["amount"; "currency"; "merchant"; "category"; "date"]
    /\ required_of s = ["amount"; "currency"; "merchant"; "date"]
    /\ all_mandatory ["merchant"; "amount"; "currency"; "date"] s
    /\ In "category" (properties_of s)
    /\ ~ In "category" (required_of s).
Proof.
  exists scanReceiptSchema. repeat split.
  - intros f Hf. cbn in *. tauto.
  - cbn. tauto.
  - cbn. intros [H | [H | [H | [H | []]]]]; discriminate H.
Qed.

(** ** The gateway: defensive parsing *)

Lemma malformed_text_parses_to_empty `{JsJSON} (response : Response) :
  JSON_parse "{}" = Some empty_partial ->
  malformed_response response ->
  match JSON_parse (or_string (text response) "{}") with
  | Some v => v
  | None => empty_partial
  end = empty_partial.
Proof.
  intros Hempty [Hnone | [Hblank | [s [Hs Hbad]]]].
  - rewrite Hnone. cbn. rewrite Hempty. reflexivity.
  - rewrite Hblank. cbn. rewrite Hempty. reflexivity.
  - rewrite Hs. cbn. destruct (String.eqb_spec s "") as [-> | _].
    + rewrite Hempty. reflexivity.
    + rewrite Hbad. reflexivity.
Qed.

(** C5: when the remote call resolves with a text that is absent, empty or
    not valid JSON, the text-parse call and the image-parse call both
    resolve, with the empty partial record; nothing is thrown. The same
    holds one layer up, in the service. *)
Theorem malformed_response_yields_empty_partial
        `{JsJSON} (Hempty : JSON_parse "{}" = Some empty_partial)
        (ai : GoogleGenAI) (input base64Image mimeType : string)
        (response : Response) (Hbad : malformed_response response) :
  (generateContent ai (parseTransactionRequest input) = Resolved response ->
   parseTransactionWithAI ai input
   = Resolved {| transaction := empty_partial;
                 rawResponse := or_string (text response) "{}" |}
   /\ TransactionService.parseNaturalLanguage ai input
      = Resolved (ok_response empty_partial))
  /\ (generateContent ai (scanReceiptRequest base64Image mimeType)
      = Resolved response ->
      scanReceiptWithAI ai base64Image mimeType = Resolved empty_partial
      /\ TransactionService.uploadReceipt ai base64Image mimeType
         = Resolved (ok_response empty_partial)).
Proof.
  pose proof (malformed_text_parses_to_empty response Hempty Hbad) as Hparse.
  split; intros Hcall.
  - assert (Hgw : parseTransactionWithAI ai input
                  = Resolved {| transaction := empty_partial;
                                rawResponse := or_string (text response) "{}" |}).
    { unfold parseTransactionWithAI. rewrite Hcall, Hparse. reflexivity. }
    split; [exact Hgw |].
    unfold TransactionService.parseNaturalLanguage. rewrite Hgw. reflexivity.
  - assert (Hgw : scanReceiptWithAI ai base64Image mimeType
                  = Resolved empty_partial).
    { unfold scanReceiptWithAI. rewrite Hcall.
      destruct (JSON_parse (or_string (text response) "{}")) as [v |];
        [rewrite Hparse |]; reflexivity. }
    split; [exact Hgw |].
    unfold TransactionService.uploadReceipt. rewrite Hgw. reflexivity.
Qed.

Lemma malformed_response_yields_empty_partial_witness :
  parseTransactionWithAI (H := FragmentJSON)
    (answering (Some "Sorry, I could not read that.")) "Dinner $40 yesterday"
  = Resolved {| transaction := empty_partial;
                rawResponse := "Sorry, I could not read that." |}
  /\ scanReceiptWithAI (H := FragmentJSON)
       (answering (Some "Sorry, I could not read that.")) "aGVsbG8=" "image/png"
     = Resolved empty_partial.
Proof.
  assert (Hbad : malformed_response (H := FragmentJSON)
                   {| text := Some "Sorry, I could not read that." |}).
  { right. right. eexists. split; reflexivity. }
  destruct (malformed_response_yields_empty_partial
              (H := FragmentJSON) eq_refl
              (answering (Some "Sorry, I could not read that."))
              "Dinner $40 yesterday" "aGVsbG8=" "image/png" _ Hbad)
    as [Htext Himage].
  split; [apply Htext | apply Himage]; reflexivity.
Defined.

(** ** The coach *)

(** C6, refuted as stated: when the remote call fails, [askFinancialCoach]
    rejects with the same error instead of returning a fallback. *)
Lemma askFinancialCoach_propagates_failure :
  askFinancialCoach unreachable [dinner; taxi] "Why am I broke?"
  = Rejected (Error "fetch failed")
  /\ ~ coach_never_raises.
Proof.
  split; [reflexivity |].
  intros Hnever.
  destruct (Hnever unreachable [dinner; taxi] "Why am I broke?") as [reply H].
  discriminate H.
Qed.

(** C6, as the code has it: [askFinancialCoach] sends at most the first
    fifty transactions; when the call resolves it returns the model's text,
    or the fixed fallback when that text is absent or empty; when the call
    fails the error propagates to the caller. The caller in the component,
    [askCoach], catches it: for a query that is not blank it always
    completes, appending the question and then either the reply or the fixed
    message [Spectral link broken.]. *)
Theorem askFinancialCoach_falls_back_only_on_empty_text
        (ai : GoogleGenAI) (history : list Transaction.t) (query : string)
        (s : App.t) :
  contents (askFinancialCoachRequest history query)
  = CoachPrompt (firstn 50 history) query
  /\ match generateContent ai (askFinancialCoachRequest history query) with
     | Resolved response =>
         askFinancialCoach ai history query
         = Resolved (or_string (text response) coach_fallback)
         /\ ((text response = None \/ text response = Some "") ->
             askFinancialCoach ai history query = Resolved coach_fallback)
     | Rejected e => askFinancialCoach ai history query = Rejected e
     end
  /\ (if blank (App.coachQuery s) then askCoach ai s = s
      else
        App.chatHistory (askCoach ai s)
        = (App.chatHistory s
           ++ [{| role := role_user; message := App.coachQuery s |};
               {| role := role_ai;
                  message :=
                    match generateContent
                            ai (askFinancialCoachRequest (App.transactions s)
                                                         (App.coachQuery s)) with
                    | Resolved response =>
                        or_string (text response) coach_fallback
                    | Rejected _ => coach_broken
                    end |}])%list
        /\ App.isProcessing (askCoach ai s) = false).
Proof.
  split; [reflexivity |]. split.
  - unfold askFinancialCoach.
    destruct (generateContent ai (askFinancialCoachRequest history query))
      as [response | e]; [| reflexivity].
    split; [reflexivity |].
    intros [H | H]; rewrite H; reflexivity.
  - unfold askCoach. destruct (blank (App.coachQuery s)); [reflexivity |].
    cbn. split; [| reflexivity].
    unfold askFinancialCoach.
    destruct (generateContent ai _) as [response | e]; reflexivity.
Qed.

(** ** The intake: speculative parsing *)

(** C7, refuted as stated: the answer issued for [Dinner $4] arrives after
    the input became [Dinner $40] and is shown as the preview all the
    same. *)
Lemma stale_result_populates_preview :
  App.magicInput (run late_answer_trace App.mounted) = "Dinner $40"
  /\ App.aiPreview (run late_answer_trace App.mounted)
     = Some dinner_4_extraction
  /\ ~ discards_stale_results.
Proof.
  split; [reflexivity |]. split; [reflexivity |].
  intros Hdiscards.
  specialize (Hdiscards
                (run [Typed "Dinner $4"; TimeoutElapsed 1; Typed "Dinner $40"]
                     App.mounted)
                "Dinner $4"
                (Resolved (ok_response dinner_4_extraction))).
  cbn in Hdiscards.
  assert (H : Some dinner_4_extraction = @None JsValue).
  { apply Hdiscards. discriminate. }
  discriminate H.
Qed.

(** C7, as the code has it: the timeout callback makes no staleness check.
    When a call that is in flight resolves with truthy data, that data
    becomes the preview whatever the input is by then, and the input itself
    is left alone; a falsy result or a failed call leaves the preview as it
    was. *)
Theorem settled_result_always_populates_preview
        (s : App.t) (input : string) (d : JsValue)
        (Hinflight : In input (App.inflight s)) :
  (truthy d = true ->
   App.aiPreview (step s (ParseSettled input (Resolved (ok_response d))))
   = Some d)
  /\ (truthy d = false ->
      App.aiPreview (step s (ParseSettled input (Resolved (ok_response d))))
      = App.aiPreview s)
  /\ (forall e,
        App.aiPreview (step s (ParseSettled input (Rejected e)))
        = App.aiPreview s)
  /\ (forall outcome,
        App.magicInput (step s (ParseSettled input outcome)) = App.magicInput s
        /\ App.isProcessing (step s (ParseSettled input outcome)) = false).
Proof.
  assert (Hex : existsb (String.eqb input) (App.inflight s) = true).
  { apply existsb_exists. exists input. split; [exact Hinflight |].
    apply String.eqb_refl. }
  cbn [step]. unfold parseSettled. rewrite Hex. cbn.
  repeat split; try (intros Ht; rewrite Ht; reflexivity).
Qed.

Lemma settled_result_always_populates_preview_witness :
  let s := run [Typed "Dinner $4"; TimeoutElapsed 1; Typed "Dinner $40"]
               App.mounted in
  App.magicInput s = "Dinner $40"
  /\ App.aiPreview
       (step s (ParseSettled "Dinner $4"
                             (Resolved (ok_response dinner_4_extraction))))
     = Some dinner_4_extraction.
Proof.
  split; [reflexivity |].
  apply (settled_result_always_populates_preview
           (run [Typed "Dinner $4"; TimeoutElapsed 1; Typed "Dinner $40"]
                App.mounted)
           "Dinner $4" dinner_4_extraction).
  - cbn. left. reflexivity.
  - reflexivity.
Defined.

(** ** [Array.prototype.sort] *)

Section ArraySort.
Context {A : Type} (compareFn : A -> A -> comparison).

Lemma sort_insert_perm (x : A) (l : list A) :
  Permutation (sort_insert compareFn x l) (x :: l).
Proof.
  induction l as [| y l IH]; cbn; [reflexivity |].
  destruct (compareFn x y); try reflexivity.
  rewrite IH. apply perm_swap.
Qed.

Lemma Array_sort_perm (l : list A) : Permutation (Array_sort compareFn l) l.
Proof.
  induction l as [| x l IH]; cbn; [reflexivity |].
  rewrite sort_insert_perm. apply perm_skip. exact IH.
Qed.

Lemma Array_sort_In (l : list A) (x : A) :
  In x (Array_sort compareFn l) <-> In x l.
Proof.
  split; apply Permutation_in;
    [apply Array_sort_perm | symmetry; apply Array_sort_perm].
Qed.

Lemma Array_sort_nil_iff (l : list A) : Array_sort compareFn l = [] <-> l = [].
Proof.
  split; intros H.
  - apply Permutation_nil. rewrite <- H. apply Array_sort_perm.
  - rewrite H. reflexivity.
Qed.

(** Stability: elements that the comparator ties pairwise keep the order
    they had before the sort. *)
Lemma sort_insert_filter_tied (p : A -> bool) (x : A) (l : list A) :
  (forall a b, p a = true -> p b = true -> compareFn a b <> Gt) ->
  filter p (sort_insert compareFn x l) = filter p (x :: l).
Proof.
  intros Htied. induction l as [| y l IH]; [reflexivity |].
  cbn [sort_insert]. destruct (compareFn x y) eqn:Exy; try reflexivity.
  cbn [filter] in *. rewrite IH.
  destruct (p x) eqn:Epx, (p y) eqn:Epy; try reflexivity.
  exfalso. exact (Htied x y Epx Epy Exy).
Qed.

Lemma Array_sort_filter_tied (p : A -> bool) (l : list A) :
  (forall a b, p a = true -> p b = true -> compareFn a b <> Gt) ->
  filter p (Array_sort compareFn l) = filter p l.
Proof.
  intros Htied. induction l as [| x l IH]; [reflexivity |].
  cbn [Array_sort fold_right]. rewrite sort_insert_filter_tied by exact Htied.
  cbn [filter]. fold (Array_sort compareFn l). rewrite IH. reflexivity.
Qed.

Lemma sort_insert_sorted (x : A) (l : list A) :
  (forall y, In y l -> compareFn x y = Gt -> may_precede compareFn y x) ->
  (forall y z, In y l -> In z l ->
               may_precede compareFn x y -> may_precede compareFn y z ->
               may_precede compareFn x z) ->
  StronglySorted (may_precede compareFn) l ->
  StronglySorted (may_precede compareFn) (sort_insert compareFn x l).
Proof.
  intros Htotal Htrans Hsorted.
  induction Hsorted as [| y l Hl IH Hy]; cbn [sort_insert].
  - constructor; constructor.
  - assert (Hlater : StronglySorted (may_precede compareFn) (y :: l))
      by (constructor; assumption).
    destruct (compareFn x y) eqn:Exy.
    + constructor; [exact Hlater |].
      constructor; [unfold may_precede; congruence |].
      rewrite Forall_forall in *. intros z Hz.
      apply (Htrans y z); cbn; auto. unfold may_precede; congruence.
    + constructor; [exact Hlater |].
      constructor; [unfold may_precede; congruence |].
      rewrite Forall_forall in *. intros z Hz.
      apply (Htrans y z); cbn; auto. unfold may_precede; congruence.
    + constructor.
      * apply IH.
        -- intros z Hz. apply Htotal. right. exact Hz.
        -- intros z z' Hz Hz'. apply Htrans; right; assumption.
      * rewrite Forall_forall in *. intros z Hz.
        apply (Permutation_in _ (sort_insert_perm x l)) in Hz.
        destruct Hz as [<- | Hz]; [| apply Hy; exact Hz].
        apply Htotal; [left; reflexivity | exact Exy].
Qed.

(** On a list whose elements the comparator orders totally and
    transitively, the result is sorted. *)
Lemma Array_sort_sorted (l : list A) :
  (forall a b, In a l -> In b l ->
               compareFn a b = Gt -> may_precede compareFn b a) ->
  (forall a b d, In a l -> In b l -> In d l ->
                 may_precede compareFn a b -> may_precede compareFn b d ->
                 may_precede compareFn a d) ->
  StronglySorted (may_precede compareFn) (Array_sort compareFn l).
Proof.
  intros Htotal Htrans. induction l as [| x l IH]; [constructor |].
  cbn [Array_sort fold_right]. fold (Array_sort compareFn l).
  apply sort_insert_sorted.
  - intros y Hy. apply (proj1 (Array_sort_In l y)) in Hy.
    apply Htotal; [left; reflexivity | right; exact Hy].
  - intros y z Hy Hz.
    apply (proj1 (Array_sort_In l y)) in Hy.
    apply (proj1 (Array_sort_In l z)) in Hz.
    apply Htrans; [left; reflexivity | right; exact Hy | right; exact Hz].
  - apply IH.
    + intros a b Ha Hb. apply Htotal; right; assumption.
    + intros a b d Ha Hb Hd. apply Htrans; right; assumption.
Qed.
End ArraySort.

Lemma StronglySorted_weaken {A : Type} (R R' : A -> A -> Prop) (l : list A) :
  (forall a b, In a l -> In b l -> R a b -> R' a b) ->
  StronglySorted R l -> StronglySorted R' l.
Proof.
  intros Himpl Hsorted. induction Hsorted as [| x l Hl IH Hx]; constructor.
  - apply IH. intros a b Ha Hb. apply Himpl; right; assumption.
  - rewrite Forall_forall in *. intros y Hy.
    apply Himpl; [left; reflexivity | right; exact Hy | apply Hx; exact Hy].
Qed.

(** ** The store: queries *)

Section Queries.
Context `{JsDate}.

Lemma filter_category_spec (filters : option Filters.t)
      (data : list Transaction.t) :
  filter_category filters data = filter (category_matches filters) data.
Proof.
  unfold filter_category, category_matches.
  destruct (filters_category filters) as [c |].
  - destruct (c =? "")%string; cbn.
    + symmetry. apply filter_all_kept. reflexivity.
    + reflexivity.
  - symmetry. apply filter_all_kept. reflexivity.
Qed.

Lemma filter_startDate_spec (filters : option Filters.t)
      (data : list Transaction.t) :
  filter_startDate filters data = filter (on_or_after filters) data.
Proof.
  unfold filter_startDate, on_or_after.
  destruct (filters_startDate filters) as [s |].
  - destruct (s =? "")%string; cbn.
    + symmetry. apply filter_all_kept. reflexivity.
    + reflexivity.
  - symmetry. apply filter_all_kept. reflexivity.
Qed.

Lemma filter_filter {A : Type} (p q : A -> bool) (l : list A) :
  filter q (filter p l) = filter (fun x => p x && q x) l.
Proof.
  induction l as [| x l IH]; [reflexivity |].
  cbn. destruct (p x); cbn; [destruct (q x) |]; rewrite IH; reflexivity.
Qed.

(** The query is the stable sort of the kept transactions. *)
Lemma getTransactions_unfold (userId : string) (filters : option Filters.t)
      (w : World) :
  getTransactions userId filters w
  = Array_sort by_date_desc (filter (kept userId filters) (transactions (db w))).
Proof.
  unfold getTransactions. cbn zeta.
  rewrite filter_category_spec, filter_startDate_spec.
  rewrite (filter_filter (owned_by userId)), filter_filter.
  reflexivity.
Qed.

Lemma getTransactions_perm (userId : string) (filters : option Filters.t)
      (w : World) :
  Permutation (getTransactions userId filters w)
              (filter (kept userId filters) (transactions (db w))).
Proof. rewrite getTransactions_unfold. apply Array_sort_perm. Qed.

Lemma date_ge_spec (a b : option Z) :
  date_ge a b = true <-> exists x y, a = Some x /\ b = Some y /\ (y <= x)%Z.
Proof.
  unfold date_ge. split.
  - destruct a as [x |], b as [y |]; try discriminate.
    intros Hle. exists x, y. repeat split. apply Z.leb_le. exact Hle.
  - intros [x [y [-> [-> Hle]]]]. apply Z.leb_le. exact Hle.
Qed.

Lemma kept_spec (userId : string) (filters : option Filters.t)
      (t : Transaction.t) :
  kept userId filters t = true
  <-> Transaction.userId t = userId
      /\ (forall c, filters_category filters = Some c -> c <> "" ->
                    Transaction.category t = c)
      /\ (forall s, filters_startDate filters = Some s -> s <> "" ->
                    exists x y, Date_parse (Transaction.date t) = Some x
                                /\ Date_parse s = Some y /\ (y <= x)%Z).
Proof.
  unfold kept, owned_by, category_matches, on_or_after.
  rewrite !andb_true_iff, String.eqb_eq.
  split.
  - intros [[Hu Hc] Hd]. split; [exact Hu |]. split.
    + intros c Hfc Hne. rewrite Hfc in Hc. apply orb_true_iff in Hc.
      destruct Hc as [Hc | Hc]; apply String.eqb_eq in Hc; congruence.
    + intros s Hfs Hne. rewrite Hfs in Hd. apply orb_true_iff in Hd.
      destruct Hd as [Hd | Hd].
      * apply String.eqb_eq in Hd. congruence.
      * apply date_ge_spec. exact Hd.
  - intros [Hu [Hc Hd]]. repeat split; [exact Hu | |].
    + destruct (filters_category filters) as [c |]; [| reflexivity].
      destruct (String.eqb_spec c "") as [| Hne]; [reflexivity |].
      cbn. apply String.eqb_eq. apply Hc; [reflexivity | exact Hne].
    + destruct (filters_startDate filters) as [s |]; [| reflexivity].
      destruct (String.eqb_spec s "") as [| Hne]; [reflexivity |].
      cbn. apply date_ge_spec. apply Hd; [reflexivity | exact Hne].
Qed.

Lemma by_date_desc_valid (a b : Transaction.t) (ta tb : Z) :
  Date_parse (Transaction.date a) = Some ta ->
  Date_parse (Transaction.date b) = Some tb ->
  (by_date_desc a b <> Gt <-> (tb <= ta)%Z).
Proof.
  intros Ha Hb. unfold by_date_desc, sign_of_Z. rewrite Ha, Hb.
  destruct (Z.compare_spec (tb - ta) 0); split; intros; try lia; congruence.
Qed.

(** When the dates of the listed transactions all parse, sorting them puts
    later dates first. *)
Lemma Array_sort_by_date_desc (l : list Transaction.t) :
  (forall t, In t l -> Date_parse (Transaction.date t) <> None) ->
  StronglySorted not_before (Array_sort by_date_desc l).
Proof.
  intros Hvalid.
  assert (Hparsed : forall t, In t l ->
                              exists x, Date_parse (Transaction.date t) = Some x).
  { intros t Ht. specialize (Hvalid t Ht).
    destruct (Date_parse (Transaction.date t)) as [x |]; [eauto | contradiction]. }
  apply StronglySorted_weaken
    with (R := may_precede by_date_desc).
  - intros a b Ha Hb Hab.
    apply (proj1 (Array_sort_In by_date_desc l a)) in Ha.
    apply (proj1 (Array_sort_In by_date_desc l b)) in Hb.
    destruct (Hparsed a Ha) as [ta Hta], (Hparsed b Hb) as [tb Htb].
    unfold not_before. rewrite Hta, Htb. apply Z.leb_le.
    apply (by_date_desc_valid a b ta tb Hta Htb). exact Hab.
  - apply Array_sort_sorted.
    + intros a b Ha Hb Hgt.
      destruct (Hparsed a Ha) as [ta Hta], (Hparsed b Hb) as [tb Htb].
      apply (by_date_desc_valid b a tb ta Htb Hta).
      destruct (Z.le_gt_cases ta tb) as [Hle | Hlt]; [exact Hle |].
      exfalso. apply (by_date_desc_valid a b ta tb Hta Htb); [lia | exact Hgt].
    + intros a b d Ha Hb Hd Hab Hbd.
      destruct (Hparsed a Ha) as [ta Hta], (Hparsed b Hb) as [tb Htb],
               (Hparsed d Hd) as [td Htd].
      apply (by_date_desc_valid a d ta td Hta Htd).
      apply (by_date_desc_valid a b ta tb Hta Htb) in Hab.
      apply (by_date_desc_valid b d tb td Htb Htd) in Hbd.
      lia.
Qed.

Lemma dated_at_tied (instant : Z) (a b : Transaction.t) :
  dated_at instant a = true -> dated_at instant b = true ->
  by_date_desc a b <> Gt.
Proof.
  unfold dated_at, by_date_desc, sign_of_Z.
  destruct (Date_parse (Transaction.date a)) as [ta |]; [| discriminate].
  destruct (Date_parse (Transaction.date b)) as [tb |]; [| discriminate].
  intros Ha Hb. apply Z.eqb_eq in Ha, Hb. subst.
  rewrite Z.sub_diag. discriminate.
Qed.

End Queries.

(** C4, refuted as stated: asked for the category with the empty name, the
    query skips the category filter and returns all three purchases, none of
    which is in that category. *)
Lemma getTransactions_ignores_empty_category_filter :
  getTransactions (H := IsoDate) "guest_user" empty_category_filter
                  three_purchases
  = [taxi; dinner; lunch]
  /\ ~ (forall t,
          In t (getTransactions (H := IsoDate) "guest_user"
                                empty_category_filter three_purchases) ->
          meets_filters_literally (H := IsoDate) empty_category_filter t).
Proof.
  split; [reflexivity |].
  intros Hall. destruct (Hall taxi) as [Hcat _]; [left; reflexivity |].
  specialize (Hcat "" eq_refl). discriminate Hcat.
Qed.

(** C4, as the code has it. For every user and optional filters the query
    returns exactly the stored transactions of that user that pass the
    filters, where a category or start-date filter that is absent or the
    empty string is not applied, and a start-date filter keeps a transaction
    when both dates parse and the transaction is not earlier. Whenever the
    dates of the returned transactions all parse, the result is ordered by
    date descending and transactions with the same instant keep their
    insertion order. The result is empty when nothing matches, and a record
    that passes the filters is returned right after it is created. *)
Theorem getTransactions_filters_then_sorts_by_date
        `{JsDate} (userId : string) (filters : option Filters.t) (w : World) :
  let result := getTransactions userId filters w in
  Permutation result (filter (kept userId filters) (transactions (db w)))
  /\ (forall t,
        In t result
        <-> In t (transactions (db w))
            /\ Transaction.userId t = userId
            /\ (forall c, filters_category filters = Some c -> c <> "" ->
                          Transaction.category t = c)
            /\ (forall s, filters_startDate filters = Some s -> s <> "" ->
                          exists x y,
                            Date_parse (Transaction.date t) = Some x
                            /\ Date_parse s = Some y /\ (y <= x)%Z))
  /\ ((forall t, In t result -> Date_parse (Transaction.date t) <> None) ->
      StronglySorted not_before result
      /\ forall instant,
           filter (dated_at instant) result
           = filter (dated_at instant)
                    (filter (kept userId filters) (transactions (db w))))
  /\ ((forall t, In t (transactions (db w)) -> kept userId filters t = false) ->
      result = [])
  /\ (forall tx,
        kept userId filters tx = true ->
        In tx (getTransactions userId filters (snd (createTransaction tx w)))).
Proof.
  cbn zeta.
  pose proof (getTransactions_perm userId filters w) as Hperm.
  assert (Hin : forall t,
             In t (getTransactions userId filters w)
             <-> In t (transactions (db w)) /\ kept userId filters t = true).
  { intros t. rewrite <- filter_In. split; apply Permutation_in;
      [exact Hperm | symmetry; exact Hperm]. }
  split; [exact Hperm |]. split; [| split; [| split]].
  - intros t. rewrite Hin, kept_spec. reflexivity.
  - intros Hvalid. rewrite getTransactions_unfold in *. split.
    + apply Array_sort_by_date_desc. intros t Ht. apply Hvalid.
      apply Array_sort_In. exact Ht.
    + intros instant. apply Array_sort_filter_tied. apply dated_at_tied.
  - intros Hnone.
    destruct (getTransactions userId filters w) as [| t l] eqn:E; [reflexivity |].
    destruct (proj1 (Hin t) (or_introl eq_refl)) as [Hstored Hk].
    rewrite (Hnone t Hstored) in Hk. discriminate Hk.
  - intros tx Hk.
    apply (Permutation_in _ (Permutation_sym
                               (getTransactions_perm userId filters _))).
    apply filter_In. split; [| exact Hk].
    cbn. apply in_or_app. right. left. reflexivity.
Qed.

Lemma getTransactions_filters_then_sorts_by_date_witness :
  StronglySorted (not_before (H := IsoDate))
                 (getTransactions (H := IsoDate) "guest_user" None three_purchases)
  /\ getTransactions (H := IsoDate) "somebody_else" None three_purchases = []
  /\ In lunch (getTransactions (H := IsoDate) "guest_user" None
                               (snd (createTransaction lunch first_run))).
Proof.
  destruct (getTransactions_filters_then_sorts_by_date
              (H := IsoDate) "guest_user" None three_purchases)
    as [_ [_ [Hsorted _]]].
  destruct (getTransactions_filters_then_sorts_by_date
              (H := IsoDate) "somebody_else" None three_purchases)
    as [_ [_ [_ [Hempty _]]]].
  destruct (getTransactions_filters_then_sorts_by_date
              (H := IsoDate) "guest_user" None first_run)
    as [_ [_ [_ [_ Hcreated]]]].
  split; [| split].
  - apply Hsorted. intros t Ht. cbn in Ht.
    destruct Ht as [<- | [<- | [<- | []]]]; discriminate.
  - apply Hempty. intros t Ht. cbn in Ht.
    destruct Ht as [<- | [<- | [<- | []]]]; reflexivity.
  - apply Hcreated. reflexivity.
Defined.

(** ** Sums *)

Lemma fold_sum_from {A : Type} (f : A -> Q) (l : list A) (a : Q) :
  fold_left (fun sum x => sum + f x) l a
  == a + fold_left (fun sum x => sum + f x) l 0.
Proof.
  revert a. induction l as [| x l IH]; intros a; cbn.
  - ring.
  - rewrite (IH (a + f x)), (IH (0 + f x)). ring.
Qed.

Lemma reduce_sum_cons {A : Type} (f : A -> Q) (x : A) (l : list A) :
  reduce_sum f (x :: l) == f x + reduce_sum f l.
Proof.
  unfold reduce_sum. cbn. rewrite fold_sum_from. ring.
Qed.

Lemma reduce_sum_app {A : Type} (f : A -> Q) (l l' : list A) :
  reduce_sum f (l ++ l') == reduce_sum f l + reduce_sum f l'.
Proof.
  induction l as [| x l IH]; cbn [app].
  - unfold reduce_sum at 2. cbn. ring.
  - rewrite !reduce_sum_cons, IH. ring.
Qed.

Lemma reduce_sum_perm {A : Type} (f : A -> Q) (l l' : list A) :
  Permutation l l' -> reduce_sum f l == reduce_sum f l'.
Proof.
  induction 1 as [| x l l' _ IH | x y l | l l' l'' _ IH1 _ IH2].
  - reflexivity.
  - rewrite !reduce_sum_cons, IH. reflexivity.
  - rewrite !reduce_sum_cons. ring.
  - rewrite IH1. exact IH2.
Qed.

Lemma filter_perm {A : Type} (p : A -> bool) (l l' : list A) :
  Permutation l l' -> Permutation (filter p l) (filter p l').
Proof.
  induction 1 as [| x l l' _ IH | x y l | l l' l'' _ IH1 _ IH2]; cbn.
  - constructor.
  - destruct (p x); [apply perm_skip |]; exact IH.
  - destruct (p x), (p y); try reflexivity. apply perm_swap.
  - rewrite IH1. exact IH2.
Qed.

(** ** Budgets *)

Section Budgets.
Context `{JsDate}.

(** The stored budgets come back with [spent] equal to the category total of
    the user's transactions at the time of the read. *)
Lemma getBudgets_spent (userId : string) (w : World) (b : Budget.t) :
  In b (getBudgets userId w) ->
  Budget.userId b = userId
  /\ Budget.spent b == category_total userId (Budget.category b) w
  /\ exists stored, In stored (budgets (db w))
                    /\ b = with_spent stored (Budget.spent b).
Proof.
  unfold getBudgets. cbn zeta. intros Hb.
  apply in_map_iff in Hb. destruct Hb as [stored [<- Hstored]].
  apply filter_In in Hstored. destruct Hstored as [Hin Hu].
  apply String.eqb_eq in Hu.
  split; [exact Hu |]. split; [| exists stored; split; [exact Hin | reflexivity]].
  unfold category_total, with_spent. cbn [Budget.spent Budget.category].
  etransitivity.
  { apply reduce_sum_perm, filter_perm. apply getTransactions_perm. }
  rewrite filter_filter.
  assert (Hsame : forall l,
             filter (fun x => kept userId None x
                              && in_category (Budget.category stored) x) l
             = filter (fun t => owned_by userId t
                                && in_category (Budget.category stored) t) l).
  { intros l. apply filter_ext. intros t. unfold kept. cbn.
    rewrite !andb_true_r. reflexivity. }
  rewrite Hsame. reflexivity.
Qed.

(** With no stored budget for the session user the service hands out the
    three defaults, whose [spent] is the literal [0] whatever the stored
    transactions are. *)
Lemma getAll_defaults (w : World) :
  getBudgets AuthService.currentUserId w = [] ->
  data (BudgetService.getAll w) = Some BudgetService.defaults
  /\ forall b, In b BudgetService.defaults -> Budget.spent b = 0.
Proof.
  intros Hnone. unfold BudgetService.getAll. cbn zeta. rewrite Hnone.
  split; [reflexivity |].
  intros b [<- | [<- | [<- | []]]]; reflexivity.
Qed.

End Budgets.

(** C3, where the code departs from it: after one Food purchase of 40 and
    with no stored budget, the budget read path returns the default Food
    budget with [spent] 0, while the Food transactions of the user sum
    to 40. *)
Theorem getAll_default_budget_spent_ignores_transactions :
  data (BudgetService.getAll (H := IsoDate) after_dinner)
  = Some BudgetService.defaults
  /\ exists b,
       In b BudgetService.defaults
       /\ Budget.userId b = "guest_user"
       /\ Budget.category b = "Food"
       /\ Budget.spent b == 0
       /\ category_total "guest_user" "Food" after_dinner == 40
       /\ ~ Budget.spent b
            == category_total (Budget.userId b) (Budget.category b) after_dinner.
Proof.
  split; [reflexivity |].
  exists (BudgetService.default_budget "b1" "Food" 500).
  repeat split; try reflexivity.
  - left. reflexivity.
  - intros Heq. vm_compute in Heq. discriminate Heq.
Qed.

(** ** Sums, continued *)

Lemma reduce_sum_ext {A : Type} (f g : A -> Q) (l : list A) :
  (forall x, In x l -> f x == g x) -> reduce_sum f l == reduce_sum g l.
Proof.
  induction l as [| x l IH]; intros Hfg; [reflexivity |].
  rewrite !reduce_sum_cons, IH.
  - rewrite (Hfg x (or_introl eq_refl)). reflexivity.
  - intros y Hy. apply Hfg. right. exact Hy.
Qed.

Lemma reduce_sum_map {A B : Type} (f : B -> Q) (g : A -> B) (l : list A) :
  reduce_sum f (map g l) == reduce_sum (fun x => f (g x)) l.
Proof.
  induction l as [| x l IH]; [reflexivity |].
  cbn [map]. rewrite !reduce_sum_cons, IH. reflexivity.
Qed.

Lemma reduce_sum_scale {A : Type} (f : A -> Q) (k : Q) (l : list A) :
  reduce_sum (fun x => f x * k) l == reduce_sum f l * k.
Proof.
  induction l as [| x l IH]; [unfold reduce_sum; cbn; ring |].
  rewrite !reduce_sum_cons, IH. ring.
Qed.

Lemma or_number_zero (o : option Q) : or_number o 0 == value_or_zero o.
Proof.
  destruct o as [q |]; cbn; [| reflexivity].
  destruct (Qeq_bool q 0) eqn:E; [| reflexivity].
  apply Qeq_bool_eq in E. symmetry. exact E.
Qed.

(** ** Analytics *)

(** C9, on a purchase booked under the category [__proto__]: the summary
    counts the purchase in [totalSpent], which is 52, but [topCategories]
    has no entry for its category. The only entry is the one of [Food], with
    amount 12 and a percentage below 24, so the amounts listed do not add
    up to the total and the percentages stay far from 100. *)
Theorem topCategories_omits_proto_category :
  exists summary,
    data (AnalyticsService.getDashboardSummary (H := IsoDate) proto_and_lunch)
    = Some summary
    /\ map Transaction.category (session_transactions proto_and_lunch)
       = ["__proto__"; "Food"]
    /\ totalSpent summary == 52
    /\ 0 < totalSpent summary
    /\ map CategorySpending.category (topCategories summary) = ["Food"]
    /\ exists amount percentage,
         map CategorySpending.amount (topCategories summary) = [Sum amount]
         /\ amount == 12
         /\ map CategorySpending.percentage (topCategories summary)
            = [Finite percentage]
         /\ percentage == amount / totalSpent summary * 100
         /\ percentage < 24.
Proof.
  eexists. split; [reflexivity |].
  split; [reflexivity |].
  split; [reflexivity |].
  split; [reflexivity |].
  split; [reflexivity |].
  eexists. eexists.
  split; [vm_compute; reflexivity |].
  split; [reflexivity |].
  split; [vm_compute; reflexivity |].
  split; reflexivity.
Qed.

(* ================================================================== *)
(** * Further properties of the store *)
(* ================================================================== *)

Lemma find_app_first {A : Type} (p : A -> bool) (l l' : list A) :
  find p (l ++ l')
  = match find p l with
    | Some x => Some x
    | None => find p l'
    end.
Proof.
  induction l as [| x l IH]; cbn; [reflexivity |].
  destruct (p x); [reflexivity | exact IH].
Qed.

(** X1: [createUser] appends and [getUser] returns the first match, so a
    user created under an identifier that is already stored never replaces
    the stored one; under a new identifier the created user is found, and
    lookups of other identifiers are unaffected. Transactions and budgets
    are untouched. *)
Theorem getUser_after_createUser (user : User.t) (id : string) (w : World) :
  getUser id (snd (createUser user w))
  = match getUser id w with
    | Some stored => Some stored
    | None => if (User.id user =? id)%string then Some user else None
    end
  /\ fst (createUser user w) = user
  /\ List.length (users (db (snd (createUser user w))))
     = S (List.length (users (db w)))
  /\ transactions (db (snd (createUser user w))) = transactions (db w)
  /\ budgets (db (snd (createUser user w))) = budgets (db w).
Proof.
  repeat split.
  - unfold getUser. cbn. rewrite find_app_first.
    destruct (find (fun u => (User.id u =? id)%string) (users (db w)));
      reflexivity.
  - cbn. rewrite length_app. cbn. lia.
Qed.

Lemma getSession_resolved (w : World) (user : User.t) :
  AuthService.getSession w = Resolved user
  <-> getUser AuthService.currentUserId w = Some user.
Proof.
  unfold AuthService.getSession.
  destruct (getUser AuthService.currentUserId w) as [u |]; split;
    intros Heq; inversion Heq; reflexivity.
Qed.

Lemma getSession_user_id (w : World) (user : User.t) :
  AuthService.getSession w = Resolved user ->
  User.id user = AuthService.currentUserId /\ In user (users (db w)).
Proof.
  intros Hs. apply getSession_resolved in Hs. unfold getUser in Hs.
  apply find_some in Hs. destruct Hs as [Hin Hid].
  apply String.eqb_eq in Hid. split; assumption.
Qed.

(** X2: once the session resolves with a user, it resolves with that same
    user after every store operation, including the creation of another
    user that carries the identifier [guest_user]. *)
Theorem session_survives_store_operations
        (w : World) (user : User.t)
        (Hsession : AuthService.getSession w = Resolved user) :
  User.id user = "guest_user"
  /\ (forall other,
        AuthService.getSession (snd (createUser other w)) = Resolved user)
  /\ (forall tx,
        AuthService.getSession (snd (createTransaction tx w)) = Resolved user)
  /\ (forall id userId,
        AuthService.getSession (deleteTransaction id userId w) = Resolved user)
  /\ (forall budget,
        AuthService.getSession (snd (upsertBudget budget w)) = Resolved user).
Proof.
  split; [apply (getSession_user_id w user Hsession) |].
  pose proof (proj1 (getSession_resolved w user) Hsession) as Hget.
  split; [| repeat split; intros; apply getSession_resolved; exact Hget].
  intros other. apply getSession_resolved.
  unfold getUser in *. cbn. rewrite find_app_first, Hget. reflexivity.
Qed.

Lemma session_survives_store_operations_witness :
  AuthService.getSession (snd (createUser second_guest first_run))
  = Resolved (guest_user "2024-03-01T09:00:00.000Z").
Proof.
  apply (session_survives_store_operations
           first_run (guest_user "2024-03-01T09:00:00.000Z") eq_refl).
Defined.

(** ** Construction *)

Lemma construct_agrees (stored : LocalStorage) (now : string) :
  construct (raw_of stored) now
  = (db (MockDatabase_new stored now),
     raw_of (localStorage (MockDatabase_new stored now))).
Proof.
  unfold construct, MockDatabase_new, hydrate. cbn.
  destruct (zen_users stored) as [| u us]; [reflexivity |].
  destruct stored; reflexivity.
Qed.

(** X3: the constructor leaves at least one user in every case. The session
    is valid afterwards exactly when no user was stored (the guest is then
    created and everything is written back) or a stored user already has the
    identifier [guest_user]; stored users without the guest give a database
    on which the session never resolves. *)
Theorem MockDatabase_new_session (stored : LocalStorage) (now : string) :
  users (db (MockDatabase_new stored now)) <> []
  /\ mirrored (MockDatabase_new stored now)
  /\ (zen_users stored = [] ->
      AuthService.getSession (MockDatabase_new stored now)
      = Resolved (guest_user now)
      /\ transactions (db (MockDatabase_new stored now))
         = zen_transactions stored
      /\ budgets (db (MockDatabase_new stored now)) = zen_budgets stored)
  /\ (zen_users stored <> [] ->
      db (MockDatabase_new stored now)
      = {| users := zen_users stored;
           transactions := zen_transactions stored;
           budgets := zen_budgets stored |}
      /\ ((exists user, AuthService.getSession (MockDatabase_new stored now)
                        = Resolved user)
          <-> exists u, In u (zen_users stored) /\ User.id u = "guest_user")).
Proof.
  unfold MockDatabase_new. cbn.
  destruct (zen_users stored) as [| u us] eqn:Hus.
  - split; [discriminate |]. split; [reflexivity |].
    split; [intros _; repeat split | intros Habs; contradiction].
  - split; [discriminate |].
    split; [unfold mirrored; destruct stored; cbn in *; subst; reflexivity |].
    split; [discriminate |]. intros _.
    split; [reflexivity |].
    unfold AuthService.getSession, getUser. cbn [db users].
    split.
    + intros [user Hres].
      destruct (find (fun u0 => (User.id u0 =? AuthService.currentUserId)%string)
                     (u :: us)) as [found |] eqn:Hfind; [| discriminate].
      apply find_some in Hfind. destruct Hfind as [Hin Hid].
      apply String.eqb_eq in Hid. exists found. split; assumption.
    + intros [g [Hin Hid]].
      destruct (find (fun u0 => (User.id u0 =? AuthService.currentUserId)%string)
                     (u :: us)) as [found |] eqn:Hfind; [eexists; reflexivity |].
      pose proof (find_none _ _ Hfind g Hin) as Hno. cbn in Hno.
      apply String.eqb_neq in Hno. contradiction.
Qed.

Lemma MockDatabase_new_session_witness :
  AuthService.getSession
    (MockDatabase_new empty_storage "2024-03-01T09:00:00.000Z")
  = Resolved (guest_user "2024-03-01T09:00:00.000Z")
  /\ ~ (exists user,
          AuthService.getSession
            (MockDatabase_new {| zen_users := [alice];
                                 zen_transactions := [];
                                 zen_budgets := [] |}
                              "2024-03-01T09:00:00.000Z")
          = Resolved user).
Proof.
  destruct (MockDatabase_new_session empty_storage "2024-03-01T09:00:00.000Z")
    as [_ [_ [Hempty _]]].
  destruct (MockDatabase_new_session
              {| zen_users := [alice]; zen_transactions := [];
                 zen_budgets := [] |} "2024-03-01T09:00:00.000Z")
    as [_ [_ [_ Hstored]]].
  split; [apply Hempty; reflexivity |].
  intros Hsome. destruct Hstored as [_ Hiff]; [discriminate |].
  apply Hiff in Hsome. destruct Hsome as [u [[<- | []] Hid]]. discriminate Hid.
Defined.

(** X4: [hydrate] stops at the first text that does not parse. A damaged
    users text therefore empties all three collections, the guest is
    created, and the commit that follows overwrites the stored transactions
    and budgets with empty arrays even when their texts were sound. A
    damaged transactions text behind sound, non-empty users drops the
    budgets as well and leaves the storage as it was. When all three texts
    parse the constructor agrees with loading the arrays they hold. *)
Theorem construct_after_damage (raw : RawStorage) (now : string) :
  (raw_users raw = CorruptText ->
   construct raw now
   = ({| users := [guest_user now]; transactions := []; budgets := [] |},
      {| raw_users := ArrayText [guest_user now];
         raw_transactions := ArrayText [];
         raw_budgets := ArrayText [] |}))
  /\ (forall u us,
        parse_item (raw_users raw) = Some (u :: us) ->
        raw_transactions raw = CorruptText ->
        construct raw now
        = ({| users := u :: us; transactions := []; budgets := [] |}, raw))
  /\ (forall u us ts,
        parse_item (raw_users raw) = Some (u :: us) ->
        parse_item (raw_transactions raw) = Some ts ->
        raw_budgets raw = CorruptText ->
        construct raw now
        = ({| users := u :: us; transactions := ts; budgets := [] |}, raw))
  /\ (forall stored,
        raw = raw_of stored ->
        fst (construct raw now) = db (MockDatabase_new stored now)).
Proof.
  unfold construct, hydrate. repeat split.
  - intros Hu. rewrite Hu. reflexivity.
  - intros u us Hu Ht. rewrite Hu, Ht. reflexivity.
  - intros u us ts Hu Ht Hb. rewrite Hu, Ht, Hb. reflexivity.
  - intros stored ->. fold (hydrate (raw_of stored)).
    change (fst (construct (raw_of stored) now)
            = db (MockDatabase_new stored now)).
    rewrite construct_agrees. reflexivity.
Qed.

Lemma construct_after_damage_witness :
  transactions (fst (construct damaged_users "2024-03-05T09:00:00.000Z")) = []
  /\ raw_transactions (snd (construct damaged_users "2024-03-05T09:00:00.000Z"))
     = ArrayText [].
Proof.
  destruct (construct_after_damage damaged_users "2024-03-05T09:00:00.000Z")
    as [Hdamaged _].
  rewrite (Hdamaged eq_refl). split; reflexivity.
Defined.

(** ** Sorting and filtering *)

Section SortAndFilter.
Context {A : Type} (compareFn : A -> A -> comparison) (p : A -> bool).

Lemma sort_insert_in_front (x : A) (l : list A) :
  (forall z, In z l -> may_precede compareFn x z) ->
  sort_insert compareFn x l = x :: l.
Proof.
  destruct l as [| y l]; [reflexivity |].
  intros Hfront. cbn. specialize (Hfront y (or_introl eq_refl)).
  unfold may_precede in Hfront.
  destruct (compareFn x y); [reflexivity | reflexivity | contradiction].
Qed.

Lemma sort_insert_filter (x : A) (l : list A) :
  (forall y z, In y l -> In z l ->
               may_precede compareFn x y -> may_precede compareFn y z ->
               may_precede compareFn x z) ->
  StronglySorted (may_precede compareFn) l ->
  filter p (sort_insert compareFn x l)
  = if p x then sort_insert compareFn x (filter p l) else filter p l.
Proof.
  intros Htrans Hsorted.
  induction Hsorted as [| y l Hl IH Hy].
  - cbn. destruct (p x); reflexivity.
  - assert (IH' : filter p (sort_insert compareFn x l)
                  = if p x then sort_insert compareFn x (filter p l)
                    else filter p l).
    { apply IH. intros a b Ha Hb. apply Htrans; right; assumption. }
    assert (Hfront : compareFn x y <> Gt ->
                     forall z, In z (filter p (y :: l)) ->
                               may_precede compareFn x z).
    { intros Hxy z Hz. apply filter_In in Hz. destruct Hz as [[<- | Hz] _].
      - exact Hxy.
      - apply (Htrans y z); [left; reflexivity | right; exact Hz | exact Hxy |].
        rewrite Forall_forall in Hy. apply Hy. exact Hz. }
    assert (Hkept : compareFn x y <> Gt ->
                    filter p (x :: y :: l)
                    = if p x then sort_insert compareFn x (filter p (y :: l))
                      else filter p (y :: l)).
    { intros Hxy.
      change (filter p (x :: y :: l))
        with (if p x then x :: filter p (y :: l) else filter p (y :: l)).
      destruct (p x); [| reflexivity].
      symmetry. apply sort_insert_in_front. apply Hfront. exact Hxy. }
    cbn [sort_insert]. destruct (compareFn x y) eqn:Exy.
    + apply Hkept. discriminate.
    + apply Hkept. discriminate.
    + cbn [filter]. rewrite IH'.
      destruct (p x), (p y); try reflexivity.
      cbn [sort_insert]. rewrite Exy. reflexivity.
Qed.

(** On a list that the comparator orders totally and transitively, filtering
    the sorted list and sorting the filtered list give the same result. *)
Lemma Array_sort_filter (l : list A) :
  (forall a b, In a l -> In b l ->
               compareFn a b = Gt -> may_precede compareFn b a) ->
  (forall a b d, In a l -> In b l -> In d l ->
                 may_precede compareFn a b -> may_precede compareFn b d ->
                 may_precede compareFn a d) ->
  filter p (Array_sort compareFn l) = Array_sort compareFn (filter p l).
Proof.
  intros Htotal Htrans. induction l as [| x l IH]; [reflexivity |].
  assert (IH' : filter p (Array_sort compareFn l)
                = Array_sort compareFn (filter p l)).
  { apply IH.
    - intros a b Ha Hb. apply Htotal; right; assumption.
    - intros a b d Ha Hb Hd. apply Htrans; right; assumption. }
  cbn [Array_sort fold_right filter]. fold (Array_sort compareFn l).
  rewrite sort_insert_filter.
  - rewrite IH'. destruct (p x); reflexivity.
  - intros y z Hy Hz.
    apply (proj1 (Array_sort_In compareFn l y)) in Hy.
    apply (proj1 (Array_sort_In compareFn l z)) in Hz.
    apply Htrans; [left; reflexivity | right; exact Hy | right; exact Hz].
  - apply Array_sort_sorted.
    + intros a b Ha Hb. apply Htotal; right; assumption.
    + intros a b d Ha Hb Hd. apply Htrans; right; assumption.
Qed.
End SortAndFilter.

(** ** Queries after writes *)

Section QueriesAfterWrites.
Context `{JsDate}.

Lemma by_date_desc_total_on (l : list Transaction.t) :
  (forall t, In t l -> Date_parse (Transaction.date t) <> None) ->
  forall a b, In a l -> In b l ->
              by_date_desc a b = Gt -> may_precede by_date_desc b a.
Proof.
  intros Hvalid a b Ha Hb Hgt.
  pose proof (Hvalid a Ha) as Hva. pose proof (Hvalid b Hb) as Hvb.
  destruct (Date_parse (Transaction.date a)) as [ta |] eqn:Hta; [| contradiction].
  destruct (Date_parse (Transaction.date b)) as [tb |] eqn:Htb; [| contradiction].
  apply (by_date_desc_valid b a tb ta Htb Hta).
  destruct (Z.le_gt_cases ta tb) as [Hle | Hlt]; [exact Hle |].
  exfalso. apply (by_date_desc_valid a b ta tb Hta Htb); [lia | exact Hgt].
Qed.

Lemma by_date_desc_trans_on (l : list Transaction.t) :
  (forall t, In t l -> Date_parse (Transaction.date t) <> None) ->
  forall a b d, In a l -> In b l -> In d l ->
                may_precede by_date_desc a b -> may_precede by_date_desc b d ->
                may_precede by_date_desc a d.
Proof.
  intros Hvalid a b d Ha Hb Hd Hab Hbd.
  pose proof (Hvalid a Ha) as Hva. pose proof (Hvalid b Hb) as Hvb.
  pose proof (Hvalid d Hd) as Hvd.
  destruct (Date_parse (Transaction.date a)) as [ta |] eqn:Hta; [| contradiction].
  destruct (Date_parse (Transaction.date b)) as [tb |] eqn:Htb; [| contradiction].
  destruct (Date_parse (Transaction.date d)) as [td |] eqn:Htd; [| contradiction].
  apply (by_date_desc_valid a d ta td Hta Htd).
  apply (by_date_desc_valid a b ta tb Hta Htb) in Hab.
  apply (by_date_desc_valid b d tb td Htb Htd) in Hbd.
  lia.
Qed.

(** Filtering the dated transactions of one user commutes with the sort. *)
Lemma sorted_owned_filter (userId : string) (w : World) (p : Transaction.t -> bool) :
  dates_parse userId w ->
  filter p (Array_sort by_date_desc
              (filter (owned_by userId) (transactions (db w))))
  = Array_sort by_date_desc
      (filter p (filter (owned_by userId) (transactions (db w)))).
Proof.
  intros Hdates.
  assert (Hvalid : forall t,
             In t (filter (owned_by userId) (transactions (db w))) ->
             Date_parse (Transaction.date t) <> None).
  { intros t Ht. apply filter_In in Ht. destruct Ht as [Hin Ho].
    apply String.eqb_eq in Ho. apply Hdates; assumption. }
  apply Array_sort_filter.
  - apply by_date_desc_total_on. exact Hvalid.
  - apply by_date_desc_trans_on. exact Hvalid.
Qed.

Lemma kept_no_filters (userId : string) (l : list Transaction.t) :
  filter (kept userId None) l = filter (owned_by userId) l.
Proof.
  apply filter_ext. intros t. unfold kept. cbn. rewrite !andb_true_r. reflexivity.
Qed.

Lemma kept_split (userId : string) (filters : option Filters.t)
      (l : list Transaction.t) :
  filter (kept userId filters) l
  = filter (passes filters) (filter (owned_by userId) l).
Proof.
  rewrite filter_filter. apply filter_ext. intros t.
  unfold kept, passes. rewrite andb_assoc. reflexivity.
Qed.

(** X5: when the stored dates of a user all parse, a filtered query returns
    what a caller gets by filtering the unfiltered query itself, in the same
    order; in every case the filtered result is drawn from the unfiltered
    one. *)
Theorem getTransactions_filters_commute
        (userId : string) (filters : option Filters.t) (w : World) :
  (dates_parse userId w ->
   getTransactions userId filters w
   = filter (passes filters) (getTransactions userId None w))
  /\ incl (getTransactions userId filters w) (getTransactions userId None w)
  /\ (List.length (getTransactions userId filters w)
      <= List.length (getTransactions userId None w))%nat.
Proof.
  rewrite !getTransactions_unfold, kept_no_filters, kept_split.
  split; [| split].
  - intros Hdates. symmetry. apply sorted_owned_filter. exact Hdates.
  - intros t Ht. apply Array_sort_In. apply Array_sort_In in Ht.
    apply filter_In in Ht. apply Ht.
  - rewrite (Permutation_length (Array_sort_perm by_date_desc _)).
    rewrite (Permutation_length (Array_sort_perm by_date_desc
                                   (filter (owned_by userId) _))).
    apply filter_length_le.
Qed.

Lemma reduce_sum_nil {A : Type} (f : A -> Q) : reduce_sum f [] = 0.
Proof. reflexivity. Qed.

Lemma filter_app_last {A : Type} (p : A -> bool) (l : list A) (x : A) :
  filter p (l ++ [x]) = (filter p l ++ if p x then [x] else [])%list.
Proof. rewrite filter_app. cbn. destruct (p x); reflexivity. Qed.

(** X6: creating a record and then deleting it by its identifier and owner
    restores the stored collections, provided no stored record already had
    that identifier and owner; every query then answers as before the
    creation. *)
Theorem deleteTransaction_undoes_createTransaction
        (tx : Transaction.t) (w : World) (Hfresh : fresh_for tx w) :
  let w' := deleteTransaction (Transaction.id tx) (Transaction.userId tx)
                              (snd (createTransaction tx w)) in
  db w' = db w
  /\ (mirrored w -> w' = w)
  /\ (forall userId filters,
        getTransactions userId filters w' = getTransactions userId filters w)
  /\ (forall userId, getBudgets userId w' = getBudgets userId w).
Proof.
  cbn zeta.
  assert (Hdb : db (deleteTransaction (Transaction.id tx) (Transaction.userId tx)
                                      (snd (createTransaction tx w)))
                = db w).
  { cbn. rewrite filter_app_last.
    unfold delete_target at 2. rewrite !String.eqb_refl. cbn.
    rewrite app_nil_r, filter_all_kept.
    - destruct (db w). reflexivity.
    - intros t Ht. apply negb_true_iff.
      destruct (delete_target (Transaction.id tx) (Transaction.userId tx) t)
        eqn:E; [| reflexivity].
      apply delete_target_spec in E. exfalso. exact (Hfresh t Ht E). }
  split; [exact Hdb |]. split; [| split].
  - intros Hm.
    etransitivity; [apply deleteTransaction_mirrored |].
    rewrite Hdb. symmetry. exact Hm.
  - intros userId filters. unfold getTransactions. rewrite Hdb. reflexivity.
  - intros userId. unfold getBudgets, getTransactions. rewrite Hdb. reflexivity.
Qed.

Lemma owned_after_delete (id userId other : string) (l : list Transaction.t) :
  other <> userId ->
  filter (owned_by other)
         (filter (fun t => negb (delete_target id userId t)) l)
  = filter (owned_by other) l.
Proof.
  intros Hne. rewrite filter_filter. apply filter_ext. intros t.
  unfold owned_by, delete_target.
  destruct (String.eqb_spec (Transaction.userId t) other) as [Ho | _];
    [| apply andb_false_r].
  destruct (String.eqb_spec (Transaction.userId t) userId) as [Hu | _];
    [congruence |].
  rewrite andb_false_r. reflexivity.
Qed.

Lemma owned_after_create (tx : Transaction.t) (other : string)
      (l : list Transaction.t) :
  Transaction.userId tx <> other ->
  filter (owned_by other) (l ++ [tx]) = filter (owned_by other) l.
Proof.
  intros Hne. rewrite filter_app_last. unfold owned_by at 2.
  destruct (String.eqb_spec (Transaction.userId tx) other); [contradiction |].
  apply app_nil_r.
Qed.

Lemma getTransactions_owned (userId : string) (filters : option Filters.t)
      (w : World) :
  getTransactions userId filters w
  = Array_sort by_date_desc
      (filter (passes filters)
              (filter (owned_by userId) (transactions (db w)))).
Proof. rewrite getTransactions_unfold, kept_split. reflexivity. Qed.

(** X7: what one user creates or deletes never changes what another user's
    queries and budgets return. *)
Theorem writes_leave_other_users_untouched
        (userId other : string) (w : World) (Hother : other <> userId) :
  (forall id filters,
     getTransactions other filters (deleteTransaction id userId w)
     = getTransactions other filters w)
  /\ (forall id, getBudgets other (deleteTransaction id userId w)
                 = getBudgets other w)
  /\ (forall tx filters,
        Transaction.userId tx = userId ->
        getTransactions other filters (snd (createTransaction tx w))
        = getTransactions other filters w)
  /\ (forall tx,
        Transaction.userId tx = userId ->
        getBudgets other (snd (createTransaction tx w)) = getBudgets other w).
Proof.
  assert (Hdel : forall id filters,
             getTransactions other filters (deleteTransaction id userId w)
             = getTransactions other filters w).
  { intros id filters. rewrite !getTransactions_owned. cbn.
    rewrite owned_after_delete by exact Hother. reflexivity. }
  assert (Hadd : forall tx filters,
             Transaction.userId tx = userId ->
             getTransactions other filters (snd (createTransaction tx w))
             = getTransactions other filters w).
  { intros tx filters Hu. rewrite !getTransactions_owned. cbn.
    rewrite owned_after_create by congruence. reflexivity. }
  split; [exact Hdel |]. split; [| split; [exact Hadd |]].
  - intros id. unfold getBudgets. cbn zeta. rewrite Hdel. reflexivity.
  - intros tx Hu. unfold getBudgets. cbn zeta. rewrite (Hadd tx None Hu).
    reflexivity.
Qed.

End QueriesAfterWrites.

Lemma getTransactions_filters_commute_witness :
  getTransactions (H := IsoDate) "guest_user" march_filter three_purchases
  = filter (passes (H := IsoDate) march_filter)
           (getTransactions (H := IsoDate) "guest_user" None three_purchases).
Proof.
  destruct (getTransactions_filters_commute
              (H := IsoDate) "guest_user" march_filter three_purchases)
    as [Hcommute _].
  apply Hcommute.
  intros t Ht _. cbn in Ht.
  destruct Ht as [<- | [<- | [<- | []]]]; discriminate.
Defined.

Lemma deleteTransaction_undoes_createTransaction_witness :
  deleteTransaction "t3" "guest_user" (snd (createTransaction lunch first_run))
  = first_run.
Proof.
  assert (Hfresh : fresh_for lunch first_run) by (intros t []).
  destruct (deleteTransaction_undoes_createTransaction (H := IsoDate) lunch first_run Hfresh)
    as [_ [Hworld _]].
  apply Hworld. reflexivity.
Defined.

Lemma writes_leave_other_users_untouched_witness :
  getTransactions (H := IsoDate) "alice" None
                  (deleteTransaction "t1" "guest_user"
                                     (snd (createTransaction alice_tx first_run)))
  = getTransactions (H := IsoDate) "alice" None
                    (snd (createTransaction alice_tx first_run)).
Proof.
  apply (writes_leave_other_users_untouched
           (H := IsoDate) "guest_user" "alice" (snd (createTransaction alice_tx first_run))).
  discriminate.
Defined.


(** ** The transaction service *)

Section TransactionServiceFacts.
Context `{JsDate}.

Lemma create_writing_session
      (storage : Writes) (randomId now : string) (payload : Partial.t)
      (w : World) (user : User.t) :
  AuthService.getSession w = Resolved user ->
  let built := TransactionService.newTx randomId now user payload in
  fst (TransactionService.create_writing storage randomId now payload w)
  = (if accepts storage
     then {| data := Some built; error := None; status := 201 |}
     else {| data := None; error := Some "Creation failed"; status := 500 |})
  /\ transactions
       (db (snd (TransactionService.create_writing storage randomId now
                                                   payload w)))
     = (transactions (db w) ++ [built])%list.
Proof.
  intros Hsession. cbn zeta. unfold TransactionService.create_writing.
  rewrite Hsession. unfold createTransaction_writing. cbn zeta.
  destruct (accepts storage); split; reflexivity.
Qed.

(** X8: with a valid session, [create] builds a record that carries the
    drawn identifier and the session user as owner, whatever identifier or
    owner the payload names, with the currency falling back to the user's
    preference. It answers 201 with that record when [localStorage] takes
    the writes and 500 when a write is refused; either way the record is
    listed by [getAll] right after, which then has one entry more. *)
Theorem create_then_getAll
        (storage : Writes) (randomId now : string) (payload : Partial.t)
        (w : World) (user : User.t)
        (Hsession : AuthService.getSession w = Resolved user) :
  let answer :=
    TransactionService.create_writing storage randomId now payload w in
  let built := TransactionService.newTx randomId now user payload in
  Transaction.id built = randomId
  /\ Transaction.userId built = "guest_user"
  /\ Transaction.currency built
     = or_string (Partial.currency payload)
                 (pref_currency (User.preferences user))
  /\ Transaction.amount built == value_or_zero (Partial.amount payload)
  /\ fst answer
     = (if accepts storage
        then {| data := Some built; error := None; status := 201 |}
        else {| data := None; error := Some "Creation failed";
                status := 500 |})
  /\ exists before after,
       data (TransactionService.getAll w) = Some before
       /\ data (TransactionService.getAll (snd answer)) = Some after
       /\ In built after
       /\ List.length after = S (List.length before).
Proof.
  cbn zeta.
  destruct (create_writing_session storage randomId now payload w user Hsession)
    as [Hanswer Hstored].
  destruct (getSession_user_id w user Hsession) as [Hid _].
  split; [reflexivity |]. split; [exact Hid |]. split; [reflexivity |].
  split; [apply or_number_zero |].
  split; [exact Hanswer |].
  eexists. eexists. split; [reflexivity |]. split; [reflexivity |].
  assert (Howned : owned_by AuthService.currentUserId
                            (TransactionService.newTx randomId now user payload)
                   = true).
  { unfold owned_by. cbn [TransactionService.newTx Transaction.userId].
    rewrite Hid. apply String.eqb_refl. }
  rewrite !getTransactions_unfold, !kept_no_filters, Hstored.
  rewrite filter_app_last, Howned. split.
  - apply Array_sort_In. apply in_or_app. right. left. reflexivity.
  - rewrite !(Permutation_length (Array_sort_perm by_date_desc _)).
    rewrite length_app. cbn [List.length]. lia.
Qed.

(** X9: [delete] answers 200 whether or not anything was removed.
    Afterwards [getAll] lists exactly the earlier entries with another
    identifier, in their earlier order when the stored dates parse, and the
    transactions of other users are all still stored. *)
Theorem delete_then_getAll (id : string) (w : World) :
  let answer := TransactionService.delete id w in
  status (fst answer) = 200%Z
  /\ error (fst answer) = None
  /\ exists before after,
       data (TransactionService.getAll w) = Some before
       /\ data (TransactionService.getAll (snd answer)) = Some after
       /\ (forall t, In t after <-> In t before /\ Transaction.id t <> id)
       /\ (dates_parse AuthService.currentUserId w ->
           after = filter (fun t => negb (Transaction.id t =? id)%string) before)
       /\ filter (fun t => negb (owned_by AuthService.currentUserId t))
                 (transactions (db (snd answer)))
          = filter (fun t => negb (owned_by AuthService.currentUserId t))
                   (transactions (db w)).
Proof.
  cbn zeta. split; [reflexivity |]. split; [reflexivity |].
  eexists. eexists. split; [reflexivity |]. split; [reflexivity |].
  cbn [snd TransactionService.delete].
  rewrite !getTransactions_unfold, !kept_no_filters.
  assert (Hlist : filter (owned_by AuthService.currentUserId)
                         (transactions
                            (db (deleteTransaction id AuthService.currentUserId w)))
                  = filter (fun t => negb (Transaction.id t =? id)%string)
                           (filter (owned_by AuthService.currentUserId)
                                   (transactions (db w)))).
  { cbn. rewrite !filter_filter. apply filter_ext. intros t.
    unfold delete_target, owned_by.
    destruct (Transaction.userId t =? AuthService.currentUserId)%string,
             (Transaction.id t =? id)%string; reflexivity. }
  rewrite Hlist. split; [| split].
  - intros t. rewrite !Array_sort_In, !filter_In, negb_true_iff, String.eqb_neq.
    tauto.
  - intros Hdates. symmetry. apply sorted_owned_filter. exact Hdates.
  - cbn. rewrite !filter_filter. apply filter_ext. intros t.
    unfold delete_target, owned_by.
    destruct (Transaction.userId t =? AuthService.currentUserId)%string,
             (Transaction.id t =? id)%string; reflexivity.
Qed.

End TransactionServiceFacts.

Lemma create_then_getAll_witness :
  status (fst (TransactionService.create_writing
                 ThrowsAtTransactions "k3j9x0q2a" "2024-03-01T10:00:00.000Z"
                 dining_payload first_run))
  = 500%Z
  /\ exists after,
       data (TransactionService.getAll
               (H := IsoDate)
               (snd (TransactionService.create_writing
                       ThrowsAtTransactions "k3j9x0q2a"
                       "2024-03-01T10:00:00.000Z" dining_payload first_run)))
       = Some after
       /\ map Transaction.id after = ["k3j9x0q2a"].
Proof.
  destruct (create_then_getAll (H := IsoDate) ThrowsAtTransactions
              "k3j9x0q2a" "2024-03-01T10:00:00.000Z" dining_payload first_run
              (guest_user "2024-03-01T09:00:00.000Z") eq_refl)
    as [_ [_ [_ [_ [Hanswer [before [after [_ [Hafter _]]]]]]]]].
  split; [rewrite Hanswer; reflexivity |].
  exists after. split; [exact Hafter |].
  cbn in Hafter. injection Hafter as <-. reflexivity.
Defined.

Lemma delete_then_getAll_witness :
  data (TransactionService.getAll
          (H := IsoDate)
          (snd (TransactionService.delete "t2" three_purchases)))
  = Some [dinner; lunch].
Proof.
  destruct (delete_then_getAll (H := IsoDate) "t2" three_purchases)
    as [_ [_ [before [after [Hbefore [Hafter [_ [Hordered _]]]]]]]].
  rewrite Hafter. f_equal. rewrite Hordered.
  - cbn in Hbefore. injection Hbefore as <-. reflexivity.
  - intros t Ht _. cbn in Ht.
    destruct Ht as [<- | [<- | [<- | []]]]; discriminate.
Defined.

(** ** Budgets: upsert and read *)

Lemma upsertBudget_budgets (budget : Budget.t) (w : World) :
  budgets (db (snd (upsertBudget budget w))) = upserted budget (budgets (db w)).
Proof. reflexivity. Qed.

Lemma upserted_cons (budget x : Budget.t) (bs : list Budget.t) :
  upserted budget (x :: bs)
  = if (Budget.id x =? Budget.id budget)%string then budget :: bs
    else x :: upserted budget bs.
Proof.
  unfold upserted. cbn.
  destruct (Budget.id x =? Budget.id budget)%string; [reflexivity |].
  destruct (findIndex _ bs); reflexivity.
Qed.

Lemma upserted_lookup_same (budget : Budget.t) (bs : list Budget.t) :
  budget_by_id (Budget.id budget) (upserted budget bs) = Some budget.
Proof.
  unfold budget_by_id. induction bs as [| x bs IH].
  - cbn. rewrite String.eqb_refl. reflexivity.
  - rewrite upserted_cons.
    destruct (Budget.id x =? Budget.id budget)%string eqn:E; cbn.
    + rewrite String.eqb_refl. reflexivity.
    + rewrite E. exact IH.
Qed.

Lemma upserted_lookup_other (budget : Budget.t) (id : string)
      (bs : list Budget.t) :
  id <> Budget.id budget ->
  budget_by_id id (upserted budget bs) = budget_by_id id bs.
Proof.
  intros Hne. unfold budget_by_id. induction bs as [| x bs IH].
  - cbn. destruct (String.eqb_spec (Budget.id budget) id); [congruence | reflexivity].
  - rewrite upserted_cons.
    destruct (String.eqb_spec (Budget.id x) (Budget.id budget)) as [Hx | Hx]; cbn.
    + destruct (String.eqb_spec (Budget.id budget) id); [congruence |].
      destruct (String.eqb_spec (Budget.id x) id); [congruence | reflexivity].
    + destruct (Budget.id x =? id)%string; [reflexivity | exact IH].
Qed.

Lemma upserted_ids (budget : Budget.t) (bs : list Budget.t) :
  map Budget.id (upserted budget bs)
  = if existsb (String.eqb (Budget.id budget)) (map Budget.id bs)
    then map Budget.id bs
    else (map Budget.id bs ++ [Budget.id budget])%list.
Proof.
  induction bs as [| x bs IH]; [reflexivity |].
  rewrite upserted_cons. cbn [map existsb].
  rewrite (String.eqb_sym (Budget.id budget) (Budget.id x)).
  destruct (String.eqb_spec (Budget.id x) (Budget.id budget)) as [Hx | Hx]; cbn.
  - rewrite Hx. reflexivity.
  - rewrite IH.
    destruct (existsb (String.eqb (Budget.id budget)) (map Budget.id bs));
      reflexivity.
Qed.

Lemma upserted_twice (budget : Budget.t) (bs : list Budget.t) :
  upserted budget (upserted budget bs) = upserted budget bs.
Proof.
  induction bs as [| x bs IH].
  - cbn. unfold upserted. cbn. rewrite String.eqb_refl. reflexivity.
  - rewrite upserted_cons.
    destruct (Budget.id x =? Budget.id budget)%string eqn:E.
    + rewrite upserted_cons, String.eqb_refl. reflexivity.
    + rewrite upserted_cons, E, IH. reflexivity.
Qed.

(** X10: after [upsertBudget] a lookup by the budget's identifier returns
    exactly that budget, lookups by any other identifier return what they
    returned before, and users and transactions are untouched. *)
Theorem upsertBudget_then_lookup (budget : Budget.t) (w : World) :
  let w' := snd (upsertBudget budget w) in
  fst (upsertBudget budget w) = budget
  /\ budget_by_id (Budget.id budget) (budgets (db w')) = Some budget
  /\ (forall id, id <> Budget.id budget ->
                 budget_by_id id (budgets (db w'))
                 = budget_by_id id (budgets (db w)))
  /\ users (db w') = users (db w)
  /\ transactions (db w') = transactions (db w)
  /\ mirrored w'.
Proof.
  cbn zeta. rewrite upsertBudget_budgets.
  split; [reflexivity |]. split; [apply upserted_lookup_same |].
  split; [intros id Hne; apply upserted_lookup_other; exact Hne |].
  repeat split.
Qed.

(** X11: [upsertBudget] replaces in place when the identifier is stored and
    adds one budget at the end otherwise, so identifiers that were pairwise
    distinct stay pairwise distinct; upserting the same budget a second time
    changes nothing. *)
Theorem upsertBudget_keeps_identifiers_distinct (budget : Budget.t) (w : World) :
  let before := budgets (db w) in
  let after := budgets (db (snd (upsertBudget budget w))) in
  (In (Budget.id budget) (map Budget.id before) ->
   map Budget.id after = map Budget.id before)
  /\ (~ In (Budget.id budget) (map Budget.id before) ->
      after = (before ++ [budget])%list)
  /\ (NoDup (map Budget.id before) -> NoDup (map Budget.id after))
  /\ snd (upsertBudget budget (snd (upsertBudget budget w)))
     = snd (upsertBudget budget w).
Proof.
  cbn zeta. rewrite upsertBudget_budgets.
  assert (Hex : existsb (String.eqb (Budget.id budget))
                        (map Budget.id (budgets (db w))) = true
                <-> In (Budget.id budget) (map Budget.id (budgets (db w)))).
  { rewrite existsb_exists. split.
    - intros [x [Hin Heq]]. apply String.eqb_eq in Heq. subst. exact Hin.
    - intros Hin. exists (Budget.id budget). split; [exact Hin |].
      apply String.eqb_refl. }
  split; [| split; [| split]].
  - intros Hin. rewrite upserted_ids. apply Hex in Hin. rewrite Hin. reflexivity.
  - intros Hnot. unfold upserted.
    destruct (findIndex (fun b => (Budget.id b =? Budget.id budget)%string)
                        (budgets (db w))) as [idx |] eqn:Hfind; [| reflexivity].
    exfalso. apply Hnot. clear Hnot Hex. revert idx Hfind.
    induction (budgets (db w)) as [| x bs IH]; intros idx Hfind; [discriminate |].
    cbn in Hfind. destruct (String.eqb_spec (Budget.id x) (Budget.id budget)).
    + left. assumption.
    + right. destruct (findIndex _ bs) as [i |]; [| discriminate].
      apply (IH i). reflexivity.
  - intros Hnd. rewrite upserted_ids.
    destruct (existsb (String.eqb (Budget.id budget))
                      (map Budget.id (budgets (db w)))) eqn:E; [exact Hnd |].
    apply NoDup_app; [exact Hnd | repeat constructor; intros [] |].
    intros x Hx [<- | []]. apply Hex in Hx. congruence.
  - unfold upsertBudget. cbn [snd db commit users transactions budgets].
    fold (upserted budget (budgets (db w))).
    fold (upserted budget (upserted budget (budgets (db w)))).
    rewrite upserted_twice. reflexivity.
Qed.

Lemma upsertBudget_keeps_identifiers_distinct_witness :
  map Budget.id
      (budgets (db (snd (upsertBudget
                           health_budget
                           (snd (upsertBudget food_budget first_run))))))
  = ["b7"; "b9"].
Proof.
  destruct (upsertBudget_keeps_identifiers_distinct
              health_budget (snd (upsertBudget food_budget first_run)))
    as [_ [Hnew _]].
  rewrite Hnew; [reflexivity |].
  cbn. intros [Heq | []]. discriminate Heq.
Defined.

Section BudgetReads.
Context `{JsDate}.

Lemma getBudgets_map (userId : string) (w : World) :
  getBudgets userId w
  = map (fun b =>
           with_spent b
             (reduce_sum Transaction.amount
                         (filter (in_category (Budget.category b))
                                 (getTransactions userId None w))))
        (filter (fun b => (Budget.userId b =? userId)%string) (budgets (db w))).
Proof. reflexivity. Qed.

Lemma upserted_budget_is_listed (budget : Budget.t) (w : World) :
  In (with_spent budget
        (reduce_sum Transaction.amount
           (filter (in_category (Budget.category budget))
                   (getTransactions (Budget.userId budget) None
                                    (snd (upsertBudget budget w))))))
     (getBudgets (Budget.userId budget) (snd (upsertBudget budget w))).
Proof.
  rewrite getBudgets_map.
  apply (in_map (fun b =>
                   with_spent b
                     (reduce_sum Transaction.amount
                        (filter (in_category (Budget.category b))
                                (getTransactions (Budget.userId budget) None
                                   (snd (upsertBudget budget w))))))).
  apply filter_In. split.
  - rewrite upsertBudget_budgets.
    pose proof (upserted_lookup_same budget (budgets (db w))) as Hfind.
    apply find_some in Hfind. apply Hfind.
  - apply String.eqb_refl.
Qed.

(** Reading back ignores the [spent] a budget was written with. *)
Lemma upserted_spent_ignored (userId : string) (sum : string -> Q)
      (budget : Budget.t) (spent : Q) (bs : list Budget.t) :
  map (fun b => with_spent b (sum (Budget.category b)))
      (filter (fun b => (Budget.userId b =? userId)%string)
              (upserted (with_spent budget spent) bs))
  = map (fun b => with_spent b (sum (Budget.category b)))
        (filter (fun b => (Budget.userId b =? userId)%string)
                (upserted budget bs)).
Proof.
  induction bs as [| x bs IH].
  - unfold upserted. cbn.
    destruct (Budget.userId budget =? userId)%string; reflexivity.
  - rewrite !upserted_cons. cbn [with_spent Budget.id].
    destruct (Budget.id x =? Budget.id budget)%string.
    + cbn. destruct (Budget.userId budget =? userId)%string; reflexivity.
    + cbn [filter]. destruct (Budget.userId x =? userId)%string.
      * cbn [map]. f_equal. exact IH.
      * exact IH.
Qed.

(** X12: a budget written with [upsertBudget] comes back from [getBudgets]
    of its owner with every field as written except [spent], which is the
    sum over the owner's transactions in the budget's category, taken in
    the order of the query; the value of [spent] that was passed in has no
    influence on what any user reads back. *)
Theorem upsertBudget_then_getBudgets (budget : Budget.t) (w : World) :
  (exists returned,
     In returned
        (getBudgets (Budget.userId budget) (snd (upsertBudget budget w)))
     /\ same_budget returned budget
     /\ Budget.spent returned
        = reduce_sum Transaction.amount
                     (summed (Budget.userId budget) (Budget.category budget) w))
  /\ forall userId spent,
       getBudgets userId (snd (upsertBudget (with_spent budget spent) w))
       = getBudgets userId (snd (upsertBudget budget w)).
Proof.
  split.
  - eexists. split; [apply upserted_budget_is_listed |].
    split; reflexivity.
  - intros userId spent. rewrite !getBudgets_map, !upsertBudget_budgets.
    apply (upserted_spent_ignored
             userId
             (fun category =>
                reduce_sum Transaction.amount
                           (filter (in_category category)
                                   (getTransactions userId None w)))).
Qed.

Lemma Forall2_map_same {A B : Type} (R : B -> B -> Prop) (f g : A -> B)
      (l : list A) :
  (forall x, In x l -> R (f x) (g x)) -> Forall2 R (map f l) (map g l).
Proof.
  induction l as [| x l IH]; intros Hall; cbn; constructor.
  - apply Hall. left. reflexivity.
  - apply IH. intros y Hy. apply Hall. right. exact Hy.
Qed.

Lemma dates_parse_before_create (userId : string) (tx : Transaction.t)
      (w : World) :
  dates_parse userId (snd (createTransaction tx w)) -> dates_parse userId w.
Proof.
  intros Hdates t Ht. apply Hdates.
  cbn [snd createTransaction db commit transactions].
  apply in_or_app. left. exact Ht.
Qed.

(** What [getBudgets] sums for a category once one more transaction is
    stored. *)
Lemma summed_after_create (userId category : string) (tx : Transaction.t)
      (w : World) :
  (owned_by userId tx && in_category category tx = true ->
   Permutation (summed userId category (snd (createTransaction tx w)))
               (tx :: summed userId category w))
  /\ (dates_parse userId (snd (createTransaction tx w)) ->
      owned_by userId tx && in_category category tx = false ->
      summed userId category (snd (createTransaction tx w))
      = summed userId category w).
Proof.
  unfold summed. split.
  - intros Hcounts. apply andb_true_iff in Hcounts. destruct Hcounts as [Ho Hc].
    rewrite (filter_perm _ _ _ (getTransactions_perm userId None _)).
    rewrite (filter_perm _ _ _ (getTransactions_perm userId None w)).
    rewrite !kept_no_filters.
    cbn [snd createTransaction db commit transactions].
    rewrite filter_app_last, Ho, filter_app_last, Hc.
    symmetry. apply Permutation_cons_append.
  - intros Hdates Hcounts.
    rewrite !getTransactions_unfold, !kept_no_filters.
    destruct (owned_by userId tx) eqn:Ho.
    + rewrite (sorted_owned_filter userId _ _ Hdates).
      rewrite (sorted_owned_filter userId w _
                 (dates_parse_before_create userId tx w Hdates)).
      cbn [snd createTransaction db commit transactions].
      rewrite filter_app_last, Ho, filter_app_last.
      cbn [andb] in Hcounts. rewrite Hcounts, app_nil_r. reflexivity.
    + cbn [snd createTransaction db commit transactions].
      rewrite filter_app_last, Ho, app_nil_r. reflexivity.
Qed.

(** X13: after one more transaction is stored, [getBudgets] returns the same
    budgets in the same order, each with [spent] summed over the
    transactions of its category in the order of the query. For a budget in
    the category of the user's new transaction these are the earlier ones
    and the new one; for every other budget they are the earlier ones in
    their earlier order, so the budget comes back exactly as before. *)
Theorem getBudgets_after_createTransaction
        (userId : string) (tx : Transaction.t) (w : World)
        (Hdates : dates_parse userId (snd (createTransaction tx w))) :
  Forall2 (fun after before =>
             same_budget after before
             /\ Budget.spent after
                = reduce_sum Transaction.amount
                    (summed userId (Budget.category before)
                            (snd (createTransaction tx w)))
             /\ Budget.spent before
                = reduce_sum Transaction.amount
                    (summed userId (Budget.category before) w)
             /\ (counts_towards userId tx before = true ->
                 Permutation
                   (summed userId (Budget.category before)
                           (snd (createTransaction tx w)))
                   (tx :: summed userId (Budget.category before) w))
             /\ (counts_towards userId tx before = false -> after = before))
          (getBudgets userId (snd (createTransaction tx w)))
          (getBudgets userId w).
Proof.
  rewrite !getBudgets_map.
  change (budgets (db (snd (createTransaction tx w)))) with (budgets (db w)).
  apply Forall2_map_same. intros b _.
  destruct (summed_after_create userId (Budget.category b) tx w)
    as [Hcounts Hother].
  split; [reflexivity |]. split; [reflexivity |]. split; [reflexivity |].
  unfold counts_towards. cbn [with_spent Budget.category]. split.
  - exact Hcounts.
  - intros Hnot. specialize (Hother Hdates Hnot). unfold summed in Hother.
    rewrite Hother. reflexivity.
Qed.

(** X14: [BudgetService.getAll] always answers 200 with a list that is not
    empty: the three defaults when the session user has no stored budget,
    and the stored budgets alone otherwise, so the defaults are gone as soon
    as one budget of the session user is written. *)
Theorem getAll_defaults_only_without_budgets (w : World) :
  exists listed,
    data (BudgetService.getAll w) = Some listed
    /\ status (BudgetService.getAll w) = 200%Z
    /\ listed <> []
    /\ (getBudgets AuthService.currentUserId w = [] ->
        listed = BudgetService.defaults)
    /\ (getBudgets AuthService.currentUserId w <> [] ->
        listed = getBudgets AuthService.currentUserId w)
    /\ (forall budget,
          Budget.userId budget = AuthService.currentUserId ->
          data (BudgetService.getAll (snd (upsertBudget budget w)))
          = Some (getBudgets AuthService.currentUserId
                             (snd (upsertBudget budget w)))).
Proof.
  unfold BudgetService.getAll at 1 2. cbn zeta.
  destruct (getBudgets AuthService.currentUserId w) as [| b bs] eqn:Hb.
  - eexists. split; [reflexivity |]. split; [reflexivity |].
    split; [discriminate |]. split; [reflexivity |].
    split; [intros Habs; contradiction |].
    intros budget Hu. unfold BudgetService.getAll. cbn zeta.
    pose proof (upserted_budget_is_listed budget w) as Hin.
    rewrite Hu in Hin.
    destruct (getBudgets AuthService.currentUserId (snd (upsertBudget budget w)));
      [contradiction | reflexivity].
  - eexists. split; [reflexivity |]. split; [reflexivity |].
    split; [discriminate |]. split; [discriminate |].
    split; [reflexivity |].
    intros budget Hu. unfold BudgetService.getAll. cbn zeta.
    pose proof (upserted_budget_is_listed budget w) as Hin.
    rewrite Hu in Hin.
    destruct (getBudgets AuthService.currentUserId (snd (upsertBudget budget w)));
      [contradiction | reflexivity].
Qed.

End BudgetReads.

Lemma getBudgets_after_createTransaction_witness :
  let w := snd (upsertBudget food_budget after_dinner) in
  dates_parse (H := IsoDate) "guest_user" (snd (createTransaction taxi w))
  /\ Forall2 (fun after before =>
                counts_towards "guest_user" taxi before = false ->
                after = before)
             (getBudgets (H := IsoDate) "guest_user"
                         (snd (createTransaction taxi w)))
             (getBudgets (H := IsoDate) "guest_user" w).
Proof.
  cbn zeta.
  assert (Hdates : dates_parse
                     (H := IsoDate) "guest_user"
                     (snd (createTransaction
                             taxi (snd (upsertBudget food_budget after_dinner))))).
  { intros t Ht _. cbn in Ht. destruct Ht as [<- | [<- | []]]; discriminate. }
  split; [exact Hdates |].
  eapply Forall2_impl;
    [| apply (getBudgets_after_createTransaction
                (H := IsoDate) "guest_user" taxi
                (snd (upsertBudget food_budget after_dinner)) Hdates)].
  intros after before [_ [_ [_ [_ Hsame]]]]. exact Hsame.
Defined.

Lemma getAll_defaults_only_without_budgets_witness :
  data (BudgetService.getAll (H := IsoDate) first_run)
  = Some BudgetService.defaults
  /\ option_map (map Budget.id)
                (data (BudgetService.getAll
                         (H := IsoDate)
                         (snd (upsertBudget health_budget first_run))))
     = Some ["b9"].
Proof.
  destruct (getAll_defaults_only_without_budgets (H := IsoDate) first_run)
    as [listed [Hdata [_ [_ [Hdefaults [_ Hupsert]]]]]].
  split.
  - rewrite Hdata, Hdefaults; reflexivity.
  - rewrite Hupsert; reflexivity.
Defined.

(** ** Objects used as records of numbers *)

Lemma record_get_set (m : TallyRecord) (k k' : string) (v : Tally) :
  record_get (record_set m k v) k'
  = if (k =? k')%string then Some v else record_get m k'.
Proof.
  induction m as [| [k0 v0] m IH]; cbn.
  - reflexivity.
  - destruct (String.eqb_spec k0 k) as [-> | Hne]; cbn.
    + destruct (k =? k')%string; reflexivity.
    + rewrite IH. destruct (String.eqb_spec k0 k') as [-> | Hne'].
      * destruct (String.eqb_spec k k') as [-> | _]; [contradiction | reflexivity].
      * reflexivity.
Qed.

Lemma record_set_keys (m : TallyRecord) (k : string) (v : Tally) :
  map fst (record_set m k v)
  = if existsb (String.eqb k) (map fst m) then map fst m
    else (map fst m ++ [k])%list.
Proof.
  induction m as [| [k0 v0] m IH]; cbn.
  - reflexivity.
  - rewrite (String.eqb_sym k k0).
    destruct (k0 =? k)%string; cbn; [reflexivity |].
    rewrite IH. destruct (existsb (String.eqb k) (map fst m)); reflexivity.
Qed.

Lemma record_set_NoDup (m : TallyRecord) (k : string) (v : Tally) :
  NoDup (map fst m) -> NoDup (map fst (record_set m k v)).
Proof.
  intros Hm. rewrite record_set_keys.
  destruct (existsb (String.eqb k) (map fst m)) eqn:E; [exact Hm |].
  apply NoDup_app; [exact Hm | repeat constructor; intros [] |].
  intros x Hx [<- | []].
  assert (Hex : existsb (String.eqb k) (map fst m) = true).
  { apply existsb_exists. exists k. split; [exact Hx | apply String.eqb_refl]. }
  congruence.
Qed.

Lemma record_set_In (m : TallyRecord) (k k' : string) (v v' : Tally) :
  In (k', v') (record_set m k v) -> (k' = k /\ v' = v) \/ In (k', v') m.
Proof.
  induction m as [| [k0 v0] m IH]; cbn.
  - intros [Heq | []]. left. inversion Heq. split; reflexivity.
  - destruct (String.eqb_spec k0 k) as [-> | Hne]; cbn.
    + intros [Heq | Hin]; [left; inversion Heq; split; reflexivity |].
      right. right. exact Hin.
    + intros [Heq | Hin]; [right; left; exact Heq |].
      destruct (IH Hin) as [Hnew | Hold]; [left; exact Hnew | right; right; exact Hold].
Qed.

Lemma record_get_In (m : TallyRecord) (k : string) (v : Tally) :
  NoDup (map fst m) -> In (k, v) m -> record_get m k = Some v.
Proof.
  induction m as [| [k0 v0] m IH]; intros Hnd Hin; [contradiction |].
  cbn in *. inversion Hnd as [| ? ? Hfresh Hrest]; subst.
  destruct Hin as [Heq | Hin].
  - inversion Heq; subst. rewrite String.eqb_refl. reflexivity.
  - destruct (String.eqb_spec k0 k) as [-> | _]; [| apply IH; assumption].
    exfalso. apply Hfresh. apply in_map_iff. exists (k, v). split; [reflexivity | exact Hin].
Qed.

Lemma record_get_Some_In (m : TallyRecord) (k : string) (v : Tally) :
  record_get m k = Some v -> In (k, v) m.
Proof.
  induction m as [| [k0 v0] m IH]; cbn; [discriminate |].
  destruct (String.eqb_spec k0 k) as [-> | _].
  - intros Heq. inversion Heq; subst. left. reflexivity.
  - intros Hget. right. apply IH. exact Hget.
Qed.

Lemma Object_entries_perm (m : TallyRecord) : Permutation (Object_entries m) m.
Proof.
  unfold Object_entries. rewrite Array_sort_perm.
  induction m as [| kv m IH]; cbn; [constructor |].
  destruct (is_array_index kv); cbn.
  - apply perm_skip. exact IH.
  - rewrite <- Permutation_middle. apply perm_skip. exact IH.
Qed.

(** Under a name that is not inherited, a record of numbers is added to as
    a map from names to numbers would be. *)
Lemma record_add_plain (m : TallyRecord) (k : string) (x : Q) :
  inherited k = false -> numeric m ->
  exists q, record_add m k x = record_set m k (Sum q)
            /\ q == number_at m k + x.
Proof.
  intros Hplain Hnum. unfold record_add, record_read, record_write, number_at.
  destruct (record_get m k) as [v |] eqn:Hget.
  - destruct (Hnum k v (record_get_Some_In m k v Hget)) as [_ [q0 ->]].
    cbn [or_zero_plus]. eexists. split; [reflexivity |].
    rewrite or_number_zero. reflexivity.
  - rewrite Hplain. cbn [or_zero_plus or_number].
    destruct (String.eqb_spec k "__proto__") as [-> | _]; [discriminate Hplain |].
    eexists. split; reflexivity.
Qed.

Lemma record_set_numeric (m : TallyRecord) (k : string) (q : Q) :
  inherited k = false -> numeric m -> numeric (record_set m k (Sum q)).
Proof.
  intros Hplain Hnum k' v' Hin.
  destruct (record_set_In m k k' (Sum q) v' Hin) as [[-> ->] | Hold].
  - split; [exact Hplain | exists q; reflexivity].
  - apply Hnum. exact Hold.
Qed.

Lemma number_at_set (m : TallyRecord) (k k' : string) (q : Q) :
  number_at (record_set m k (Sum q)) k'
  = if (k =? k')%string then q else number_at m k'.
Proof.
  unfold number_at. rewrite record_get_set.
  destruct (k =? k')%string; reflexivity.
Qed.

Lemma plain_names_cons (key : Transaction.t -> string) (t : Transaction.t)
      (txs : list Transaction.t) :
  plain_names key (t :: txs) -> inherited (key t) = false /\ plain_names key txs.
Proof.
  intros Hplain. split.
  - apply Hplain. left. reflexivity.
  - intros t' Ht'. apply Hplain. right. exact Ht'.
Qed.

(** ** Analytics: one entry per name *)

Section Tally.
Variable key : Transaction.t -> string.

Lemma tally_numeric (txs : list Transaction.t) (m : TallyRecord) :
  plain_names key txs -> numeric m -> numeric (tally key txs m).
Proof.
  unfold tally. revert m.
  induction txs as [| t txs IH]; intros m Hplain Hnum; cbn [fold_left].
  - exact Hnum.
  - apply plain_names_cons in Hplain. destruct Hplain as [Ht Hrest].
    destruct (record_add_plain m (key t) (Transaction.amount t) Ht Hnum)
      as [q [-> _]].
    apply IH; [exact Hrest |]. apply record_set_numeric; assumption.
Qed.

Lemma tally_get (txs : list Transaction.t) (m : TallyRecord) (k : string) :
  plain_names key txs -> numeric m ->
  number_at (tally key txs m) k
  == number_at m k
     + reduce_sum Transaction.amount
                  (filter (fun t => (key t =? k)%string) txs).
Proof.
  unfold tally. revert m.
  induction txs as [| t txs IH]; intros m Hplain Hnum; cbn [fold_left filter].
  - rewrite reduce_sum_nil. ring.
  - apply plain_names_cons in Hplain. destruct Hplain as [Ht Hrest].
    destruct (record_add_plain m (key t) (Transaction.amount t) Ht Hnum)
      as [q [-> Hq]].
    rewrite (IH _ Hrest (record_set_numeric m (key t) q Ht Hnum)).
    rewrite number_at_set.
    destruct (String.eqb_spec (key t) k) as [<- | _].
    + rewrite reduce_sum_cons, Hq. ring.
    + reflexivity.
Qed.

Lemma tally_present (txs : list Transaction.t) (m : TallyRecord) (k : string) :
  plain_names key txs -> numeric m ->
  (record_get (tally key txs m) k <> None
   <-> record_get m k <> None \/ exists t, In t txs /\ key t = k).
Proof.
  unfold tally. revert m.
  induction txs as [| t txs IH]; intros m Hplain Hnum; cbn [fold_left].
  - split; [intros Hm; left; exact Hm | intros [Hm | [t [[] _]]]; exact Hm].
  - apply plain_names_cons in Hplain. destruct Hplain as [Ht Hrest].
    destruct (record_add_plain m (key t) (Transaction.amount t) Ht Hnum)
      as [q [-> _]].
    rewrite (IH _ Hrest (record_set_numeric m (key t) q Ht Hnum)).
    rewrite record_get_set.
    destruct (String.eqb_spec (key t) k) as [Hk | Hk].
    + split; [| intros _; left; discriminate].
      intros _. right. exists t. split; [left; reflexivity | exact Hk].
    + split.
      * intros [Hm | [t' [Hin Hk']]]; [left; exact Hm |].
        right. exists t'. split; [right; exact Hin | exact Hk'].
      * intros [Hm | [t' [[<- | Hin] Hk']]]; [left; exact Hm | contradiction |].
        right. exists t'. split; assumption.
Qed.

Lemma tally_NoDup (txs : list Transaction.t) (m : TallyRecord) :
  plain_names key txs -> numeric m ->
  NoDup (map fst m) -> NoDup (map fst (tally key txs m)).
Proof.
  unfold tally. revert m.
  induction txs as [| t txs IH]; intros m Hplain Hnum Hm; cbn [fold_left].
  - exact Hm.
  - apply plain_names_cons in Hplain. destruct Hplain as [Ht Hrest].
    destruct (record_add_plain m (key t) (Transaction.amount t) Ht Hnum)
      as [q [-> _]].
    apply IH; [exact Hrest | apply record_set_numeric; assumption |].
    apply record_set_NoDup. exact Hm.
Qed.

Lemma numeric_empty : numeric [].
Proof. intros k v []. Qed.

(** What the record holds once every transaction is booked: one property
    per name that occurs, holding the sum of the amounts booked under that
    name in the order of the list. *)
Lemma tally_entries (txs : list Transaction.t) :
  plain_names key txs ->
  NoDup (map fst (tally key txs []))
  /\ (forall k v,
        In (k, v) (tally key txs []) ->
        exists q,
          v = Sum q
          /\ q == reduce_sum Transaction.amount
                             (filter (fun t => (key t =? k)%string) txs)
          /\ exists t, In t txs /\ key t = k)
  /\ (forall t, In t txs -> exists v, In (key t, v) (tally key txs [])).
Proof.
  intros Hplain.
  assert (Hnd : NoDup (map fst (tally key txs [])))
    by (apply tally_NoDup; [exact Hplain | apply numeric_empty | constructor]).
  pose proof (tally_numeric txs [] Hplain numeric_empty) as Hnum.
  split; [exact Hnd |]. split.
  - intros k v Hkv. destruct (Hnum k v Hkv) as [_ [q ->]].
    pose proof (record_get_In _ k (Sum q) Hnd Hkv) as Hget.
    exists q. split; [reflexivity |]. split.
    + pose proof (tally_get txs [] k Hplain numeric_empty) as Hsum.
      unfold number_at in Hsum. rewrite Hget in Hsum.
      cbn [record_get] in Hsum. rewrite Hsum. ring.
    + assert (Hpresent : record_get (tally key txs []) k <> None)
        by (rewrite Hget; discriminate).
      apply (tally_present txs [] k Hplain numeric_empty) in Hpresent.
      destruct Hpresent as [Habs | Ht]; [| exact Ht].
      exfalso. apply Habs. reflexivity.
  - intros t Ht.
    assert (Hpresent : record_get (tally key txs []) (key t) <> None).
    { apply (tally_present txs [] (key t) Hplain numeric_empty).
      right. exists t. split; [exact Ht | reflexivity]. }
    destruct (record_get (tally key txs []) (key t)) as [v |] eqn:Hget;
      [| contradiction].
    exists v. apply record_get_Some_In. exact Hget.
Qed.

End Tally.

(** ** Analytics: the categories *)

Lemma by_amount_desc_numbers (a b : CategorySpending.t) (x y : Q) :
  CategorySpending.amount a = Sum x -> CategorySpending.amount b = Sum y ->
  (by_amount_desc a b <> Gt <-> y <= x).
Proof.
  intros Ha Hb. unfold by_amount_desc. rewrite Ha, Hb.
  cbn [to_number js_sub sign_of_number]. unfold sign_of_Q.
  rewrite <- Qle_alt. split; intros Hle; lra.
Qed.

Lemma Array_sort_by_amount_desc (l : list CategorySpending.t) :
  (forall e, In e l -> exists q, CategorySpending.amount e = Sum q) ->
  StronglySorted spends_no_less (Array_sort by_amount_desc l).
Proof.
  intros Hnum.
  apply StronglySorted_weaken with (R := may_precede by_amount_desc).
  - intros a b Ha Hb Hab.
    apply (proj1 (Array_sort_In by_amount_desc l a)) in Ha.
    apply (proj1 (Array_sort_In by_amount_desc l b)) in Hb.
    destruct (Hnum a Ha) as [x Hx], (Hnum b Hb) as [y Hy].
    unfold spends_no_less. rewrite Hx, Hy.
    apply (by_amount_desc_numbers a b x y Hx Hy). exact Hab.
  - apply Array_sort_sorted.
    + intros a b Ha Hb Hgt.
      destruct (Hnum a Ha) as [x Hx], (Hnum b Hb) as [y Hy].
      apply (by_amount_desc_numbers b a y x Hy Hx).
      destruct (Qlt_le_dec y x) as [Hlt | Hle]; [| exact Hle].
      exfalso. apply (by_amount_desc_numbers a b x y Hx Hy); [lra | exact Hgt].
    + intros a b d Ha Hb Hd Hab Hbd.
      destruct (Hnum a Ha) as [x Hx], (Hnum b Hb) as [y Hy],
               (Hnum d Hd) as [z Hz].
      apply (by_amount_desc_numbers a d x z Hx Hz).
      apply (by_amount_desc_numbers a b x y Hx Hy) in Hab.
      apply (by_amount_desc_numbers b d y z Hy Hz) in Hbd.
      lra.
Qed.

Lemma percentage_of_positive (totalSpent amount : Q) :
  0 < totalSpent ->
  AnalyticsService.percentage_of totalSpent (Sum amount)
  = Finite (amount / totalSpent * 100).
Proof.
  intros Hpos. unfold AnalyticsService.percentage_of, Qgt_bool.
  destruct (Qle_bool totalSpent 0) eqn:E.
  - apply Qle_bool_iff in E. lra.
  - cbn [negb to_number js_div].
    destruct (Qeq_bool totalSpent 0) eqn:Ez; [| reflexivity].
    apply Qeq_bool_eq in Ez. lra.
Qed.

Lemma percentage_of_not_positive (totalSpent : Q) (amount : Tally) :
  ~ 0 < totalSpent ->
  AnalyticsService.percentage_of totalSpent amount = Finite 0.
Proof.
  intros Hle. unfold AnalyticsService.percentage_of, Qgt_bool.
  assert (Hbool : Qle_bool totalSpent 0 = true) by (apply Qle_bool_iff; lra).
  rewrite Hbool. reflexivity.
Qed.

Lemma topCategories_of_perm (txs : list Transaction.t) :
  Permutation
    (AnalyticsService.topCategories_of txs)
    (map (fun entry =>
            {| CategorySpending.category := fst entry;
               CategorySpending.amount := snd entry;
               CategorySpending.percentage :=
                 AnalyticsService.percentage_of
                   (reduce_sum Transaction.amount txs) (snd entry) |})
         (tally Transaction.category txs [])).
Proof.
  unfold AnalyticsService.topCategories_of. cbn zeta.
  rewrite Array_sort_perm. apply Permutation_map. apply Object_entries_perm.
Qed.

Section Summary.
Context `{JsDate}.

(** X15: when no category of the session user's transactions is a name
    that objects inherit, [topCategories] has exactly one entry per category
    that occurs; the amount of an entry is the sum over the transactions of
    its category, taken in the order of the query, and the entries come
    largest amount first. With [totalSpent] above 0 the percentage of an
    entry is its amount divided by [totalSpent], times 100; otherwise the
    division is not made and the percentage is 0. *)
Theorem topCategories_of_plain_categories
        (w : World)
        (Hplain : plain_names Transaction.category (session_query w)) :
  exists summary,
    data (AnalyticsService.getDashboardSummary w) = Some summary
    /\ totalSpent summary = reduce_sum Transaction.amount (session_query w)
    /\ StronglySorted spends_no_less (topCategories summary)
    /\ NoDup (map CategorySpending.category (topCategories summary))
    /\ (forall e,
          In e (topCategories summary) ->
          exists q,
            CategorySpending.amount e = Sum q
            /\ q == reduce_sum Transaction.amount
                     (filter (in_category (CategorySpending.category e))
                             (session_query w))
            /\ (exists t, In t (session_query w)
                          /\ Transaction.category t = CategorySpending.category e)
            /\ (0 < totalSpent summary ->
                CategorySpending.percentage e
                = Finite (q / totalSpent summary * 100))
            /\ (~ 0 < totalSpent summary ->
                CategorySpending.percentage e = Finite 0))
    /\ (forall t,
          In t (session_query w) ->
          exists e, In e (topCategories summary)
                    /\ CategorySpending.category e = Transaction.category t).
Proof.
  unfold AnalyticsService.getDashboardSummary, session_query in *. cbn zeta.
  eexists. split; [reflexivity |]. cbn [totalSpent topCategories].
  set (txs := getTransactions AuthService.currentUserId None w) in *.
  split; [reflexivity |].
  pose proof (topCategories_of_perm txs) as Hperm.
  destruct (tally_entries Transaction.category txs Hplain)
    as [Hnd [Hentries Hcovered]].
  split; [| split; [| split]].
  - unfold AnalyticsService.topCategories_of. cbn zeta.
    apply Array_sort_by_amount_desc. intros e He.
    apply in_map_iff in He. destruct He as [[k v] [<- Hkv]].
    apply (Permutation_in _ (Object_entries_perm _)) in Hkv.
    destruct (Hentries k v Hkv) as [q [-> _]]. exists q. reflexivity.
  - apply (Permutation_NoDup
             (l := map fst (tally Transaction.category txs []))); [| exact Hnd].
    symmetry. rewrite (Permutation_map CategorySpending.category Hperm).
    rewrite map_map. reflexivity.
  - intros e He. apply (Permutation_in _ Hperm) in He.
    apply in_map_iff in He. destruct He as [[k v] [<- Hkv]].
    cbn [CategorySpending.category CategorySpending.amount
         CategorySpending.percentage fst snd].
    destruct (Hentries k v Hkv) as [q [-> [Hq Ht]]].
    exists q. split; [reflexivity |]. split; [exact Hq |]. split; [exact Ht |].
    split.
    + apply percentage_of_positive.
    + apply percentage_of_not_positive.
  - intros t Ht. destruct (Hcovered t Ht) as [v Hv].
    eexists. split.
    + apply (Permutation_in _ (Permutation_sym Hperm)).
      apply in_map_iff. exists (Transaction.category t, v).
      split; [reflexivity | exact Hv].
    + reflexivity.
Qed.

Lemma trend_of_perm (txs : list Transaction.t) :
  Permutation
    (AnalyticsService.trend_of txs)
    (map (fun entry => {| MonthlyTrend.date := fst entry;
                          MonthlyTrend.amount := snd entry |})
         (tally day_of txs [])).
Proof.
  unfold AnalyticsService.trend_of.
  rewrite Array_sort_perm. apply Permutation_map. apply Object_entries_perm.
Qed.

Lemma by_trend_date_asc_valid (a b : MonthlyTrend.t) (ta tb : Z) :
  Date_parse (MonthlyTrend.date a) = Some ta ->
  Date_parse (MonthlyTrend.date b) = Some tb ->
  (by_trend_date_asc a b <> Gt <-> (ta <= tb)%Z).
Proof.
  intros Ha Hb. unfold by_trend_date_asc, sign_of_Z. rewrite Ha, Hb.
  destruct (Z.compare_spec (ta - tb) 0); split; intros; try lia; congruence.
Qed.

Lemma Array_sort_by_trend_date (l : list MonthlyTrend.t) :
  (forall p, In p l -> Date_parse (MonthlyTrend.date p) <> None) ->
  StronglySorted not_after (Array_sort by_trend_date_asc l).
Proof.
  intros Hvalid.
  assert (Hparsed : forall p, In p l ->
                              exists x, Date_parse (MonthlyTrend.date p) = Some x).
  { intros p Hp. specialize (Hvalid p Hp).
    destruct (Date_parse (MonthlyTrend.date p)) as [x |]; [eauto | contradiction]. }
  apply StronglySorted_weaken with (R := may_precede by_trend_date_asc).
  - intros a b Ha Hb Hab.
    apply (proj1 (Array_sort_In by_trend_date_asc l a)) in Ha.
    apply (proj1 (Array_sort_In by_trend_date_asc l b)) in Hb.
    destruct (Hparsed a Ha) as [ta Hta], (Hparsed b Hb) as [tb Htb].
    unfold not_after. rewrite Hta, Htb. apply Z.leb_le.
    apply (by_trend_date_asc_valid a b ta tb Hta Htb). exact Hab.
  - apply Array_sort_sorted.
    + intros a b Ha Hb Hgt.
      destruct (Hparsed a Ha) as [ta Hta], (Hparsed b Hb) as [tb Htb].
      apply (by_trend_date_asc_valid b a tb ta Htb Hta).
      destruct (Z.le_gt_cases tb ta) as [Hle | Hlt]; [exact Hle |].
      exfalso. apply (by_trend_date_asc_valid a b ta tb Hta Htb); [lia | exact Hgt].
    + intros a b d Ha Hb Hd Hab Hbd.
      destruct (Hparsed a Ha) as [ta Hta], (Hparsed b Hb) as [tb Htb],
               (Hparsed d Hd) as [td Htd].
      apply (by_trend_date_asc_valid a d ta td Hta Htd).
      apply (by_trend_date_asc_valid a b ta tb Hta Htb) in Hab.
      apply (by_trend_date_asc_valid b d tb td Htb Htd) in Hbd.
      lia.
Qed.

(** X16: when no day of the session user's transactions (the text of the
    date before its first [T]) is a name that objects inherit, the trend has
    exactly one point per day on which there is a transaction; the amount of
    a point is the sum over that day's transactions, taken in the order of
    the query; and when the days all parse as dates the points are in
    ascending date order. *)
Theorem trend_has_one_point_per_day
        (w : World) (Hplain : plain_names day_of (session_query w)) :
  exists summary,
    data (AnalyticsService.getDashboardSummary w) = Some summary
    /\ NoDup (map MonthlyTrend.date (trend summary))
    /\ (forall point,
          In point (trend summary) ->
          exists q,
            MonthlyTrend.amount point = Sum q
            /\ q == reduce_sum Transaction.amount
                     (filter (on_day (MonthlyTrend.date point))
                             (session_query w))
            /\ exists t, In t (session_query w)
                         /\ day_of t = MonthlyTrend.date point)
    /\ (forall t,
          In t (session_query w) ->
          exists point, In point (trend summary)
                        /\ MonthlyTrend.date point = day_of t)
    /\ ((forall point, In point (trend summary) ->
           Date_parse (MonthlyTrend.date point) <> None) ->
        StronglySorted not_after (trend summary)).
Proof.
  unfold AnalyticsService.getDashboardSummary, session_query in *. cbn zeta.
  eexists. split; [reflexivity |]. cbn [trend].
  set (txs := getTransactions AuthService.currentUserId None w) in *.
  pose proof (trend_of_perm txs) as Hperm.
  destruct (tally_entries day_of txs Hplain) as [Hnd [Hentries Hcovered]].
  split; [| split; [| split]].
  - apply (Permutation_NoDup (l := map fst (tally day_of txs []))); [| exact Hnd].
    symmetry. rewrite (Permutation_map MonthlyTrend.date Hperm).
    rewrite map_map. reflexivity.
  - intros point Hpoint. apply (Permutation_in _ Hperm) in Hpoint.
    apply in_map_iff in Hpoint. destruct Hpoint as [[k v] [<- Hkv]].
    cbn [MonthlyTrend.date MonthlyTrend.amount fst snd].
    destruct (Hentries k v Hkv) as [q [-> [Hq Ht]]].
    exists q. split; [reflexivity |]. split; [exact Hq | exact Ht].
  - intros t Ht. destruct (Hcovered t Ht) as [v Hv].
    eexists. split.
    + apply (Permutation_in _ (Permutation_sym Hperm)).
      apply in_map_iff. exists (day_of t, v). split; [reflexivity | exact Hv].
    + reflexivity.
  - intros Hvalid. unfold AnalyticsService.trend_of in *.
    apply Array_sort_by_trend_date. intros p Hp. apply Hvalid.
    apply Array_sort_In. exact Hp.
Qed.

(** X17: a transaction stored for another user changes nothing in the
    dashboard summary. One stored for the session user enters it: the
    summary is then computed from the earlier transactions and the new one,
    and [totalSpent] is their sum in the order of the query. *)
Theorem summary_after_createTransaction (tx : Transaction.t) (w : World) :
  (owned_by AuthService.currentUserId tx = false ->
   AnalyticsService.getDashboardSummary (snd (createTransaction tx w))
   = AnalyticsService.getDashboardSummary w)
  /\ (owned_by AuthService.currentUserId tx = true ->
      Permutation (session_query (snd (createTransaction tx w)))
                  (tx :: session_query w)
      /\ exists after,
           data (AnalyticsService.getDashboardSummary
                   (snd (createTransaction tx w)))
           = Some after
           /\ totalSpent after
              = reduce_sum Transaction.amount
                           (session_query (snd (createTransaction tx w)))).
Proof.
  split.
  - intros Hother. unfold AnalyticsService.getDashboardSummary. cbn zeta.
    assert (Hsame : getTransactions AuthService.currentUserId None
                                    (snd (createTransaction tx w))
                    = getTransactions AuthService.currentUserId None w).
    { rewrite !getTransactions_unfold, !kept_no_filters.
      cbn [snd createTransaction db commit transactions].
      rewrite filter_app_last, Hother, app_nil_r. reflexivity. }
    rewrite Hsame. reflexivity.
  - intros Hown. split.
    + unfold session_query.
      rewrite (getTransactions_perm AuthService.currentUserId None _).
      rewrite (getTransactions_perm AuthService.currentUserId None w).
      rewrite !kept_no_filters.
      cbn [snd createTransaction db commit transactions].
      rewrite filter_app_last, Hown.
      symmetry. apply Permutation_cons_append.
    + eexists. split; reflexivity.
Qed.

End Summary.

Lemma topCategories_of_plain_categories_witness :
  exists summary,
    data (AnalyticsService.getDashboardSummary (H := IsoDate) three_purchases)
    = Some summary
    /\ map CategorySpending.category (topCategories summary)
       = ["Food"; "Transport"]
    /\ StronglySorted spends_no_less (topCategories summary).
Proof.
  assert (Hplain : plain_names Transaction.category
                               (session_query (H := IsoDate) three_purchases)).
  { intros t Ht. cbn in Ht. destruct Ht as [<- | [<- | [<- | []]]]; reflexivity. }
  destruct (topCategories_of_plain_categories (H := IsoDate) three_purchases
                                              Hplain)
    as [summary [Hdata [_ [Hsorted _]]]].
  exists summary. split; [exact Hdata |]. split; [| exact Hsorted].
  cbn in Hdata. injection Hdata as <-. reflexivity.
Defined.

Lemma trend_has_one_point_per_day_witness :
  exists summary,
    data (AnalyticsService.getDashboardSummary (H := IsoDate) two_days)
    = Some summary
    /\ map MonthlyTrend.date (trend summary) = ["2024-03-01"; "2024-03-02"]
    /\ StronglySorted (not_after (H := IsoDate)) (trend summary).
Proof.
  assert (Hplain : plain_names day_of (session_query (H := IsoDate) two_days)).
  { intros t Ht. cbn in Ht. destruct Ht as [<- | [<- | [<- | []]]]; reflexivity. }
  destruct (trend_has_one_point_per_day (H := IsoDate) two_days Hplain)
    as [summary [Hdata [_ [_ [_ Hsorted]]]]].
  exists summary. split; [exact Hdata |].
  cbn in Hdata. injection Hdata as <-.
  split; [reflexivity |].
  apply Hsorted. intros point Hpoint. cbn in Hpoint.
  destruct Hpoint as [<- | [<- | []]]; discriminate.
Defined.

Lemma summary_after_createTransaction_witness :
  AnalyticsService.getDashboardSummary
    (H := IsoDate) (snd (createTransaction alice_tx three_purchases))
  = AnalyticsService.getDashboardSummary (H := IsoDate) three_purchases.
Proof.
  destruct (summary_after_createTransaction (H := IsoDate) alice_tx
                                            three_purchases)
    as [Hother _].
  apply Hother. reflexivity.
Defined.

(** X18: the day a transaction is booked under is the text of its date
    before the first [T]: the date part of an ISO timestamp, and the whole
    text when it holds no [T]; the key itself never holds a [T]. *)
Theorem before_T_is_the_date_part (s day rest : string) :
  (no_T day = true -> before_T (day ++ String "T" rest) = day)
  /\ (no_T s = true -> before_T s = s)
  /\ no_T (before_T s) = true.
Proof.
  split; [| split].
  - induction day as [| c day IH]; intros Hno; cbn in *; [reflexivity |].
    apply andb_true_iff in Hno. destruct Hno as [Hc Hday].
    apply negb_true_iff in Hc. rewrite Hc. f_equal. apply IH. exact Hday.
  - induction s as [| c s IH]; intros Hno; cbn in *; [reflexivity |].
    apply andb_true_iff in Hno. destruct Hno as [Hc Hs].
    apply negb_true_iff in Hc. rewrite Hc. f_equal. apply IH. exact Hs.
  - induction s as [| c s IH]; cbn; [reflexivity |].
    destruct (c =? "T")%char eqn:Hc; cbn; [reflexivity |].
    rewrite Hc. exact IH.
Qed.

Lemma before_T_is_the_date_part_witness :
  before_T "2024-03-01T07:30:00.000Z" = "2024-03-01".
Proof.
  apply (before_T_is_the_date_part "" "2024-03-01" "07:30:00.000Z").
  reflexivity.
Defined.

(** ** The gateway: what passes through *)

Section GatewayFacts.
Context `{JsJSON}.

(** X19: the two extraction calls and their service wrappers reject exactly
    when the remote call rejects, and then with the remote call's own error:
    a transport failure is passed on without a fallback, and nothing
    else, a malformed text included, makes them reject. *)
Theorem extraction_rejects_only_on_remote_failure
        (ai : GoogleGenAI) (input base64Image mimeType : string) (e : JsError) :
  (parseTransactionWithAI ai input = Rejected e
   <-> generateContent ai (parseTransactionRequest input) = Rejected e)
  /\ (TransactionService.parseNaturalLanguage ai input = Rejected e
      <-> generateContent ai (parseTransactionRequest input) = Rejected e)
  /\ (scanReceiptWithAI ai base64Image mimeType = Rejected e
      <-> generateContent ai (scanReceiptRequest base64Image mimeType)
          = Rejected e)
  /\ (TransactionService.uploadReceipt ai base64Image mimeType = Rejected e
      <-> generateContent ai (scanReceiptRequest base64Image mimeType)
          = Rejected e).
Proof.
  assert (Htext : parseTransactionWithAI ai input = Rejected e
                  <-> generateContent ai (parseTransactionRequest input)
                      = Rejected e).
  { unfold parseTransactionWithAI.
    destruct (generateContent ai (parseTransactionRequest input))
      as [response | e'].
    - split; intros Heq; discriminate Heq.
    - split; intros Heq; injection Heq as ->; reflexivity. }
  assert (Himage : scanReceiptWithAI ai base64Image mimeType = Rejected e
                   <-> generateContent ai (scanReceiptRequest base64Image mimeType)
                       = Rejected e).
  { unfold scanReceiptWithAI.
    destruct (generateContent ai (scanReceiptRequest base64Image mimeType))
      as [response | e'].
    - split; intros Heq; [| discriminate Heq].
      destruct (JSON_parse (or_string (text response) "{}"));
        discriminate Heq.
    - split; intros Heq; injection Heq as ->; reflexivity. }
  split; [exact Htext |]. split; [| split; [exact Himage |]].
  - rewrite <- Htext. unfold TransactionService.parseNaturalLanguage.
    destruct (parseTransactionWithAI ai input) as [result | e'].
    + split; intros Heq; discriminate Heq.
    + split; intros Heq; injection Heq as ->; reflexivity.
  - rewrite <- Himage. unfold TransactionService.uploadReceipt.
    destruct (scanReceiptWithAI ai base64Image mimeType) as [result | e'].
    + split; intros Heq; discriminate Heq.
    + split; intros Heq; injection Heq as ->; reflexivity.
Qed.

(** X20: a text that parses is handed back as the value it parses to,
    whatever that value is, an array, a number or [null] included: the
    gateway checks it against no schema. The raw text returned beside it is
    the model's text and is never empty. *)
Theorem parsed_answer_returned_verbatim
        (ai : GoogleGenAI) (input base64Image mimeType : string)
        (response : Response) (answer : string) (v : JsValue)
        (Htext : text response = Some answer) (Hanswer : answer <> "")
        (Hparse : JSON_parse answer = Some v) :
  (generateContent ai (parseTransactionRequest input) = Resolved response ->
   parseTransactionWithAI ai input
   = Resolved {| transaction := v; rawResponse := answer |})
  /\ (generateContent ai (scanReceiptRequest base64Image mimeType)
      = Resolved response ->
      scanReceiptWithAI ai base64Image mimeType = Resolved v)
  /\ (forall result,
        parseTransactionWithAI ai input = Resolved result ->
        rawResponse result <> "").
Proof.
  assert (Hraw : or_string (text response) "{}" = answer).
  { rewrite Htext. cbn. destruct (String.eqb_spec answer ""); [contradiction |].
    reflexivity. }
  split; [| split].
  - intros Hcall. unfold parseTransactionWithAI.
    rewrite Hcall, Hraw, Hparse. reflexivity.
  - intros Hcall. unfold scanReceiptWithAI.
    rewrite Hcall, Hraw, Hparse. reflexivity.
  - intros result. unfold parseTransactionWithAI.
    destruct (generateContent ai (parseTransactionRequest input))
      as [r | e]; [| discriminate].
    intros Heq. injection Heq as <-. cbn [rawResponse].
    apply or_string_nonempty. discriminate.
Qed.

(** X21: what the debounced callback shows for an answer without usable
    JSON is an empty preview: the malformed text becomes [{}] in the
    gateway, [{}] is truthy, and so it replaces whatever preview there was.
    An answer that parses to [null] leaves the preview as it is. *)
Theorem malformed_answer_shows_empty_preview
        (Hempty : JSON_parse "{}" = Some empty_partial)
        (ai : GoogleGenAI) (input : string) (response : Response) (s : App.t)
        (Hawaiting : awaiting input s)
        (Hcall : generateContent ai (parseTransactionRequest input)
                 = Resolved response) :
  (malformed_response response ->
   App.aiPreview
     (parseSettled input (TransactionService.parseNaturalLanguage ai input) s)
   = Some empty_partial)
  /\ (JSON_parse (or_string (text response) "{}") = Some JNull ->
      App.aiPreview
        (parseSettled input (TransactionService.parseNaturalLanguage ai input) s)
      = App.aiPreview s).
Proof.
  assert (Hex : existsb (String.eqb input) (App.inflight s) = true).
  { apply existsb_exists. exists input. split; [exact Hawaiting |].
    apply String.eqb_refl. }
  unfold parseSettled, TransactionService.parseNaturalLanguage,
    parseTransactionWithAI.
  rewrite Hex, Hcall. cbn [App.aiPreview preview_after data transaction].
  split.
  - intros Hbad.
    rewrite (malformed_text_parses_to_empty response Hempty Hbad). reflexivity.
  - intros Hnull. rewrite Hnull. reflexivity.
Qed.

End GatewayFacts.

Lemma parsed_answer_returned_verbatim_witness :
  parseTransactionWithAI (H := FragmentJSON) (answering (Some "[1, 2]"))
                         "Dinner $40 yesterday"
  = Resolved {| transaction := JArray [JNumber 1; JNumber 2];
                rawResponse := "[1, 2]" |}.
Proof.
  apply (parsed_answer_returned_verbatim
           (H := FragmentJSON) (answering (Some "[1, 2]"))
           "Dinner $40 yesterday" "aGVsbG8=" "image/png"
           {| text := Some "[1, 2]" |} "[1, 2]"
           (JArray [JNumber 1; JNumber 2]) eq_refl);
    [discriminate | reflexivity | reflexivity].
Defined.

Lemma malformed_answer_shows_empty_preview_witness :
  let s := run [Typed "Dinner $4"; TimeoutElapsed 1] App.mounted in
  App.aiPreview
    (parseSettled "Dinner $4"
       (TransactionService.parseNaturalLanguage
          (H := FragmentJSON) (answering (Some "I cannot help with that."))
          "Dinner $4") s)
  = Some empty_partial.
Proof.
  cbn zeta.
  apply (malformed_answer_shows_empty_preview
           (H := FragmentJSON) eq_refl
           (answering (Some "I cannot help with that.")) "Dinner $4"
           {| text := Some "I cannot help with that." |}).
  - left. reflexivity.
  - reflexivity.
  - right. right. eexists. split; reflexivity.
Defined.

(** ** The coach *)

(** X22: whenever [askFinancialCoach] resolves, its reply is not the empty
    string, and the message [askCoach] appends for the assistant is never
    empty either. *)
Theorem coach_reply_never_empty
        (ai : GoogleGenAI) (history : list Transaction.t) (query : string)
        (s : App.t) :
  (forall reply,
     askFinancialCoach ai history query = Resolved reply -> reply <> "")
  /\ (forall m,
        In m (App.chatHistory (askCoach ai s)) ->
        In m (App.chatHistory s)
        \/ (role m = role_user /\ message m = App.coachQuery s
            /\ blank (message m) = false)
        \/ (role m = role_ai /\ message m <> "")).
Proof.
  assert (Hreply : forall h q reply,
             askFinancialCoach ai h q = Resolved reply -> reply <> "").
  { intros h q reply. unfold askFinancialCoach.
    destruct (generateContent ai _) as [response | e]; [| discriminate].
    intros Heq. injection Heq as <-. apply or_string_nonempty. discriminate. }
  split; [apply Hreply |].
  intros m. unfold askCoach.
  destruct (blank (App.coachQuery s)) eqn:Hblank; [intros Hm; left; exact Hm |].
  cbn [App.chatHistory]. intros Hm.
  apply in_app_or in Hm. destruct Hm as [Hm | [<- | [<- | []]]].
  - left. exact Hm.
  - right. left. repeat split. exact Hblank.
  - right. right. split; [reflexivity |]. cbn [message].
    destruct (askFinancialCoach ai (App.transactions s) (App.coachQuery s))
      as [reply |] eqn:Hask; [apply (Hreply _ _ _ Hask) | discriminate].
Qed.

(** X23: the coach never sends more than fifty transactions, and a history
    of at most fifty entries is sent whole. The transactions past the
    fiftieth are not part of the request: two histories that agree on their
    first fifty entries give the same request. *)
Theorem coach_reads_first_fifty
        (history other : list Transaction.t) (query : string) :
  (exists context,
     contents (askFinancialCoachRequest history query)
     = CoachPrompt context query
     /\ (List.length context <= 50)%nat
     /\ ((List.length history <= 50)%nat -> context = history))
  /\ (firstn 50 history = firstn 50 other ->
      askFinancialCoachRequest history query
      = askFinancialCoachRequest other query).
Proof.
  split.
  - exists (firstn 50 history). split; [reflexivity |].
    split; [apply firstn_le_length | apply firstn_all2].
  - intros Hsame. unfold askFinancialCoachRequest. cbn zeta.
    rewrite Hsame. reflexivity.
Qed.

Lemma coach_reads_first_fifty_witness :
  askFinancialCoachRequest fifty_one "Why am I broke?"
  = askFinancialCoachRequest (repeat dinner 50) "Why am I broke?".
Proof.
  apply (coach_reads_first_fifty fifty_one (repeat dinner 50) "Why am I broke?").
  reflexivity.
Defined.

(** ** The intake: timeouts *)

Lemma clearTimeout_of_single (s : App.t) :
  single_timeout s ->
  match App.timerRef s with
  | Some id => clearTimeout id (App.timeouts s)
  | None => App.timeouts s
  end = [].
Proof.
  intros [Hlen Href].
  destruct (App.timeouts s) as [| [id input] rest] eqn:Ht.
  - destruct (App.timerRef s); reflexivity.
  - destruct rest as [| e rest]; [| cbn in Hlen; lia].
    rewrite (Href id input (or_introl eq_refl)).
    cbn. rewrite Nat.eqb_refl. reflexivity.
Qed.

Lemma clearTimeout_length (id : nat) (l : list (nat * string)) :
  (List.length (clearTimeout id l) <= List.length l)%nat.
Proof. apply filter_length_le. Qed.

Lemma clearTimeout_In (id : nat) (l : list (nat * string)) (e : nat * string) :
  In e (clearTimeout id l) -> In e l.
Proof. intros He. apply filter_In in He. apply He. Qed.

Lemma parsing_effect_single (s : App.t) :
  single_timeout s -> single_timeout (parsing_effect s).
Proof.
  intros Hs. unfold parsing_effect.
  destruct ((8 <? String.length (App.magicInput s))%nat
            && no_preview (App.aiPreview s)); [| exact Hs].
  unfold single_timeout. cbn [App.timeouts App.timerRef].
  rewrite (clearTimeout_of_single s Hs). cbn. split; [lia |].
  intros id input [Heq | []]. inversion Heq. reflexivity.
Qed.

Lemma step_single (s : App.t) (e : Event) :
  single_timeout s -> single_timeout (step s e).
Proof.
  intros Hs. destruct e as [value | id | input outcome |]; cbn [step].
  - unfold onChange. destruct (App.magicInput s =? value)%string; [exact Hs |].
    apply parsing_effect_single. exact Hs.
  - unfold timeoutElapsed.
    destruct (find _ (App.timeouts s)) as [[i input] |]; [| exact Hs].
    destruct Hs as [Hlen Href]. split; cbn [App.timeouts App.timerRef].
    + pose proof (clearTimeout_length id (App.timeouts s)). lia.
    + intros i' input' Hin. apply clearTimeout_In in Hin.
      apply (Href i' input'). exact Hin.
  - unfold parseSettled.
    destruct (existsb _ (App.inflight s)); exact Hs.
  - exact Hs.
Qed.

Lemma run_single (events : list Event) (s : App.t) :
  single_timeout s -> single_timeout (run events s).
Proof.
  unfold run. revert s. induction events as [| e events IH]; intros s Hs.
  - exact Hs.
  - cbn [fold_left]. apply IH. apply step_single. exact Hs.
Qed.

Lemma mounted_single : single_timeout App.mounted.
Proof. split; [cbn; lia | intros id input []]. Qed.

(** X24: whatever the user types and whenever timeouts elapse and calls
    settle, at most one timeout is pending, and it is the one [timerRef]
    holds: scheduling a new one always clears the one before. *)
Theorem at_most_one_timeout_pending (events : list Event) :
  (List.length (App.timeouts (run events App.mounted)) <= 1)%nat
  /\ forall id input,
       In (id, input) (App.timeouts (run events App.mounted)) ->
       App.timerRef (run events App.mounted) = Some id.
Proof. apply (run_single events App.mounted mounted_single). Qed.

Lemma onChange_long (value : string) (s : App.t) :
  single_timeout s ->
  no_preview (App.aiPreview s) = true ->
  long_enough value ->
  App.magicInput s <> value ->
  App.timeouts (onChange value s) = [(App.nextTimeoutId s, value)]
  /\ App.nextTimeoutId (onChange value s) = S (App.nextTimeoutId s)
  /\ App.magicInput (onChange value s) = value
  /\ App.aiPreview (onChange value s) = App.aiPreview s
  /\ App.inflight (onChange value s) = App.inflight s.
Proof.
  intros Hs Hno Hlong Hne. unfold onChange.
  destruct (String.eqb_spec (App.magicInput s) value); [contradiction |].
  unfold parsing_effect. cbn [App.magicInput App.aiPreview].
  apply Nat.ltb_lt in Hlong. rewrite Hlong, Hno.
  cbn [andb App.timeouts App.timerRef App.nextTimeoutId App.magicInput
       App.aiPreview App.inflight].
  rewrite (clearTimeout_of_single s Hs). repeat split.
Qed.

(** X25: two changes of the input in a row, both longer than eight
    characters and with no preview shown, leave a single timeout pending,
    for the final text; when it elapses exactly one call is issued, for that
    text, and the timeout of the first change no longer exists. *)
Theorem rapid_changes_parse_final_text_only
        (events : list Event) (first final : string)
        (Hno : no_preview (App.aiPreview (run events App.mounted)) = true)
        (Hfirst : long_enough first) (Hfinal : long_enough final)
        (Hnew : App.magicInput (run events App.mounted) <> first)
        (Hchanged : first <> final) :
  let s := run events App.mounted in
  let typed := onChange final (onChange first s) in
  App.timeouts typed = [(S (App.nextTimeoutId s), final)]
  /\ timeoutElapsed (App.nextTimeoutId s) typed = typed
  /\ App.inflight (timeoutElapsed (S (App.nextTimeoutId s)) typed)
     = (App.inflight s ++ [final])%list
  /\ App.timeouts (timeoutElapsed (S (App.nextTimeoutId s)) typed) = [].
Proof.
  cbn zeta. set (s := run events App.mounted) in *.
  pose proof (run_single events App.mounted mounted_single) as Hs. fold s in Hs.
  destruct (onChange_long first s Hs Hno Hfirst Hnew)
    as [Ht1 [Hn1 [Hm1 [Hp1 Hi1]]]].
  assert (Hs1 : single_timeout (onChange first s))
    by (apply (step_single s (Typed first)); exact Hs).
  destruct (onChange_long final (onChange first s) Hs1)
    as [Ht2 [Hn2 [Hm2 [Hp2 Hi2]]]].
  { rewrite Hp1. exact Hno. }
  { exact Hfinal. }
  { rewrite Hm1. exact Hchanged. }
  rewrite Hn1 in Ht2.
  split; [exact Ht2 |]. split; [| split].
  - unfold timeoutElapsed. rewrite Ht2. cbn [find fst].
    destruct (Nat.eqb_spec (S (App.nextTimeoutId s)) (App.nextTimeoutId s));
      [lia | reflexivity].
  - unfold timeoutElapsed. rewrite Ht2. cbn [find fst].
    rewrite Nat.eqb_refl. cbn [App.inflight]. rewrite Hi2, Hi1. reflexivity.
  - unfold timeoutElapsed. rewrite Ht2. cbn [find fst].
    rewrite Nat.eqb_refl. cbn [App.timeouts clearTimeout filter fst].
    rewrite Nat.eqb_refl. reflexivity.
Qed.

Lemma rapid_changes_parse_final_text_only_witness :
  App.timeouts (onChange "Dinner $40" (onChange "Dinner $4" App.mounted))
  = [(2%nat, "Dinner $40")].
Proof.
  apply (rapid_changes_parse_final_text_only [] "Dinner $4" "Dinner $40");
    try reflexivity; try discriminate; unfold long_enough; cbn; lia.
Defined.

(** X26: a change to a text of at most eight characters, or any change
    while a preview is shown, schedules nothing and cancels nothing. A
    timeout that was pending stays pending, so after the input was cut
    short it still elapses and issues the call for the earlier text. *)
Theorem short_or_previewed_change_keeps_timeouts
        (value : string) (s : App.t)
        (Hguard : (String.length value <= 8)%nat
                  \/ no_preview (App.aiPreview s) = false) :
  App.timeouts (onChange value s) = App.timeouts s
  /\ App.timerRef (onChange value s) = App.timerRef s
  /\ App.inflight (onChange value s) = App.inflight s
  /\ App.aiPreview (onChange value s) = App.aiPreview s
  /\ (forall id earlier,
        App.timeouts s = [(id, earlier)] ->
        App.magicInput s <> value ->
        App.inflight (timeoutElapsed id (onChange value s))
        = (App.inflight s ++ [earlier])%list
        /\ App.magicInput (timeoutElapsed id (onChange value s)) = value).
Proof.
  assert (Hsame : (onChange value s = s /\ App.magicInput s = value)
                  \/ onChange value s
                     = {| App.transactions := App.transactions s;
                          App.magicInput := value;
                          App.isProcessing := App.isProcessing s;
                          App.coachQuery := App.coachQuery s;
                          App.chatHistory := App.chatHistory s;
                          App.aiPreview := App.aiPreview s;
                          App.previewImage := App.previewImage s;
                          App.timerRef := App.timerRef s;
                          App.nextTimeoutId := App.nextTimeoutId s;
                          App.timeouts := App.timeouts s;
                          App.inflight := App.inflight s |}
                     /\ App.magicInput s <> value).
  { unfold onChange.
    destruct (String.eqb_spec (App.magicInput s) value) as [Hsame | Hne];
      [left; split; [reflexivity | exact Hsame] |].
    right. split; [| exact Hne].
    unfold parsing_effect. cbn [App.magicInput App.aiPreview].
    destruct Hguard as [Hshort | Hshown].
    - apply Nat.ltb_ge in Hshort. rewrite Hshort. reflexivity.
    - rewrite Hshown, andb_false_r. reflexivity. }
  destruct Hsame as [[Heq Hunchanged] | [Heq Hne]]; rewrite Heq.
  - split; [reflexivity |]. split; [reflexivity |]. split; [reflexivity |].
    split; [reflexivity |]. intros id earlier _ Hchanged. contradiction.
  - split; [reflexivity |]. split; [reflexivity |]. split; [reflexivity |].
    split; [reflexivity |].
    intros id earlier Hpending _.
    unfold timeoutElapsed. cbn [App.timeouts]. rewrite Hpending. cbn [find fst].
    rewrite Nat.eqb_refl. split; reflexivity.
Qed.

Lemma short_or_previewed_change_keeps_timeouts_witness :
  let s := onChange "Dinner" (onChange "Dinner $4" App.mounted) in
  App.magicInput s = "Dinner"
  /\ App.inflight (timeoutElapsed 1 s) = ["Dinner $4"].
Proof.
  cbn zeta. split; [reflexivity |].
  destruct (short_or_previewed_change_keeps_timeouts
              "Dinner" (onChange "Dinner $4" App.mounted))
    as [_ [_ [_ [_ Hlate]]]].
  - left. cbn. lia.
  - destruct (Hlate 1%nat "Dinner $4" eq_refl) as [Hinflight _];
      [discriminate | exact Hinflight].
Defined.

(** X27: dismissing the preview clears it and the staged image and nothing
    else: the pending timeout and the calls in flight stay, so a call that
    settles after the dismissal with truthy data puts a preview back. *)
Theorem dismiss_keeps_calls_in_flight
        (s : App.t) (input : string) (d : JsValue)
        (Hawaiting : awaiting input s) (Htruthy : truthy d = true) :
  App.aiPreview (dismiss s) = None
  /\ App.previewImage (dismiss s) = None
  /\ App.timeouts (dismiss s) = App.timeouts s
  /\ App.inflight (dismiss s) = App.inflight s
  /\ App.magicInput (dismiss s) = App.magicInput s
  /\ App.aiPreview
       (parseSettled input (Resolved (ok_response d)) (dismiss s))
     = Some d.
Proof.
  repeat split.
  assert (Hex : existsb (String.eqb input) (App.inflight (dismiss s)) = true).
  { apply existsb_exists. exists input. split; [exact Hawaiting |].
    apply String.eqb_refl. }
  unfold parseSettled. rewrite Hex. cbn. rewrite Htruthy. reflexivity.
Qed.

Lemma dismiss_keeps_calls_in_flight_witness :
  App.aiPreview
    (run [Typed "Dinner $4"; TimeoutElapsed 1; Dismissed;
          ParseSettled "Dinner $4" (Resolved (ok_response dinner_4_extraction))]
         App.mounted)
  = Some dinner_4_extraction.
Proof.
  apply (dismiss_keeps_calls_in_flight
           (run [Typed "Dinner $4"; TimeoutElapsed 1] App.mounted)
           "Dinner $4" dinner_4_extraction).
  - left. reflexivity.
  - reflexivity.
Defined.

(** ** The coach chat *)

Lemma questions_app (chat more : list ChatMessage) :
  questions (chat ++ more) = (questions chat + questions more)%nat.
Proof. unfold questions. rewrite filter_app, length_app. reflexivity. Qed.

Lemma answers_app (chat more : list ChatMessage) :
  answers (chat ++ more) = (answers chat + answers more)%nat.
Proof. unfold answers. rewrite filter_app, length_app. reflexivity. Qed.

Lemma remove_first_length (question : string) (l : list string) :
  existsb (String.eqb question) l = true ->
  List.length l = S (List.length (remove_first question l)).
Proof.
  induction l as [| q l IH]; cbn; [discriminate |].
  rewrite (String.eqb_sym question q).
  destruct (q =? question)%string; cbn; [reflexivity |].
  intros Hin. rewrite (IH Hin). reflexivity.
Qed.

Lemma coach_answer_nonempty (settled : Promise Response) :
  coach_answer settled <> "".
Proof.
  destruct settled as [response | e]; cbn.
  - apply or_string_nonempty. discriminate.
  - discriminate.
Qed.

(** Every question shown is either answered or still being asked. *)
Lemma coach_step_balance (c : CoachPanel.t) (e : CoachEvent) :
  questions (App.chatHistory (CoachPanel.app c))
  = (answers (App.chatHistory (CoachPanel.app c))
     + List.length (CoachPanel.asked c))%nat ->
  questions (App.chatHistory (CoachPanel.app (coach_step c e)))
  = (answers (App.chatHistory (CoachPanel.app (coach_step c e)))
     + List.length (CoachPanel.asked (coach_step c e)))%nat.
Proof.
  intros Hbalance. destruct e as [value | | question settled];
    cbn [coach_step].
  - exact Hbalance.
  - unfold submit. cbn zeta.
    destruct (trims_to_nothing (App.coachQuery (CoachPanel.app c)));
      [exact Hbalance |].
    cbn [CoachPanel.app CoachPanel.asked show App.chatHistory].
    rewrite questions_app, answers_app, length_app, Hbalance. cbn. lia.
  - unfold callSettled. cbn zeta.
    destruct (existsb (String.eqb question) (CoachPanel.asked c)) eqn:Hasked;
      [| exact Hbalance].
    cbn [CoachPanel.app CoachPanel.asked show App.chatHistory].
    rewrite questions_app, answers_app, Hbalance.
    rewrite (remove_first_length question _ Hasked). cbn. lia.
Qed.

Lemma coach_run_balance (events : list CoachEvent) (c : CoachPanel.t) :
  questions (App.chatHistory (CoachPanel.app c))
  = (answers (App.chatHistory (CoachPanel.app c))
     + List.length (CoachPanel.asked c))%nat ->
  questions (App.chatHistory (CoachPanel.app (coach_run events c)))
  = (answers (App.chatHistory (CoachPanel.app (coach_run events c)))
     + List.length (CoachPanel.asked (coach_run events c)))%nat.
Proof.
  unfold coach_run. revert c.
  induction events as [| e events IH]; intros c Hbalance; cbn [fold_left].
  - exact Hbalance.
  - apply IH. apply coach_step_balance. exact Hbalance.
Qed.

(** X28: the handler runs in two parts around its [await], and a second
    submit may come between them, so the chat need not alternate. What
    holds after any sequence of typing, submits and settled calls: the
    questions shown are as many as the answers shown plus the calls still
    out, so no answer appears without its question. A submit of a query
    that trims to nothing changes nothing; any other submit shows exactly
    the question, empties the input and sends one call; a call that settles
    shows exactly one answer, which is never empty, whether it succeeded or
    failed. With no other call out, a submit followed by its settlement
    leaves what [askCoach] leaves. *)
Theorem askCoach_answers_follow_questions
        (events : list CoachEvent) (c : CoachPanel.t)
        (question : string) (settled : Promise Response)
        (Hrun : c = coach_run events CoachPanel.opened) :
  questions (App.chatHistory (CoachPanel.app c))
  = (answers (App.chatHistory (CoachPanel.app c))
     + List.length (CoachPanel.asked c))%nat
  /\ (trims_to_nothing (App.coachQuery (CoachPanel.app c)) = true ->
      submit c = c)
  /\ (trims_to_nothing (App.coachQuery (CoachPanel.app c)) = false ->
      App.chatHistory (CoachPanel.app (submit c))
      = (App.chatHistory (CoachPanel.app c)
         ++ [{| role := role_user;
                message := App.coachQuery (CoachPanel.app c) |}])%list
      /\ App.coachQuery (CoachPanel.app (submit c)) = ""
      /\ CoachPanel.asked (submit c)
         = (CoachPanel.asked c ++ [App.coachQuery (CoachPanel.app c)])%list)
  /\ (In question (CoachPanel.asked c) ->
      exists answer,
        App.chatHistory (CoachPanel.app (callSettled question settled c))
        = (App.chatHistory (CoachPanel.app c)
           ++ [{| role := role_ai; message := answer |}])%list
        /\ answer <> ""
        /\ S (List.length (CoachPanel.asked (callSettled question settled c)))
           = List.length (CoachPanel.asked c))
  /\ (~ In question (CoachPanel.asked c) ->
      callSettled question settled c = c)
  /\ (forall ai : GoogleGenAI,
        CoachPanel.asked c = [] ->
        trims_to_nothing (App.coachQuery (CoachPanel.app c))
        = blank (App.coachQuery (CoachPanel.app c)) ->
        CoachPanel.app
          (callSettled
             (App.coachQuery (CoachPanel.app c))
             (generateContent
                ai (askFinancialCoachRequest
                      (App.transactions (CoachPanel.app c))
                      (App.coachQuery (CoachPanel.app c))))
             (submit c))
        = askCoach ai (CoachPanel.app c)).
Proof.
  split; [| split; [| split; [| split; [| split]]]].
  - subst c. apply coach_run_balance. reflexivity.
  - intros Hblank. unfold submit. cbn zeta. rewrite Hblank. reflexivity.
  - intros Hblank. unfold submit. cbn zeta. rewrite Hblank.
    repeat split.
  - intros Hasked.
    assert (Hb : existsb (String.eqb question) (CoachPanel.asked c) = true).
    { apply existsb_exists. exists question.
      split; [exact Hasked | apply String.eqb_refl]. }
    unfold callSettled. cbn zeta. rewrite Hb.
    cbn [CoachPanel.app CoachPanel.asked show App.chatHistory].
    exists (coach_answer settled). split; [reflexivity |].
    split; [apply coach_answer_nonempty |].
    symmetry. apply remove_first_length. exact Hb.
  - intros Hnot. unfold callSettled. cbn zeta.
    destruct (existsb (String.eqb question) (CoachPanel.asked c)) eqn:Hb;
      [| reflexivity].
    exfalso. apply Hnot. apply existsb_exists in Hb.
    destruct Hb as [q [Hq Heq]]. apply String.eqb_eq in Heq. subst q. exact Hq.
  - intros ai Hnone Hsame. unfold submit, askCoach. cbn zeta.
    rewrite <- Hsame.
    destruct (trims_to_nothing (App.coachQuery (CoachPanel.app c))) eqn:Hblank.
    + unfold callSettled. cbn zeta. rewrite Hnone. reflexivity.
    + unfold callSettled. cbn zeta.
      cbn [CoachPanel.app CoachPanel.asked]. rewrite Hnone.
      cbn [app existsb]. rewrite String.eqb_refl. cbn [orb].
      unfold show, coach_answer, askFinancialCoach.
      cbn [App.transactions App.magicInput App.isProcessing App.coachQuery
           App.chatHistory App.aiPreview App.previewImage App.timerRef
           App.nextTimeoutId App.timeouts App.inflight].
      rewrite <- app_assoc.
      destruct (generateContent ai _); reflexivity.
Qed.

Lemma askCoach_answers_follow_questions_witness :
  let c := coach_run overlapping_questions CoachPanel.opened in
  map role (App.chatHistory (CoachPanel.app c))
  = [role_user; role_user; role_ai; role_ai]
  /\ map message (App.chatHistory (CoachPanel.app c))
     = ["Why am I broke?"; "Where can I save?"; "Spectral link broken.";
        "Spend less on dinners."]
  /\ questions (App.chatHistory (CoachPanel.app c))
     = (answers (App.chatHistory (CoachPanel.app c))
        + List.length (CoachPanel.asked c))%nat.
Proof.
  cbn zeta. split; [reflexivity |]. split; [reflexivity |].
  destruct (askCoach_answers_follow_questions
              overlapping_questions
              (coach_run overlapping_questions CoachPanel.opened)
              "Why am I broke?" (Rejected (Error "fetch failed")) eq_refl)
    as [Hbalance _].
  exact Hbalance.
Defined.

(** ** Budget progress bars *)

Lemma Math_min_le_r (a b : Q) : Math_min a b <= b.
Proof.
  unfold Math_min. destruct (Qle_bool a b) eqn:E.
  - apply Qle_bool_iff. exact E.
  - apply Qle_refl.
Qed.

Lemma Math_min_cases (a b : Q) :
  (a <= b /\ Math_min a b = a) \/ (b < a /\ Math_min a b = b).
Proof.
  unfold Math_min. destruct (Qle_bool a b) eqn:E.
  - left. split; [apply Qle_bool_iff; exact E | reflexivity].
  - right. split; [| reflexivity].
    apply Qnot_le_lt. intros Hle. apply Qle_bool_iff in Hle. congruence.
Qed.

Lemma by_percent_desc_spec (a b : BudgetProgress.t) :
  may_precede by_percent_desc a b <-> no_less_full a b.
Proof.
  unfold may_precede, by_percent_desc, sign_of_Q, no_less_full.
  rewrite <- Qle_alt. split; intros Hle; lra.
Qed.

Lemma Array_sort_by_percent_desc (l : list BudgetProgress.t) :
  StronglySorted no_less_full (Array_sort by_percent_desc l).
Proof.
  apply StronglySorted_weaken with (R := may_precede by_percent_desc).
  - intros a b _ _. apply by_percent_desc_spec.
  - apply Array_sort_sorted.
    + intros a b _ _ Hgt. apply by_percent_desc_spec. unfold no_less_full.
      destruct (Qlt_le_dec (BudgetProgress.percent b) (BudgetProgress.percent a))
        as [Hlt | Hle]; [| exact Hle].
      exfalso. assert (Hab : may_precede by_percent_desc a b).
      { apply by_percent_desc_spec. unfold no_less_full. lra. }
      contradiction.
    + intros a b d _ _ _ Hab Hbd.
      apply by_percent_desc_spec in Hab, Hbd. apply by_percent_desc_spec.
      unfold no_less_full in *. lra.
Qed.

(** X29: for budgets whose limit is positive, the progress list holds one
    bar per budget, fullest first; a bar is never above 100, shows spent
    over limit times 100 while spending is within the limit, and is capped
    at 100 beyond it. *)
Theorem budgetProgress_capped_and_sorted
        (budgets : list Budget.t)
        (Hlimits : forall b, In b budgets -> 0 < Budget.limitAmount b) :
  Permutation (map BudgetProgress.budget (budgetProgress budgets)) budgets
  /\ StronglySorted no_less_full (budgetProgress budgets)
  /\ forall bar, In bar (budgetProgress budgets) ->
       let b := BudgetProgress.budget bar in
       In b budgets
       /\ BudgetProgress.percent bar <= 100
       /\ (Budget.spent b <= Budget.limitAmount b ->
           BudgetProgress.percent bar
           == (Budget.spent b / Budget.limitAmount b) * 100)
       /\ (Budget.limitAmount b <= Budget.spent b ->
           BudgetProgress.percent bar == 100).
Proof.
  unfold budgetProgress.
  split; [| split; [apply Array_sort_by_percent_desc |]].
  - rewrite (Permutation_map BudgetProgress.budget
               (Array_sort_perm by_percent_desc _)).
    rewrite map_map. cbn. rewrite map_id. reflexivity.
  - intros bar Hbar. apply Array_sort_In in Hbar.
    apply in_map_iff in Hbar. destruct Hbar as [b [<- Hb]].
    cbn zeta. cbn [BudgetProgress.budget BudgetProgress.percent].
    pose proof (Hlimits b Hb) as Hpos.
    split; [exact Hb |]. split; [apply Math_min_le_r |].
    assert (Hratio : Budget.spent b <= Budget.limitAmount b
                     <-> (Budget.spent b / Budget.limitAmount b) * 100 <= 100).
    { split; intros Hle.
      - assert (Hone : Budget.spent b / Budget.limitAmount b <= 1).
        { apply Qle_shift_div_r; [exact Hpos |]. rewrite Qmult_1_l. exact Hle. }
        lra.
      - assert (Hone : Budget.spent b / Budget.limitAmount b <= 1) by lra.
        apply (Qmult_le_compat_r _ _ (Budget.limitAmount b)) in Hone;
          [| apply Qlt_le_weak; exact Hpos].
        rewrite Qmult_1_l in Hone.
        assert (Hback : Budget.spent b / Budget.limitAmount b
                        * Budget.limitAmount b == Budget.spent b)
          by (field; intros Hzero; rewrite Hzero in Hpos;
              exact (Qlt_irrefl 0 Hpos)).
        rewrite Hback in Hone. exact Hone. }
    destruct (Math_min_cases ((Budget.spent b / Budget.limitAmount b) * 100) 100)
      as [[Hle Hmin] | [Hgt Hmin]]; rewrite Hmin.
    + split; [reflexivity |]. intros Hover.
      apply Hratio in Hle.
      assert (Heq : Budget.spent b == Budget.limitAmount b)
        by (apply Qle_antisym; assumption).
      rewrite Heq. field. intros Hzero. rewrite Hzero in Hpos.
      exact (Qlt_irrefl 0 Hpos).
    + split; [| reflexivity]. intros Hwithin. apply Hratio in Hwithin.
      exfalso. apply (Qlt_not_le _ _ Hgt). exact Hwithin.
Qed.

Lemma budgetProgress_capped_and_sorted_witness :
  map BudgetProgress.percent (budgetProgress [half_used_health; overspent_food])
  = [100; (40 / 80) * 100].
Proof.
  destruct (budgetProgress_capped_and_sorted [half_used_health; overspent_food])
    as [_ [_ _]].
  - intros b [<- | [<- | []]]; reflexivity.
  - reflexivity.
Defined.

(** ** Chart labels *)

Lemma split_on_no_dash (s : string) :
  no_dash s = true -> split_on "-" s = [s].
Proof.
  induction s as [| c s IH]; intros Hno; cbn in *; [reflexivity |].
  apply andb_true_iff in Hno. destruct Hno as [Hc Hs].
  apply negb_true_iff in Hc. rewrite Hc, (IH Hs). reflexivity.
Qed.

Lemma split_on_dash (piece rest : string) :
  no_dash piece = true ->
  split_on "-" (piece ++ String "-" rest) = piece :: split_on "-" rest.
Proof.
  induction piece as [| c piece IH]; intros Hno; cbn in *; [reflexivity |].
  apply andb_true_iff in Hno. destruct Hno as [Hc Hp].
  apply negb_true_iff in Hc. rewrite Hc, (IH Hp). reflexivity.
Qed.

(** X30: the chart shows one point per trend entry, in the trend's order
    and with its amounts; the label of a day [year-month-day] is
    [month/day], and a date without any [-] gets the empty label. Before the
    analytics arrive the chart is empty. *)
Theorem chartData_labels_month_and_day
        (summary : AnalyticsSummary) (year month day plain : string)
        (Hyear : no_dash year = true) (Hmonth : no_dash month = true)
        (Hday : no_dash day = true) (Hplain : no_dash plain = true) :
  chartData None = []
  /\ map ChartPoint.value (chartData (Some summary))
     = map MonthlyTrend.amount (trend summary)
  /\ map ChartPoint.name (chartData (Some summary))
     = map (fun t => chart_label (MonthlyTrend.date t)) (trend summary)
  /\ chart_label (year ++ "-" ++ month ++ "-" ++ day) = month ++ "/" ++ day
  /\ chart_label plain = "".
Proof.
  split; [reflexivity |].
  split; [cbn; rewrite map_map; reflexivity |].
  split; [cbn; rewrite map_map; reflexivity |].
  unfold chart_label. split.
  - change (year ++ "-" ++ month ++ "-" ++ day)
      with (year ++ String "-" (month ++ String "-" day)).
    rewrite (split_on_dash year _ Hyear), (split_on_dash month _ Hmonth).
    rewrite (split_on_no_dash day Hday). reflexivity.
  - rewrite (split_on_no_dash plain Hplain). reflexivity.
Qed.

Lemma chartData_labels_month_and_day_witness :
  chart_label "2024-03-01" = "03/01".
Proof.
  destruct (chartData_labels_month_and_day
              {| totalSpent := 0; burnRate := 0; topCategories := [];
                 trend := [] |}
              "2024" "03" "01" "today" eq_refl eq_refl eq_refl eq_refl)
    as [_ [_ [_ [Hlabel _]]]].
  exact Hlabel.
Defined.
